(** * Hyperliquid whale tracker: position-change detection, scoring, sentiment

    A shallow embedding of [whale_tracker.py].  Python floats are IEEE-754
    binary64 values, so they are carried by Rocq's primitive [float]; Python
    dicts keyed by account address are [gmap string _]; the dict returned by
    [get_whale_winrate], whose set of keys depends on the branch taken, is a
    [gmap string PyVal] read with [dict.get].  The upstream HTTP API is an
    explicit argument of every operation that queries it, and an exception
    that Python would let escape is an explicit [None].  The alerts are the
    byte strings that [format_position_alert] builds, Telegram is a second
    explicit argument, and of [runner.py] the table of the [--winrates] mode
    is embedded.  The operations come in two layers: on typed answers, whose
    numeric fields are the floats that [float(...)] returned, and on the
    decoded JSON bodies, where every access and conversion made outside the
    [try] of [_post] can raise.

    The file first gives the Python operations the tracker relies on
    (rounding, comparison, sort), then the data model and the methods of
    [WhaleTracker], then the vocabulary and sample inputs of the statements,
    and last the properties. *)

From Stdlib Require Import ZArith Floats Sorting.Sorted Sorting.Permutation.
From Stdlib Require DecimalString.
From stdpp Require Import gmap strings list fin_maps.

Open Scope Z_scope.

(** ** Python numbers *)

Module Py.

(** Round-half-even quotient of [n / d], the rule Python's [round] applies to
    the exact decimal expansion of a binary64 value. *)
Definition round_half_even (n : Z) (d : positive) : Z :=
  let q := n / Zpos d in
  let r := n mod Zpos d in
  match 2 * r ?= Zpos d with
  | Lt => q
  | Gt => q + 1
  | Eq => if Z.even q then q else q + 1
  end.

(** The binary64 value nearest to the exact quotient [n / d] (ties to even),
    signed by [s]: what [strtod] returns for a decimal string and what
    CPython's [int / int] returns for two integers. *)
Definition nearest_float (s : bool) (n d : positive) : float :=
  let '(mz, ez, lz) := SFdiv_core_binary prec emax (Zpos n) 0 (Zpos d) 0 in
  SF2Prim (binary_round_aux prec emax s mz ez lz).

(** [round(x, ndigits)] on a float, for [ndigits >= 0]: infinities and NaN
    round to themselves; a finite [x = m * 2^e] is scaled by [10^ndigits],
    rounded half-even to an integer on its exact value, and the decimal so
    obtained is converted back to the nearest binary64.  The sign of a zero
    result is the sign of [x]. *)
Definition round (x : float) (ndigits : nat) : float :=
  match Prim2SF x with
  | S754_finite s m e =>
      let p := Pos.of_nat (10 ^ ndigits) in
      let N := match e with
               | Zneg k => round_half_even (Zpos (m * p)) (2 ^ k)%positive
               | _ => Zpos m * Zpos p * 2 ^ e
               end in
      match N with
      | Zpos n => nearest_float s n p
      | _ => if s then neg_zero else zero
      end
  | _ => x
  end.

(** [a / b] on two ints ([ZeroDivisionError] when [b = 0]; the one call site
    is guarded by [wins + losses > 0], and counts are never negative, so the
    other cases are not reached). *)
Definition truediv (a b : Z) : float :=
  match a, b with
  | Zpos n, Zpos d => nearest_float false n d
  | Z0, Zpos _ => zero
  | _, _ => nan
  end.

(** An int operand of a mixed int/float operation, below 2^63 in magnitude.
    The ints this program mixes with floats are the literals 0, 50 and 100,
    all exactly representable. *)
Definition float_of_int (z : Z) : float :=
  match z with
  | Z0 => zero
  | Zpos _ => of_uint63 (Uint63.of_Z z)
  | Zneg p => (- of_uint63 (Uint63.of_Z (Zpos p)))%float
  end.

(** A total accumulated with [+=] from 0, left to right. *)
Definition running_total (xs : list float) : float :=
  fold_left PrimFloat.add xs 0%float.

(** [sum(xs)] over floats: the same left-to-right additions starting from
    the int 0 (CPython up to 3.11; later versions carry a compensation term
    that can change the last bits of an inexact total). *)
Definition sum (xs : list float) : float := running_total xs.

(** The values stored in the dicts of this program. *)
Inductive PyVal :=
| VNone
| VBool (b : bool)
| VInt (z : Z)
| VFloat (f : float)
| VStr (s : string).

(** [d.get(k)] and [d.get(k, default)]. *)
Definition get (d : gmap string PyVal) (k : string) : PyVal :=
  default VNone (d !! k).
Definition get_default (d : gmap string PyVal) (k : string) (dflt : PyVal) : PyVal :=
  default dflt (d !! k).

(** A bool operand of a comparison counts as the int it is. *)
Definition as_number (v : PyVal) : PyVal :=
  match v with
  | VBool b => VInt (Z.b2z b)
  | _ => v
  end.

(** [a < b].  [None] stands for the [TypeError] Python 3 raises when the two
    operands are not ordered: here, whenever one of them is [None].  An int
    that meets a float is converted; the comparison is then exact as long as
    the int is below 2^53 in magnitude. *)
Definition lt (a b : PyVal) : option bool :=
  match as_number a, as_number b with
  | VInt x, VInt y => Some (x <? y)
  | VInt x, VFloat y => Some (float_of_int x <? y)%float
  | VFloat x, VInt y => Some (x <? float_of_int y)%float
  | VFloat x, VFloat y => Some (x <? y)%float
  | VStr x, VStr y => Some (String.ltb x y)
  | _, _ => None
  end.

(** [a >= b], same convention. *)
Definition ge (a b : PyVal) : option bool :=
  match as_number a, as_number b with
  | VInt x, VInt y => Some (y <=? x)
  | VInt x, VFloat y => Some (y <=? float_of_int x)%float
  | VFloat x, VInt y => Some (float_of_int y <=? x)%float
  | VFloat x, VFloat y => Some (y <=? x)%float
  | VStr x, VStr y => Some (String.leb y x)
  | _, _ => None
  end.

(** [a == b] on the values above; it never raises. *)
Definition eqv (a b : PyVal) : bool :=
  match as_number a, as_number b with
  | VNone, VNone => true
  | VInt x, VInt y => x =? y
  | VInt x, VFloat y => (float_of_int x =? y)%float
  | VFloat x, VInt y => (x =? float_of_int y)%float
  | VFloat x, VFloat y => (x =? y)%float
  | VStr x, VStr y => String.eqb x y
  | _, _ => false
  end.

Section Sort.
Context {A : Type} (key : A -> PyVal).

(** One step of a stable descending sort: [x], which stood before every
    element of [l] in the input, moves past the elements whose key is
    strictly greater and stops in front of the first one that is not. *)
Fixpoint insert_desc (x : A) (l : list A) : option (list A) :=
  match l with
  | [] => Some [x]
  | y :: l' =>
      match lt (key x) (key y) with
      | None => None
      | Some true => cons y <$> insert_desc x l'
      | Some false => Some (x :: l)
      end
  end.

(** [l.sort(key=key, reverse=True)]: the stable sort by descending key.
    Python's sort compares keys with [<] only, compares every element at
    least once when the list has two or more, and propagates the
    [TypeError] of a failed comparison.  On keys that are totally ordered
    every stable sort returns the same list, so the algorithm is insertion
    rather than CPython's merge of runs. *)
Definition sort_desc (l : list A) : option (list A) :=
  foldr (fun x acc => acc ≫= insert_desc x) (Some []) l.
End Sort.

End Py.

Import Py.

(** ** Data model *)

Inductive Direction := LONG | SHORT.

#[global] Instance Direction_eq_dec : EqDecision Direction.
Proof. solve_decision. Defined.

(** The dict [get_current_position] returns and [previous_positions.json]
    stores per address; its keys are the fields of the [WhalePosition]
    dataclass. *)
Record WhalePosition := {
  address : string;
  size_btc : float;
  direction : Direction;
  entry_price : float;
  leverage : float;
  account_value : float;
  unrealized_pnl : float
}.

(** One entry of [assetPositions] in a [clearinghouseState] answer, with the
    defaults of the [.get] calls applied and [float(...)] taken: the payload
    is well typed, every numeric field converts. *)
Record AssetPosition := {
  coin : string;
  szi : float;
  entryPx : float;
  leverage_value : float;
  unrealizedPnl : float
}.

(** A decoded [clearinghouseState] answer: [assetPositions] is [None] when
    the key is missing (or the body is an empty object). *)
Record ClearinghouseState := {
  accountValue : float;
  assetPositions : option (list AssetPosition)
}.

(** One fill of a [userFillsByTime] answer, [closedPnl] converted (0 when
    the key is missing). *)
Record Fill := {
  fill_coin : string;
  closedPnl : float
}.

(** What [session.post] followed by [raise_for_status] and [json] does on one
    request: it raises, or yields the decoded body. *)
Inductive Response (A : Type) :=
| ConnectionError
| ReadTimeout
| HTTPError (status : Z)
| JSONDecodeError
| Body (body : A).
Arguments ConnectionError {A}.
Arguments ReadTimeout {A}.
Arguments HTTPError {A} status.
Arguments JSONDecodeError {A}.
Arguments Body {A} body.

(** The upstream API as one detection cycle sees it: the answer to each
    request, by account (and by window for the fills). *)
Record Upstream := {
  clearinghouseState : string -> Response ClearinghouseState;
  userFillsByTime : string -> Z -> Response (list Fill)
}.

(** The dicts appended to [new_positions]; the constructor is the ['type']
    entry. *)
Inductive ChangeEvent :=
| NEW_POSITION (address address_short : string) (direction : Direction)
    (size_btc entry_price leverage account_value : float)
    (winrate pnl_30d trades_30d : PyVal)
| DIRECTION_CHANGE (address address_short : string)
    (old_direction new_direction : Direction)
    (size_btc entry_price leverage : float)
    (winrate pnl_30d trades_30d : PyVal)
| SIZE_INCREASE (address address_short : string) (direction : Direction)
    (old_size new_size increase_pct leverage : float)
    (winrate pnl_30d trades_30d : PyVal).

Definition event_address (e : ChangeEvent) : string :=
  match e with
  | NEW_POSITION a _ _ _ _ _ _ _ _ _ => a
  | DIRECTION_CHANGE a _ _ _ _ _ _ _ _ _ => a
  | SIZE_INCREASE a _ _ _ _ _ _ _ _ _ => a
  end.

Inductive Sentiment :=
| STRONG_LONG | SLIGHTLY_LONG | STRONG_SHORT | SLIGHTLY_SHORT | NEUTRAL.

Record SentimentSummary := {
  whale_count : Z;
  total_long_btc : float;
  total_short_btc : float;
  long_ratio_pct : float;
  sentiment : Sentiment
}.

(** ** The tracker *)

Definition WHALE_ADDRESSES : list string := [
  "0xb83de012dba672c76a7dbbbf3e459cb59d7d6e36";
  "0xb317d2bc2d3d2df5fa441b5bae0ab9d8b07283ae";
  "0xc2a30212a8ddac9e123944d6e29faddce994e5f2";
  "0x4f9a37bc2a4a2861682c0e9be1f9417df03cc27c";
  "0x2ea18c23f72a4b6172c55b411823cdc5335923f4";
  "0x3e10864b0efa14994c350ed247c815966a8fd962";
  "0x3e10d813db3374877e2074cb8126066ca7dad962";
  "0x952044eb3c860b00778ea414670a6c8c22f84ac6";
  "0x99E1E710fAf2EA090E5cFA5A600c1478031640be";
  "0xEe7aE85f2Fe2239E27D9c1E23fFFe168D63b4055";
  "0xa5b0edf6b55128e0ddae8e51ac538c3188401d41";
  "0x9c89f595f5515609ad61f6fda94beff85ae6600e";
  "0x3c363e96d22c056d748f199fb728fc80d70e461a";
  "0xc26cbb6483229e0d0f9a1cab675271eda535b8f4";
  "0x175e7023e8dc93d0c044852685ac33e856b577b4";
  "0x0e41eb80e9a39ae7b887a94f6a88f6c791e26359";
  "0x0ddf9bae2af4b874b96d287a5ad42eb47138a902";
  "0xf97ad6704baec104d00b88e0c157e2b7b3a1ddd1";
  "0xefffa330cbae8d916ad1d33f0eeb16cfa711fa91";
  "0x6f1d35664eab0efa5a796091c28d14f1472d3162";
  "0xe0665019fcf5ffa4a5aea5cf65f84016fcbe78da";
  "0x4b66f4048a0a90fd5ff44abbe5d68332656b78b8";
  "0xa4add8273d7f47318675bdfbcce3e9648cdb4509";
  "0xfd97600ac44b3c4e20ac1a5f23e3b18d10fa5912";
  "0x7583b5364597736a6a72c4ba61ede0a4a37ef4de";
  "0x06cecfbac34101ae41c88ebc2450f8602b3d164b";
  "0x41206f8efb51e5039e5b46e04e7866a4849f72d2";
  "0x7fdafde5cfb5465924316eced2d3715494c517d1";
  "0x418aa6bf98a2b2bc93779f810330d88cde488888";
  "0x7ca165f354e3260e2f8d5a7508cc9dd2fa009235";
  "0x2c76be702ee99922754a6df7158091a5e33f7662";
  "0x3e5dacb70247b57aca1d62b927c398ff05b7e570";
  "0x0284bbd3646b59740a167ef78a306028343f3806";
  "0x92b585bdf2d67c0fe321108b863ca4617dd39fe9";
  "0xad572a7894c7b0ba4db67c2a7602dd3376d4f094";
  "0x11eee2e0a613af4f636e23ff295e2dac6a191d1d"
]%string.

(** [_post]: every exception of the request is swallowed into [None]. *)
Definition _post {A : Type} (r : Response A) : option A :=
  match r with
  | Body data => Some data
  | _ => None
  end.

(** [address[:10] + '...'].  The slice is taken on bytes; the addresses of
    the roster are ASCII, where a byte is a character. *)
Definition address_short_of (a : string) : string :=
  String.append (String.substring 0 10 a) "...".

(** ['LONG' if size > 0 else 'SHORT'] *)
Definition direction_of_size (size : float) : Direction :=
  if (0 <? size)%float then LONG else SHORT.

(** The [for pos in data['assetPositions']] loop of [get_current_position]:
    the first BTC entry whose [szi] is not 0 is returned; a BTC entry with
    [szi == 0] is skipped and the scan goes on. *)
Fixpoint scan_asset_positions (addr : string) (account_value : float)
    (positions : list AssetPosition) : option WhalePosition :=
  match positions with
  | [] => None
  | pos :: rest =>
      if String.eqb (coin pos) "BTC" && negb (szi pos =? 0)%float then
        Some {| address := addr;
                size_btc := szi pos;
                direction := direction_of_size (szi pos);
                entry_price := entryPx pos;
                leverage := leverage_value pos;
                account_value := account_value;
                unrealized_pnl := unrealizedPnl pos |}
      else scan_asset_positions addr account_value rest
  end.

Definition get_current_position (up : Upstream) (addr : string)
    : option WhalePosition :=
  match _post (clearinghouseState up addr) with
  | None => None
  | Some data =>
      match assetPositions data with
      | None => None
      | Some positions =>
          scan_asset_positions addr (accountValue data) positions
      end
  end.

Definition count_if {A : Type} (p : A -> bool) (l : list A) : Z :=
  Z.of_nat (length (List.filter p l)).

Definition is_win (f : Fill) : bool := (0 <? closedPnl f)%float.
Definition is_loss (f : Fill) : bool := (closedPnl f <? 0)%float.

Definition btc_fills_of (fills : list Fill) : list Fill :=
  List.filter (fun f => String.eqb (fill_coin f) "BTC") fills.
Definition closed_trades_of (btc_fills : list Fill) : list Fill :=
  List.filter (fun f => negb (closedPnl f =? 0)%float) btc_fills.

Definition gross_profit_of (closed_trades : list Fill) : float :=
  Py.sum (map closedPnl (List.filter is_win closed_trades)).
Definition gross_loss_of (closed_trades : list Fill) : float :=
  abs (Py.sum (map closedPnl (List.filter is_loss closed_trades))).

(** The local [profit_factor], before it is rounded into the result. *)
Definition profit_factor_of (closed_trades : list Fill) : float :=
  let gross_profit := gross_profit_of closed_trades in
  let gross_loss := gross_loss_of closed_trades in
  if (0 <? gross_loss)%float then (gross_profit / gross_loss)%float
  else infinity.

(** The ['winrate'] entry of a scored result. *)
Definition winrate_of (wins losses : Z) : PyVal :=
  if 0 <? wins + losses
  then VFloat (Py.round (Py.truediv wins (wins + losses) * 100)%float 1)
  else VInt 0.

Definition get_whale_winrate (up : Upstream) (addr : string) (days : Z)
    : gmap string PyVal :=
  match _post (userFillsByTime up addr days) with
  | None | Some [] =>
      {[ "address" := VStr addr; "has_btc_trades" := VBool false ]}
  | Some fills =>
      let btc_fills := btc_fills_of fills in
      let closed_trades := closed_trades_of btc_fills in
      match closed_trades with
      | [] =>
          {[ "address" := VStr addr;
             "has_btc_trades" := VBool (0 <? Z.of_nat (length btc_fills));
             "total_btc_fills" := VInt (Z.of_nat (length btc_fills));
             "closed_trades" := VInt 0;
             "winrate" := VNone ]}
      | _ =>
          let wins := count_if is_win closed_trades in
          let losses := count_if is_loss closed_trades in
          let total_pnl := Py.sum (map closedPnl closed_trades) in
          let profit_factor := profit_factor_of closed_trades in
          {[ "address" := VStr addr;
             "address_short" := VStr (address_short_of addr);
             "has_btc_trades" := VBool true;
             "total_btc_fills" := VInt (Z.of_nat (length btc_fills));
             "closed_trades" := VInt (Z.of_nat (length closed_trades));
             "wins" := VInt wins;
             "losses" := VInt losses;
             "winrate" := winrate_of wins losses;
             "total_pnl" := VFloat (Py.round total_pnl 2);
             "profit_factor" := VFloat (Py.round profit_factor 2);
             "period_days" := VInt days ]}
      end
  end.

(** [wr.get('closed_trades', 0) >= min_trades]; both operands are ints. *)
Definition enough_trades (min_trades : Z) (wr : gmap string PyVal) : bool :=
  match Py.ge (get_default wr "closed_trades" (VInt 0)) (VInt min_trades) with
  | Some b => b
  | None => false
  end.

(** The list [results] of [get_all_winrates] when its loop ends, in roster
    order. *)
Definition retained_winrates (roster : list string) (up : Upstream)
    (days min_trades : Z) : list (gmap string PyVal) :=
  List.filter (enough_trades min_trades)
    (map (fun addr => get_whale_winrate up addr days) roster).

Definition winrate_key (x : gmap string PyVal) : PyVal :=
  get_default x "winrate" (VInt 0).

(** [get_all_winrates]; [None] is the [TypeError] escaping from [sort]. *)
Definition get_all_winrates_on (roster : list string) (up : Upstream)
    (days min_trades : Z) : option (list (gmap string PyVal)) :=
  Py.sort_desc winrate_key (retained_winrates roster up days min_trades).

Definition get_all_winrates := get_all_winrates_on WHALE_ADDRESSES.

(** *** Position-change detection *)

(** The three reads of the winrate dict that every alert carries. *)
Definition winrate_fields (up : Upstream) (addr : string)
    : PyVal * PyVal * PyVal :=
  let wr_data := get_whale_winrate up addr 30 in
  (Py.get wr_data "winrate",
   get_default wr_data "total_pnl" (VInt 0),
   get_default wr_data "closed_trades" (VInt 0)).

(** [(curr_size - prev_size) / prev_size * 100]; evaluated only under
    [prev_size > 0], where Python's float division does not raise. *)
Definition size_change_of (prev_size curr_size : float) : float :=
  ((curr_size - prev_size) / prev_size * 100)%float.

(** The loop state of [check_position_changes]. *)
Record CheckState := {
  new_positions : list ChangeEvent;
  current_positions : gmap string WhalePosition
}.

(** One iteration of the [for address in WHALE_ADDRESSES] loop: the current
    position is recorded for saving, then the [if]/[elif] chain appends at
    most one dict to [new_positions]. *)
Definition check_address (up : Upstream)
    (_previous_positions : gmap string WhalePosition)
    (st : CheckState) (addr : string) : CheckState :=
  let current := get_current_position up addr in
  let previous := _previous_positions !! addr in
  let current_positions :=
    match current with
    | Some c => <[addr := c]> (current_positions st)
    | None => current_positions st
    end in
  let new_positions :=
    match current, previous with
    | Some cur, None =>
        let '(winrate, pnl_30d, trades_30d) := winrate_fields up addr in
        new_positions st ++
          [NEW_POSITION addr (address_short_of addr) (direction cur)
             (abs (size_btc cur)) (entry_price cur) (leverage cur)
             (account_value cur) winrate pnl_30d trades_30d]
    | Some cur, Some prev =>
        if negb (bool_decide (direction cur = direction prev)) then
          let '(winrate, pnl_30d, trades_30d) := winrate_fields up addr in
          new_positions st ++
            [DIRECTION_CHANGE addr (address_short_of addr)
               (direction prev) (direction cur)
               (abs (size_btc cur)) (entry_price cur) (leverage cur)
               winrate pnl_30d trades_30d]
        else
          let prev_size := abs (size_btc prev) in
          let curr_size := abs (size_btc cur) in
          if (0 <? prev_size)%float then
            let size_change := size_change_of prev_size curr_size in
            if (50 <? size_change)%float then
              let '(winrate, pnl_30d, trades_30d) := winrate_fields up addr in
              new_positions st ++
                [SIZE_INCREASE addr (address_short_of addr) (direction cur)
                   prev_size curr_size (Py.round size_change 1)
                   (leverage cur) winrate pnl_30d trades_30d]
            else new_positions st
          else new_positions st
    | None, _ => new_positions st
    end in
  {| new_positions := new_positions; current_positions := current_positions |}.

(** The body of [check_position_changes] up to the save: the events, and the
    dict handed to [_save_previous_positions]. *)
Definition check_position_changes_on (roster : list string) (up : Upstream)
    (_previous_positions : gmap string WhalePosition) : CheckState :=
  fold_left (check_address up _previous_positions) roster
    {| new_positions := []; current_positions := ∅ |}.

Definition check_position_changes := check_position_changes_on WHALE_ADDRESSES.

(** *** Persistence *)

(** [previous_positions.json]: [None] when the file is missing or does not
    decode. *)
Definition PositionsFile := option (gmap string WhalePosition).

Definition _load_previous_positions (file : PositionsFile)
    : gmap string WhalePosition :=
  default ∅ file.

(** [_save_previous_positions] replaces the whole file; when the write
    raises, the exception is printed and the file is as it was. *)
Definition _save_previous_positions (writable : bool)
    (positions : gmap string WhalePosition) (file : PositionsFile)
    : PositionsFile :=
  if writable then Some positions else file.

(** One process run in the default mode: [WhaleTracker()] loads the file,
    [check_position_changes] sweeps the roster and saves. *)
Definition run_cycle (up : Upstream) (writable : bool) (file : PositionsFile)
    : list ChangeEvent * PositionsFile :=
  let st := check_position_changes up (_load_previous_positions file) in
  (new_positions st,
   _save_previous_positions writable (current_positions st) file).

(** *** Sentiment *)

Record SentimentTotals := {
  total_long : float;
  total_short : float;
  count : Z
}.

(** One iteration of the loop of [get_current_sentiment]. *)
Definition sentiment_address (up : Upstream) (acc : SentimentTotals)
    (addr : string) : SentimentTotals :=
  match get_current_position up addr with
  | Some pos =>
      if (0 <? size_btc pos)%float then
        {| total_long := (total_long acc + abs (size_btc pos))%float;
           total_short := total_short acc;
           count := count acc + 1 |}
      else
        {| total_long := total_long acc;
           total_short := (total_short acc + abs (size_btc pos))%float;
           count := count acc + 1 |}
  | None => acc
  end.

Definition sentiment_totals (roster : list string) (up : Upstream)
    : SentimentTotals :=
  fold_left (sentiment_address up) roster
    {| total_long := 0; total_short := 0; count := 0 |}.

(** The local [long_ratio]; the int 50 of the [else] branch is carried as
    the float it equals. *)
Definition long_ratio_of (total_long total_short : float) : float :=
  let total_size := (total_long + total_short)%float in
  if (0 <? total_size)%float then (total_long / total_size * 100)%float
  else 50%float.

Definition sentiment_of (long_ratio : float) : Sentiment :=
  if (65 <? long_ratio)%float then STRONG_LONG
  else if (55 <? long_ratio)%float then SLIGHTLY_LONG
  else if (long_ratio <? 35)%float then STRONG_SHORT
  else if (long_ratio <? 45)%float then SLIGHTLY_SHORT
  else NEUTRAL.

Definition get_current_sentiment_on (roster : list string) (up : Upstream)
    : SentimentSummary :=
  let t := sentiment_totals roster up in
  let long_ratio := long_ratio_of (total_long t) (total_short t) in
  {| whale_count := count t;
     total_long_btc := Py.round (total_long t) 2;
     total_short_btc := Py.round (total_short t) 2;
     long_ratio_pct := Py.round long_ratio 1;
     sentiment := sentiment_of long_ratio |}.

Definition get_current_sentiment := get_current_sentiment_on WHALE_ADDRESSES.

(** ** Python string formatting *)

Module PyStr.

Import Stdlib.Strings.Ascii.

(** The newline that ["\n"] stands for in a Python literal. *)
Definition nl : string := String (ascii_of_nat 10) EmptyString.

(** The decimal digits of [n >= 0]. *)
Definition digits (n : Z) : string :=
  DecimalString.NilZero.string_of_uint (N.to_uint (Z.to_N n)).

(** [str(n)] on an int. *)
Definition str_int (n : Z) : string :=
  if n <? 0 then "-" +:+ digits (- n) else digits n.

(** The [,] of a format spec: a comma every three digits, counted from the
    right.  [group_rev] works on the reversed digits, [n] being the number
    of digits still to pass before the next comma. *)
Fixpoint group_rev (ds : list ascii) (n : nat) : list ascii :=
  match ds with
  | [] => []
  | d :: ds' =>
      match n with
      | O => ","%char :: d :: group_rev ds' 2
      | S n' => d :: group_rev ds' n'
      end
  end.

Definition thousands (s : string) : string :=
  String.string_of_list_ascii
    (rev (group_rev (rev (String.list_ascii_of_string s)) 3)).

(** Right alignment in a field of [width] characters, the default for
    numbers: the text is never cut. *)
Fixpoint repeat_before (c : ascii) (n : nat) (s : string) : string :=
  match n with
  | O => s
  | S n' => String c (repeat_before c n' s)
  end.

Definition pad (c : ascii) (width : nat) (s : string) : string :=
  repeat_before c (width - String.length s) s.

Definition rjust (width : nat) (s : string) : string := pad " "%char width s.

(** [N] hundredths (thousandths, ...) written with [precision] digits after
    the point; no point at precision 0. *)
Definition decimal (N : Z) (precision : nat) (comma : bool) : string :=
  let p := 10 ^ Z.of_nat precision in
  let int_part := digits (N / p) in
  let int_part := if comma then thousands int_part else int_part in
  match precision with
  | O => int_part
  | _ => int_part +:+ String "."%char (pad "0"%char precision (digits (N mod p)))
  end.

(** The magnitude [m * 2^e] scaled by [10^precision] and rounded half-even
    to an integer on its exact value, as the [f] presentation type does. *)
Definition scaled (m : positive) (e : Z) (precision : nat) : Z :=
  let p := Pos.of_nat (10 ^ precision) in
  match e with
  | Zneg k => Py.round_half_even (Zpos (m * p)) (2 ^ k)%positive
  | _ => Zpos m * Zpos p * 2 ^ e
  end.

(** [format(x, '.<precision>f')] and [format(x, ',.<precision>f')] on a
    float.  A negative value keeps its sign when it rounds to zero, and so
    does the negative zero; NaN is written without sign. *)
Definition fixed (x : float) (precision : nat) (comma : bool) : string :=
  match Prim2SF x with
  | S754_nan => "nan"
  | S754_infinity s => if s then "-inf" else "inf"
  | S754_zero s =>
      (if s then "-" else "") +:+ decimal 0 precision comma
  | S754_finite s m e =>
      (if s then "-" else "") +:+ decimal (scaled m e precision) precision comma
  end.

(** [format(v, '<width>,.<precision>f')] on a stored value, [width] 0 when
    the spec gives none.  An int (a bool is one) is converted to float
    first; [None] raises [TypeError] and a str raises [ValueError], both
    rendered as [None]. *)
Definition format_f (v : PyVal) (width precision : nat) (comma : bool)
    : option string :=
  match as_number v with
  | VInt z => Some (rjust width (fixed (float_of_int z) precision comma))
  | VFloat x => Some (rjust width (fixed x precision comma))
  | _ => None
  end.

(** [str(v)], what a replacement field without format spec inserts.  The
    [repr] of a float is not rendered: the result is [None] there, as it is
    nowhere else. *)
Definition str_of (v : PyVal) : option string :=
  match v with
  | VNone => Some "None"
  | VBool b => Some (if b then "True" else "False")
  | VInt z => Some (str_int z)
  | VFloat _ => None
  | VStr s => Some s
  end.

(** [format(v, '<width>')] on an int: right-aligned.  [None] stands for the
    [TypeError] that [None] raises and for the values (float, str, bool)
    that this spec renders in other ways. *)
Definition format_width (v : PyVal) (width : nat) : option string :=
  match v with
  | VInt z => Some (rjust width (str_int z))
  | _ => None
  end.

End PyStr.

Import PyStr.

(** *** Alerts *)

Definition direction_name (d : Direction) : string :=
  match d with
  | LONG => "LONG"
  | SHORT => "SHORT"
  end.

(** The last line of every alert.  [None] is an exception escaping from a
    comparison or a format spec. *)
Definition winrate_line (winrate pnl_30d trades_30d : PyVal)
    : option string :=
  match winrate with
  | VNone => Some (nl +:+ "🏆 Winrate: N/A (pas de trades BTC)")
  | _ =>
      positive ← Py.lt (VInt 0) pnl_30d;
      pnl_emoji ← (if positive : bool then Some "🟢"
                   else negative ← Py.lt pnl_30d (VInt 0);
                        Some (if negative : bool then "🔴" else "⚪"));
      winrate_text ← format_f winrate 0 0 false;
      trades_text ← str_of trades_30d;
      pnl_text ← format_f pnl_30d 0 0 true;
      Some (nl +:+ "🏆 Winrate: " +:+ winrate_text +:+ "% ("
            +:+ trades_text +:+ " trades) " +:+ pnl_emoji +:+ " $"
            +:+ pnl_text)
  end.

(** [format_position_alert].  The three constructors are the three values
    of ['type'] that [check_position_changes] writes, so the closing
    [return str(change)] is not reached. *)
Definition format_position_alert (change : ChangeEvent) : option string :=
  match change with
  | NEW_POSITION _ address_short direction size_btc entry_price leverage
      account_value winrate pnl_30d trades_30d =>
      winrate_line ← winrate_line winrate pnl_30d trades_30d;
      let emoji := match direction with LONG => "🟢" | SHORT => "🔴" end in
      Some ("🐋 <b>WHALE ALERT</b> " +:+ emoji +:+ nl +:+ nl
            +:+ "Nouvelle position BTC" +:+ nl
            +:+ "📍 <code>" +:+ address_short +:+ "</code>" +:+ nl
            +:+ "📊 " +:+ direction_name direction +:+ " "
            +:+ fixed size_btc 2 false +:+ " BTC" +:+ nl
            +:+ "💰 Entry: $" +:+ fixed entry_price 0 true +:+ nl
            +:+ "⚡ Leverage: " +:+ fixed leverage 0 false +:+ "x" +:+ nl
            +:+ "💼 Account: $" +:+ fixed account_value 0 true
            +:+ winrate_line)
  | DIRECTION_CHANGE _ address_short old_direction new_direction size_btc _
      leverage winrate pnl_30d trades_30d =>
      winrate_line ← winrate_line winrate pnl_30d trades_30d;
      Some ("🔄 <b>WHALE FLIP</b>" +:+ nl +:+ nl
            +:+ "Changement de direction!" +:+ nl
            +:+ "📍 <code>" +:+ address_short +:+ "</code>" +:+ nl
            +:+ "❌ " +:+ direction_name old_direction +:+ " → ✅ "
            +:+ direction_name new_direction +:+ nl
            +:+ "📊 Size: " +:+ fixed size_btc 2 false +:+ " BTC" +:+ nl
            +:+ "⚡ Leverage: " +:+ fixed leverage 0 false +:+ "x"
            +:+ winrate_line)
  | SIZE_INCREASE _ address_short direction old_size new_size increase_pct
      leverage winrate pnl_30d trades_30d =>
      winrate_line ← winrate_line winrate pnl_30d trades_30d;
      let emoji := match direction with LONG => "🟢" | SHORT => "🔴" end in
      Some ("📈 <b>WHALE ADDING</b> " +:+ emoji +:+ nl +:+ nl
            +:+ "Position augmentée!" +:+ nl
            +:+ "📍 <code>" +:+ address_short +:+ "</code>" +:+ nl
            +:+ "📊 " +:+ fixed old_size 2 false +:+ " → "
            +:+ fixed new_size 2 false +:+ " BTC" +:+ nl
            +:+ "💹 +" +:+ fixed increase_pct 0 false +:+ "%" +:+ nl
            +:+ "⚡ Leverage: " +:+ fixed leverage 0 false +:+ "x"
            +:+ winrate_line)
  end.

(** What [requests.post] to the Telegram API does with a message: it
    raises, or it returns a response with a status code. *)
Inductive Delivery :=
| DeliveryError
| Status (status_code : Z).

(** The Telegram side of a tracker: the two settings as [__init__] leaves
    them (argument, else environment variable, else [None]) and, for the
    request number [n] of the run, the outcome of posting a text. *)
Record Telegram := {
  telegram_token : option string;
  telegram_chat_id : option string;
  sendMessage : nat -> string -> Delivery
}.

(** Truth value of a setting: [None] and the empty string are false. *)
Definition is_set (setting : option string) : bool :=
  match setting with
  | Some (String _ _) => true
  | _ => false
  end.

(** [send_telegram_notification], threading the texts posted so far. *)
Definition send_telegram_notification (tg : Telegram)
    (posted : list string) (message : string) : bool * list string :=
  if negb (is_set (telegram_token tg)) || negb (is_set (telegram_chat_id tg))
  then (false, posted)
  else
    match sendMessage tg (length posted) message with
    | DeliveryError => (false, posted ++ [message])
    | Status status_code => (status_code =? 200, posted ++ [message])
    end.

(** The dict [monitor_and_alert] returns. *)
Record MonitorResult := {
  changes_detected : Z;
  alerts_sent : Z;
  changes : list ChangeEvent
}.

(** The loop of [monitor_and_alert] from a given counter; [None] when
    [format_position_alert] raises. *)
Fixpoint alert_loop (tg : Telegram) (changes : list ChangeEvent)
    (alerts_sent : Z) (posted : list string) : option (Z * list string) :=
  match changes with
  | [] => Some (alerts_sent, posted)
  | change :: rest =>
      message ← format_position_alert change;
      let '(sent, posted) := send_telegram_notification tg posted message in
      alert_loop tg rest (if sent then alerts_sent + 1 else alerts_sent) posted
  end.

(** [WhaleTracker().monitor_and_alert()], as [main] calls it: a new
    tracker, whose [__init__] loads the file, then the method.  The result
    is the positions file as [check_position_changes] leaves it, then the
    returned dict with the texts posted to Telegram, or [None] for an
    exception raised while the alerts are formatted. *)
Definition monitor_and_alert (up : Upstream) (tg : Telegram)
    (writable : bool) (file : PositionsFile)
    : PositionsFile * option (MonitorResult * list string) :=
  let '(changes, file) := run_cycle up writable file in
  (file,
   '(alerts_sent, posted) ← alert_loop tg changes 0 [];
   Some ({| changes_detected := Z.of_nat (length changes);
            alerts_sent := alerts_sent;
            changes := changes |}, posted)).

(** The method alone, on a tracker that exists already: it reads
    [self._previous_positions], which [__init__] loaded and which no method
    assigns again. *)
Definition monitor_and_alert_with (up : Upstream) (tg : Telegram)
    (writable : bool) (_previous_positions : gmap string WhalePosition)
    (file : PositionsFile)
    : PositionsFile * option (MonitorResult * list string) :=
  let st := check_position_changes up _previous_positions in
  let changes := new_positions st in
  (_save_previous_positions writable (current_positions st) file,
   '(alerts_sent, posted) ← alert_loop tg changes 0 [];
   Some ({| changes_detected := Z.of_nat (length changes);
            alerts_sent := alerts_sent;
            changes := changes |}, posted)).

(** ** The runner *)

(** One line of the table printed by [main] under [--winrates], for the
    entry of rank [i].  A missing key ([KeyError]) and a value that a
    comparison or a format spec refuses are [None]. *)
Definition winrates_row (i : Z) (wr : gmap string PyVal) : option string :=
  total_pnl ← wr !! "total_pnl";
  positive ← Py.lt (VInt 0) total_pnl;
  let pnl_emoji := if positive : bool then "🟢" else "🔴" in
  address_short ← wr !! "address_short" ≫= str_of;
  winrate ← wr !! "winrate" ≫= (fun v => format_f v 5 1 false);
  closed_trades ← wr !! "closed_trades" ≫= (fun v => format_width v 4);
  pnl_text ← format_f total_pnl 12 0 true;
  Some (rjust 2 (str_int i) +:+ ". " +:+ address_short +:+ ": "
        +:+ winrate +:+ "% WR | " +:+ closed_trades +:+ " trades | "
        +:+ pnl_emoji +:+ " $" +:+ pnl_text).

(** The rows for [enumerate(winrates, i)]. *)
Fixpoint winrates_rows (i : Z) (winrates : list (gmap string PyVal))
    : option (list string) :=
  match winrates with
  | [] => Some []
  | wr :: rest =>
      row ← winrates_row i wr;
      rows ← winrates_rows (i + 1) rest;
      Some (row :: rows)
  end.

(** The table of [main] under [--winrates]: the ranking over 30 days with
    at least 5 trades, cut to its first 15 entries. *)
Definition main_winrates (up : Upstream) : option (list string) :=
  winrates ← get_all_winrates up 30 5;
  winrates_rows 1 (take 15 winrates).

(** ** Answers before conversion *)

(** The operations above take the numeric fields of an answer as the floats
    that [float(...)] made of them.  This part goes one step back: an
    answer is whatever [response.json()] decoded, and every attribute
    access, iteration and conversion that the two fetching methods perform
    outside the [try] of [_post] either returns or raises. *)

Module Json.

(** A decoded JSON value.  A dict is the list of its items, one per key. *)
#[warnings="-register-all"]
Inductive JSON :=
| JNull
| JBool (b : bool)
| JInt (z : Z)
| JFloat (x : float)
| JStr (s : string)
| JList (items : list JSON)
| JDict (entries : list (string * JSON)).

(** What evaluating a Python expression does. *)
Inductive Outcome (A : Type) :=
| Raised
| Returned (value : A).
Arguments Raised {A}.
Arguments Returned {A} value.

#[global] Instance Outcome_ret : MRet Outcome := @Returned.
#[global] Instance Outcome_bind : MBind Outcome := fun A B f o =>
  match o with
  | Raised => Raised
  | Returned a => f a
  end.

Definition returned {A : Type} (o : Outcome A) : bool :=
  match o with
  | Raised => false
  | Returned _ => true
  end.

(** [bool(v)] *)
Definition truthy (v : JSON) : bool :=
  match v with
  | JNull => false
  | JBool b => b
  | JInt z => negb (z =? 0)
  | JFloat x => negb (x =? 0)%float
  | JStr EmptyString => false
  | JStr _ => true
  | JList [] => false
  | JList _ => true
  | JDict [] => false
  | JDict _ => true
  end.

Fixpoint lookup (k : string) (entries : list (string * JSON)) : option JSON :=
  match entries with
  | [] => None
  | (k', v) :: rest => if String.eqb k k' then Some v else lookup k rest
  end.

(** [v == k] for a str [k]: no other value equals a str. *)
Definition is_str (k : string) (v : JSON) : bool :=
  match v with
  | JStr s => String.eqb s k
  | _ => false
  end.

(** [k in v] for a str [k]: a key of a dict, an item of a list, a substring
    of a str; [TypeError] on the values that are not containers. *)
Definition contains (k : string) (v : JSON) : Outcome bool :=
  match v with
  | JDict entries => Returned (bool_decide (is_Some (lookup k entries)))
  | JList items => Returned (existsb (is_str k) items)
  | JStr s => Returned (bool_decide (is_Some (String.index 0 k s)))
  | _ => Raised
  end.

(** [v.get(k, default)]: only a dict has the method ([AttributeError]). *)
Definition dict_get (v : JSON) (k : string) (dflt : JSON) : Outcome JSON :=
  match v with
  | JDict entries => Returned (default dflt (lookup k entries))
  | _ => Raised
  end.

(** [v[k]] for a str [k]: [KeyError] on a dict without the key, [TypeError]
    on everything else. *)
Definition subscript (v : JSON) (k : string) : Outcome JSON :=
  match v with
  | JDict entries =>
      match lookup k entries with
      | Some x => Returned x
      | None => Raised
      end
  | _ => Raised
  end.

(** The items a [for] loop over [v] visits: the items of a list, the keys of
    a dict, the characters of a str (here one per byte: they are strs
    either way); [TypeError] on the other values. *)
Definition iterate (v : JSON) : Outcome (list JSON) :=
  match v with
  | JList items => Returned items
  | JDict entries => Returned (map (fun kv => JStr kv.1) entries)
  | JStr s =>
      Returned (map (fun c => JStr (String c EmptyString))
                  (String.list_ascii_of_string s))
  | _ => Raised
  end.

(** [float(z)] on an int: the nearest binary64, [OverflowError] when that
    is beyond the largest finite one. *)
Definition float_of_big_int (z : Z) : Outcome float :=
  let checked (x : float) :=
    match Prim2SF x with
    | S754_infinity _ => Raised
    | _ => Returned x
    end in
  match z with
  | Z0 => Returned 0%float
  | Zpos n => checked (Py.nearest_float false n 1)
  | Zneg n => checked (Py.nearest_float true n 1)
  end.

(** [float(v)].  The conversion of a str, with its [ValueError] as [None],
    is the argument [float_of_str]: nothing below depends on which strs
    convert, nor to what. *)
Definition to_float (float_of_str : string -> option float) (v : JSON)
    : Outcome float :=
  match v with
  | JBool b => Returned (if b then 1 else 0)%float
  | JInt z => float_of_big_int z
  | JFloat x => Returned x
  | JStr s =>
      match float_of_str s with
      | Some x => Returned x
      | None => Raised
      end
  | JNull | JList _ | JDict _ => Raised
  end.

End Json.

Import Json.

(** The upstream API by the bodies it sends. *)
Record RawUpstream := {
  raw_clearinghouseState : string -> Response JSON;
  raw_userFillsByTime : string -> Z -> Response JSON
}.

Section Raw.
Variable float_of_str : string -> option float.

(** The loop of [get_current_position] over the items of
    [data['assetPositions']]. *)
Fixpoint scan_positions_raw (addr : string) (account_value : float)
    (items : list JSON) : Outcome (option WhalePosition) :=
  match items with
  | [] => Returned None
  | pos :: rest =>
      position ← dict_get pos "position" (JDict []);
      coin ← dict_get position "coin" JNull;
      if is_str "BTC" coin then
        szi ← dict_get position "szi" (JInt 0);
        size ← to_float float_of_str szi;
        if negb (size =? 0)%float then
          entryPx ← dict_get position "entryPx" (JInt 0);
          entry_price ← to_float float_of_str entryPx;
          leverage ← dict_get position "leverage" (JDict []);
          value ← dict_get leverage "value" (JInt 1);
          leverage ← to_float float_of_str value;
          unrealizedPnl ← dict_get position "unrealizedPnl" (JInt 0);
          unrealized_pnl ← to_float float_of_str unrealizedPnl;
          Returned (Some {| address := addr;
                            size_btc := size;
                            direction := direction_of_size size;
                            entry_price := entry_price;
                            leverage := leverage;
                            account_value := account_value;
                            unrealized_pnl := unrealized_pnl |})
        else scan_positions_raw addr account_value rest
      else scan_positions_raw addr account_value rest
  end.

(** [get_current_position] on the decoded body. *)
Definition get_current_position_raw (up : RawUpstream) (addr : string)
    : Outcome (option WhalePosition) :=
  match _post (raw_clearinghouseState up addr) with
  | None => Returned None
  | Some data =>
      if negb (truthy data) then Returned None
      else
        present ← contains "assetPositions" data;
        if negb present then Returned None
        else
          marginSummary ← dict_get data "marginSummary" (JDict []);
          accountValue ← dict_get marginSummary "accountValue" (JInt 0);
          account_value ← to_float float_of_str accountValue;
          assetPositions ← subscript data "assetPositions";
          items ← iterate assetPositions;
          scan_positions_raw addr account_value items
  end.

(** The two comprehensions at the head of [get_whale_winrate]: the BTC
    fills, each with its [float(f.get('closedPnl', 0))]. *)
Fixpoint btc_fills_raw (items : list JSON) : Outcome (list JSON) :=
  match items with
  | [] => Returned []
  | f :: rest =>
      coin ← dict_get f "coin" JNull;
      btc_fills ← btc_fills_raw rest;
      Returned (if is_str "BTC" coin then f :: btc_fills else btc_fills)
  end.

Fixpoint converted_fills (btc_fills : list JSON) : Outcome (list Fill) :=
  match btc_fills with
  | [] => Returned []
  | f :: rest =>
      closedPnl ← dict_get f "closedPnl" (JInt 0);
      pnl ← to_float float_of_str closedPnl;
      fills ← converted_fills rest;
      Returned ({| fill_coin := "BTC"; closedPnl := pnl |} :: fills)
  end.

(** [get_whale_winrate] on the decoded body. *)
Definition get_whale_winrate_raw (up : RawUpstream) (addr : string)
    (days : Z) : Outcome (gmap string PyVal) :=
  match _post (raw_userFillsByTime up addr days) with
  | None => Returned {[ "address" := VStr addr; "has_btc_trades" := VBool false ]}
  | Some fills =>
      if negb (truthy fills)
      then Returned {[ "address" := VStr addr; "has_btc_trades" := VBool false ]}
      else
        items ← iterate fills;
        btc_fills ← btc_fills_raw items;
        btc_fills ← converted_fills btc_fills;
        let closed_trades := closed_trades_of btc_fills in
        match closed_trades with
        | [] =>
            Returned
              {[ "address" := VStr addr;
                 "has_btc_trades" := VBool (0 <? Z.of_nat (length btc_fills));
                 "total_btc_fills" := VInt (Z.of_nat (length btc_fills));
                 "closed_trades" := VInt 0;
                 "winrate" := VNone ]}
        | _ =>
            let wins := count_if is_win closed_trades in
            let losses := count_if is_loss closed_trades in
            let total_pnl := Py.sum (map closedPnl closed_trades) in
            let profit_factor := profit_factor_of closed_trades in
            Returned
              {[ "address" := VStr addr;
                 "address_short" := VStr (address_short_of addr);
                 "has_btc_trades" := VBool true;
                 "total_btc_fills" := VInt (Z.of_nat (length btc_fills));
                 "closed_trades" := VInt (Z.of_nat (length closed_trades));
                 "wins" := VInt wins;
                 "losses" := VInt losses;
                 "winrate" := winrate_of wins losses;
                 "total_pnl" := VFloat (Py.round total_pnl 2);
                 "profit_factor" := VFloat (Py.round profit_factor 2);
                 "period_days" := VInt days ]}
        end
  end.

(** The three reads of the winrate dict, when the scoring returns. *)
Definition winrate_fields_raw (up : RawUpstream) (addr : string)
    : Outcome (PyVal * PyVal * PyVal) :=
  wr_data ← get_whale_winrate_raw up addr 30;
  Returned (Py.get wr_data "winrate",
            get_default wr_data "total_pnl" (VInt 0),
            get_default wr_data "closed_trades" (VInt 0)).

(** One iteration of the loop of [check_position_changes]: an exception of
    either fetch leaves the loop. *)
Definition check_address_raw (up : RawUpstream)
    (_previous_positions : gmap string WhalePosition) (st : CheckState)
    (addr : string) : Outcome CheckState :=
  current ← get_current_position_raw up addr;
  let previous := _previous_positions !! addr in
  let current_positions :=
    match current with
    | Some cur => <[addr := cur]> (current_positions st)
    | None => current_positions st
    end in
  new_positions ←
    match current, previous with
    | Some cur, None =>
        '(winrate, pnl_30d, trades_30d) ← winrate_fields_raw up addr;
        Returned
          (new_positions st ++
             [NEW_POSITION addr (address_short_of addr) (direction cur)
                (abs (size_btc cur)) (entry_price cur) (leverage cur)
                (account_value cur) winrate pnl_30d trades_30d])
    | Some cur, Some prv =>
        if negb (bool_decide (direction cur = direction prv)) then
          '(winrate, pnl_30d, trades_30d) ← winrate_fields_raw up addr;
          Returned
            (new_positions st ++
               [DIRECTION_CHANGE addr (address_short_of addr) (direction prv)
                  (direction cur) (abs (size_btc cur)) (entry_price cur)
                  (leverage cur) winrate pnl_30d trades_30d])
        else
          let prev_size := abs (size_btc prv) in
          let curr_size := abs (size_btc cur) in
          if (0 <? prev_size)%float then
            let size_change := size_change_of prev_size curr_size in
            if (50 <? size_change)%float then
              '(winrate, pnl_30d, trades_30d) ← winrate_fields_raw up addr;
              Returned
                (new_positions st ++
                   [SIZE_INCREASE addr (address_short_of addr) (direction cur)
                      prev_size curr_size (Py.round size_change 1)
                      (leverage cur) winrate pnl_30d trades_30d])
            else Returned (new_positions st)
          else Returned (new_positions st)
    | None, _ => Returned (new_positions st)
    end;
  Returned {| new_positions := new_positions;
              current_positions := current_positions |}.

Definition check_position_changes_raw_on (roster : list string)
    (up : RawUpstream) (_previous_positions : gmap string WhalePosition)
    : Outcome CheckState :=
  fold_left
    (fun st addr =>
       st ← st; check_address_raw up _previous_positions st addr)
    roster
    (Returned {| new_positions := []; current_positions := ∅ |}).

Definition check_position_changes_raw :=
  check_position_changes_raw_on WHALE_ADDRESSES.

(** One process run in the default mode, up to the alerts: when the sweep
    raises, [_save_previous_positions] is not reached and the file is as it
    was. *)
Definition run_cycle_raw (up : RawUpstream) (writable : bool)
    (file : PositionsFile) : Outcome (list ChangeEvent) * PositionsFile :=
  match check_position_changes_raw up (_load_previous_positions file) with
  | Raised => (Raised, file)
  | Returned st =>
      (Returned (new_positions st),
       _save_previous_positions writable (current_positions st) file)
  end.

(** [WhaleTracker().monitor_and_alert()] on decoded bodies: the positions
    file after the run, and the returned dict with the texts posted, or the
    exception that left the method. *)
Definition monitor_and_alert_raw (up : RawUpstream) (tg : Telegram)
    (writable : bool) (file : PositionsFile)
    : PositionsFile * Outcome (MonitorResult * list string) :=
  match run_cycle_raw up writable file with
  | (Raised, file) => (file, Raised)
  | (Returned changes, file) =>
      (file,
       match alert_loop tg changes 0 [] with
       | None => Raised
       | Some (alerts_sent, posted) =>
           Returned ({| changes_detected := Z.of_nat (length changes);
                        alerts_sent := alerts_sent;
                        changes := changes |}, posted)
       end)
  end.

(** The loop of [get_all_winrates]: every result, in roster order. *)
Fixpoint scores_raw (roster : list string) (up : RawUpstream) (days : Z)
    : Outcome (list (gmap string PyVal)) :=
  match roster with
  | [] => Returned []
  | addr :: rest =>
      wr ← get_whale_winrate_raw up addr days;
      results ← scores_raw rest up days;
      Returned (wr :: results)
  end.

Definition get_all_winrates_raw (up : RawUpstream) (days min_trades : Z)
    : Outcome (list (gmap string PyVal)) :=
  scores ← scores_raw WHALE_ADDRESSES up days;
  match Py.sort_desc winrate_key
          (List.filter (enough_trades min_trades) scores) with
  | None => Raised
  | Some results => Returned results
  end.

(** The table of [main] under [--winrates] on decoded bodies. *)
Definition main_winrates_raw (up : RawUpstream) : Outcome (list string) :=
  winrates ← get_all_winrates_raw up 30 5;
  match winrates_rows 1 (take 15 winrates) with
  | None => Raised
  | Some rows => Returned rows
  end.

End Raw.

(** *** The typed reading of a body *)

(** The name under which a ['coin'] entry is compared with ['BTC']. *)
Definition coin_name (coin : JSON) : string :=
  match coin with
  | JStr s => s
  | _ => EmptyString
  end.

Section Decode.
Variable float_of_str : string -> option float.

(** The entries of ['assetPositions'] as [get_current_position] reads
    them: the coin of every entry up to the first open BTC entry, the size
    of the BTC entries among them, the other fields of that open entry;
    what is not read counts as 0, and the entries after the open one are
    left out. *)
Fixpoint decode_positions (items : list JSON)
    : Outcome (list AssetPosition) :=
  match items with
  | [] => Returned []
  | pos :: rest =>
      position ← dict_get pos "position" (JDict []);
      coin ← dict_get position "coin" JNull;
      if is_str "BTC" coin then
        szi ← dict_get position "szi" (JInt 0);
        size ← to_float float_of_str szi;
        if negb (size =? 0)%float then
          entryPx ← dict_get position "entryPx" (JInt 0);
          entry_price ← to_float float_of_str entryPx;
          leverage ← dict_get position "leverage" (JDict []);
          value ← dict_get leverage "value" (JInt 1);
          leverage ← to_float float_of_str value;
          unrealizedPnl ← dict_get position "unrealizedPnl" (JInt 0);
          unrealized_pnl ← to_float float_of_str unrealizedPnl;
          Returned [ {| coin := "BTC"; szi := size; entryPx := entry_price;
                        leverage_value := leverage;
                        unrealizedPnl := unrealized_pnl |} ]
        else
          positions ← decode_positions rest;
          Returned ({| coin := "BTC"; szi := size; entryPx := 0;
                       leverage_value := 0; unrealizedPnl := 0 |}
                    :: positions)
      else
        positions ← decode_positions rest;
        Returned ({| coin := coin_name coin; szi := 0; entryPx := 0;
                     leverage_value := 0; unrealizedPnl := 0 |}
                  :: positions)
  end.

(** A [clearinghouseState] body as [get_current_position] reads it. *)
Definition decode_state (data : JSON) : Outcome ClearinghouseState :=
  if negb (truthy data)
  then Returned {| accountValue := 0; assetPositions := None |}
  else
    present ← contains "assetPositions" data;
    if negb present
    then Returned {| accountValue := 0; assetPositions := None |}
    else
      marginSummary ← dict_get data "marginSummary" (JDict []);
      accountValue ← dict_get marginSummary "accountValue" (JInt 0);
      account_value ← to_float float_of_str accountValue;
      assetPositions ← subscript data "assetPositions";
      items ← iterate assetPositions;
      positions ← decode_positions items;
      Returned {| accountValue := account_value;
                  assetPositions := Some positions |}.

(** The fills as [get_whale_winrate] reads them: the coin of every fill,
    the [closedPnl] of the BTC fills. *)
Fixpoint decode_fill_items (items : list JSON) : Outcome (list Fill) :=
  match items with
  | [] => Returned []
  | f :: rest =>
      coin ← dict_get f "coin" JNull;
      fill ←
        (if is_str "BTC" coin then
           closedPnl ← dict_get f "closedPnl" (JInt 0);
           pnl ← to_float float_of_str closedPnl;
           Returned {| fill_coin := "BTC"; closedPnl := pnl |}
         else Returned {| fill_coin := coin_name coin; closedPnl := 0 |});
      fills ← decode_fill_items rest;
      Returned (fill :: fills)
  end.

Definition decode_fills (fills : JSON) : Outcome (list Fill) :=
  if negb (truthy fills) then Returned []
  else items ← iterate fills; decode_fill_items items.

Definition decode_response {A : Type} (decode : JSON -> Outcome A)
    (r : Response JSON) : Outcome (Response A) :=
  match r with
  | ConnectionError => Returned ConnectionError
  | ReadTimeout => Returned ReadTimeout
  | HTTPError status => Returned (HTTPError status)
  | JSONDecodeError => Returned JSONDecodeError
  | Body data => body ← decode data; Returned (Body body)
  end.

(** The answers about [addr] that a cycle reads are well typed: every
    conversion made on them returns. *)
Definition position_well_typed (up : RawUpstream) (addr : string) : bool :=
  returned (decode_response decode_state (raw_clearinghouseState up addr)).
Definition fills_well_typed (up : RawUpstream) (days : Z) (addr : string)
    : bool :=
  returned (decode_response decode_fills (raw_userFillsByTime up addr days)).
Definition well_typed (up : RawUpstream) (addr : string) : bool :=
  position_well_typed up addr && fills_well_typed up 30 addr.

(** The upstream of the typed operations that stands for [up]: every
    answer as read above, an ill-typed one as a request that failed. *)
Definition typed (up : RawUpstream) : Upstream :=
  {| clearinghouseState addr :=
       match decode_response decode_state (raw_clearinghouseState up addr) with
       | Returned r => r
       | Raised => JSONDecodeError
       end;
     userFillsByTime addr days :=
       match decode_response decode_fills (raw_userFillsByTime up addr days) with
       | Returned r => r
       | Raised => JSONDecodeError
       end |}.

End Decode.

(** ** Vocabulary of the statements *)

(** The events one account contributes to a cycle: the loop body run from
    the empty state. *)
Definition events_for (up : Upstream)
    (_previous_positions : gmap string WhalePosition) (addr : string)
    : list ChangeEvent :=
  new_positions
    (check_address up _previous_positions
       {| new_positions := []; current_positions := ∅ |} addr).

(** The events of a cycle that are about one account. *)
Definition events_of_account (addr : string) (events : list ChangeEvent)
    : list ChangeEvent :=
  filter (fun e => event_address e = addr) events.

Definition is_size_increase (e : ChangeEvent) : bool :=
  match e with
  | SIZE_INCREASE _ _ _ _ _ _ _ _ _ _ => true
  | _ => false
  end.

(** The request for [addr]'s position failed: [_post] swallowed an
    exception, or the decoded body has no ['assetPositions']. *)
Definition fetch_failed (up : Upstream) (addr : string) : Prop :=
  match _post (clearinghouseState up addr) with
  | None => True
  | Some data => assetPositions data = None
  end.

(** *** Ordered keys *)

Definition sf_nan (x : spec_float) : bool :=
  match x with
  | S754_nan => true
  | _ => false
  end.

(** The sort keys on which [<] is a total preorder: the int 0 and the
    floats other than NaN. *)
Definition ordered_key (v : PyVal) : bool :=
  match v with
  | VInt z => z =? 0
  | VFloat f => negb (sf_nan (Prim2SF f))
  | _ => false
  end.

(** The float an ordered key compares as. *)
Definition key_float (v : PyVal) : float :=
  match v with
  | VFloat f => f
  | _ => 0%float
  end.

Section StableSort.
Context {A : Type} (less : A -> A -> bool).

(** Insertion into a descending list, before the first element that is not
    strictly greater. *)
Fixpoint insert_by (x : A) (l : list A) : list A :=
  match l with
  | [] => [x]
  | y :: l' => if less x y then y :: insert_by x l' else x :: l
  end.

Definition sort_by (l : list A) : list A := foldr insert_by [] l.

(** [x] may stand before [y] in a descending list. *)
Definition not_below (x y : A) : Prop := less x y = false.

(** [x] and [z] tie: neither is below the other. *)
Definition tie (z x : A) : bool := negb (less x z) && negb (less z x).
End StableSort.

(** The order a key function induces on the elements whose keys are
    ordered. *)
Definition key_less {A : Type} (key : A -> PyVal) (x y : A) : bool :=
  (key_float (key x) <? key_float (key y))%float.
Definition key_ordered {A : Type} (key : A -> PyVal) (x : A) : Prop :=
  ordered_key (key x) = true.
Definition key_none_or_ordered {A : Type} (key : A -> PyVal) (x : A) : Prop :=
  key x = VNone \/ key_ordered key x.

(** The comparison [sort] makes between two results whose keys are
    ordered. *)
Definition winrate_less : gmap string PyVal -> gmap string PyVal -> bool :=
  key_less winrate_key.

(** Two results with equal winrate keys. *)
Definition same_winrate (x y : gmap string PyVal) : bool :=
  Py.eqv (winrate_key x) (winrate_key y).

(** [x] is ranked at or above [y]: [key(x) >= key(y)]. *)
Definition ranked_above (x y : gmap string PyVal) : Prop :=
  Py.ge (winrate_key x) (winrate_key y) = Some true.

Definition is_number (v : PyVal) : bool :=
  match v with
  | VInt _ | VFloat _ => true
  | _ => false
  end.

(** The result carries a ['winrate'] entry that is a number. *)
Definition has_numeric_winrate (wr : gmap string PyVal) : Prop :=
  exists v, wr !! "winrate" = Some v /\ is_number v = true.

(** ** Sample inputs *)

(** The roster account at index [n]. *)
Definition whale (n : nat) : string := nth n WHALE_ADDRESSES EmptyString.

(** A [clearinghouseState] answer with an ETH position and one BTC position
    of signed size [size]. *)
Definition sample_state (size : float) : ClearinghouseState :=
  {| accountValue := 250000;
     assetPositions := Some
       [ {| coin := "ETH"; szi := 12; entryPx := 3400;
            leverage_value := 3; unrealizedPnl := 150 |};
         {| coin := "BTC"; szi := size; entryPx := 97000;
            leverage_value := 5; unrealizedPnl := -20 |} ] |}.

(** The snapshot [get_current_position] builds from [sample_state size]. *)
Definition sample_position (addr : string) (size : float) : WhalePosition :=
  {| address := addr; size_btc := size;
     direction := direction_of_size size;
     entry_price := 97000; leverage := 5;
     account_value := 250000; unrealized_pnl := -20 |}.

Definition btc_fill (pnl : float) : Fill :=
  {| fill_coin := "BTC"; closedPnl := pnl |}.

Fixpoint assoc {B : Type} (k : string) (l : list (string * B)) : option B :=
  match l with
  | [] => None
  | (k', v) :: l' => if String.eqb k k' then Some v else assoc k l'
  end.

(** An upstream that answers the listed accounts and times out on every
    other request. *)
Definition sample_upstream (sizes : list (string * float))
    (fills : list (string * list Fill)) : Upstream :=
  {| clearinghouseState a :=
       match assoc a sizes with
       | Some size => Body (sample_state size)
       | None => ReadTimeout
       end;
     userFillsByTime a _ :=
       match assoc a fills with
       | Some fs => Body fs
       | None => ReadTimeout
       end |}.

(** A flip whose magnitude doubles: LONG 1 BTC stored, SHORT 2 BTC now. *)
Definition flip_upstream : Upstream :=
  sample_upstream [(whale 0, (-2)%float)] [].
Definition flip_previous : gmap string WhalePosition :=
  {[ whale 0 := sample_position (whale 0) 1 ]}.

(** A first sighting: nothing stored, LONG 3 BTC now. *)
Definition fresh_upstream : Upstream :=
  sample_upstream [(whale 4, 3%float)] [(whale 4, [btc_fill 100; btc_fill (-50); btc_fill 0])].

(** A closed position: SHORT 2 BTC stored, the account answers with an ETH
    position only. *)
Definition closed_upstream : Upstream :=
  {| clearinghouseState a :=
       Body {| accountValue := 10;
               assetPositions := Some
                 [ {| coin := "ETH"; szi := 12; entryPx := 3400;
                      leverage_value := 3; unrealizedPnl := 150 |} ] |};
     userFillsByTime _ _ := Body [] |}.
Definition closed_previous : gmap string WhalePosition :=
  {[ whale 7 := sample_position (whale 7) (-2) ]}.

(** A same-direction pair at the 50% boundary and just above it: LONG 100
    BTC stored, LONG 150 or 151 BTC now. *)
Definition boundary_upstream (size : float) : Upstream :=
  sample_upstream [(whale 2, size)] [].
Definition boundary_previous : gmap string WhalePosition :=
  {[ whale 2 := sample_position (whale 2) 100 ]}.

(** A float infinity stored as such in a dict entry. *)
Definition is_raw_infinity (v : PyVal) : bool :=
  match v with
  | VFloat f => is_infinity f
  | _ => false
  end.

(** An account with fills in another instrument and BTC fills that closed
    nothing. *)
Definition idle_upstream : Upstream :=
  sample_upstream []
    [(whale 1, [ {| fill_coin := "ETH"; closedPnl := 12 |};
                 btc_fill 0; btc_fill 0 ])].

(** An account with two winning closes and no losing one. *)
Definition winner_upstream : Upstream :=
  sample_upstream [] [(whale 3, [btc_fill 100; btc_fill 40])].

(** An account with one winning and three losing closes. *)
Definition mixed_upstream : Upstream :=
  sample_upstream []
    [(whale 3, [btc_fill 1; btc_fill (-1); btc_fill (-1); btc_fill (-1)])].

(** The snapshots a sweep of the roster obtains, in roster order. *)
Definition current_snapshots (roster : list string) (up : Upstream)
    : list WhalePosition :=
  omap (get_current_position up) roster.

Definition is_long (pos : WhalePosition) : bool := (0 <? size_btc pos)%float.
Definition abs_size (pos : WhalePosition) : float := abs (size_btc pos).

(** No account answers. *)
Definition silent_upstream : Upstream := sample_upstream [] [].

(** 70 BTC long against 30 BTC short. *)
Definition bullish_upstream : Upstream :=
  sample_upstream
    [(whale 0, 40%float); (whale 5, (-30)%float); (whale 9, 30%float)] [].

(** Two upstreams that answer every request about [addr] in the same way. *)
Definition same_answers (up up' : Upstream) (addr : string) : Prop :=
  clearinghouseState up addr = clearinghouseState up' addr
  /\ forall days, userFillsByTime up addr days = userFillsByTime up' addr days.

(** The position request of [whale 0] fails at the connection, that of
    [whale 1] returns a body that is not JSON, [whale 2] holds LONG 3 BTC,
    and every other request times out. *)
Definition failing_upstream : Upstream :=
  {| clearinghouseState a :=
       if String.eqb a (whale 0) then ConnectionError
       else if String.eqb a (whale 1) then JSONDecodeError
       else if String.eqb a (whale 2) then Body (sample_state 3)
       else ReadTimeout;
     userFillsByTime _ _ := HTTPError 429 |}.
Definition failing_file : PositionsFile :=
  Some {[ whale 0 := sample_position (whale 0) 1 ]}.

(** The next cycle, in which [whale 0] answers again with the same LONG
    1 BTC. *)
Definition recovered_upstream : Upstream :=
  sample_upstream [(whale 0, 1%float)] [].

(** Five accounts answer the fills request: winrates 50, 75, 50, none
    (only fills that closed nothing) and 100, in roster order. *)
Definition ranking_upstream : Upstream :=
  sample_upstream []
    [(whale 0, [btc_fill 10; btc_fill (-4)]);
     (whale 1, [btc_fill 5; btc_fill 7; btc_fill (-2); btc_fill 1]);
     (whale 2, [btc_fill (-1); btc_fill 3; btc_fill 2; btc_fill (-6)]);
     (whale 3, [btc_fill 0; btc_fill 0]);
     (whale 4, [btc_fill 8])].

(** ** Vocabulary of the further properties *)

(** The entries the scan of [get_current_position] stops at. *)
Definition is_open_btc (pos : AssetPosition) : bool :=
  String.eqb (coin pos) "BTC" && negb (szi pos =? 0)%float.

(** The dict [get_current_position] builds from one entry. *)
Definition snapshot_of (addr : string) (account_value : float)
    (pos : AssetPosition) : WhalePosition :=
  {| address := addr;
     size_btc := szi pos;
     direction := direction_of_size (szi pos);
     entry_price := entryPx pos;
     leverage := leverage_value pos;
     account_value := account_value;
     unrealized_pnl := unrealizedPnl pos |}.

(** The NEW_POSITION dict the first branch of the chain appends for a
    snapshot. *)
Definition new_position_event (up : Upstream) (cur : WhalePosition)
    : ChangeEvent :=
  NEW_POSITION (address cur) (address_short_of (address cur))
    (direction cur) (abs (size_btc cur)) (entry_price cur) (leverage cur)
    (account_value cur)
    (winrate_fields up (address cur)).1.1
    (winrate_fields up (address cur)).1.2
    (winrate_fields up (address cur)).2.

(** An account that holds ETH, a BTC entry of size 0 and then SHORT 4 BTC
    and LONG 9 BTC entries. *)
Definition layered_positions : list AssetPosition :=
  [ {| coin := "ETH"; szi := 12; entryPx := 3400;
       leverage_value := 3; unrealizedPnl := 150 |};
    {| coin := "BTC"; szi := 0; entryPx := 96000;
       leverage_value := 2; unrealizedPnl := 0 |};
    {| coin := "BTC"; szi := -4; entryPx := 97000;
       leverage_value := 5; unrealizedPnl := -20 |};
    {| coin := "BTC"; szi := 9; entryPx := 98000;
       leverage_value := 7; unrealizedPnl := 30 |} ].
Definition layered_state : ClearinghouseState :=
  {| accountValue := 8000; assetPositions := Some layered_positions |}.
Definition layered_upstream : Upstream :=
  {| clearinghouseState _ := Body layered_state;
     userFillsByTime _ _ := Body [] |}.

(** What every dict appended to [new_positions] satisfies. *)
Definition event_invariant (e : ChangeEvent) : Prop :=
  match e with
  | NEW_POSITION a short _ size _ _ _ winrate _ trades =>
      short = address_short_of a /\ (size <? 0)%float = false
      /\ (winrate = VNone \/ ordered_key winrate = true)
      /\ exists n, trades = VInt n
  | DIRECTION_CHANGE a short old new size _ _ winrate _ trades =>
      short = address_short_of a /\ old <> new
      /\ (size <? 0)%float = false
      /\ (winrate = VNone \/ ordered_key winrate = true)
      /\ exists n, trades = VInt n
  | SIZE_INCREASE a short _ old_size new_size pct _ winrate _ trades =>
      short = address_short_of a
      /\ (0 <? old_size)%float = true
      /\ (50 <? size_change_of old_size new_size)%float = true
      /\ pct = Py.round (size_change_of old_size new_size) 1
      /\ (winrate = VNone \/ ordered_key winrate = true)
      /\ exists n, trades = VInt n
  end.

(** A fill whose [closedPnl] is not NaN. *)
Definition pnl_is_number (f : Fill) : Prop :=
  sf_nan (Prim2SF (closedPnl f)) = false.

(** An account with three fills in other coins, one BTC fill that closed
    nothing, two wins and one loss. *)
Definition busy_fills : list Fill :=
  [ {| fill_coin := "ETH"; closedPnl := 5 |};
    btc_fill 0; btc_fill 12;
    {| fill_coin := "SOL"; closedPnl := -3 |};
    btc_fill (-7); btc_fill 30;
    {| fill_coin := "ETH"; closedPnl := 0 |} ].
Definition busy_upstream : Upstream :=
  sample_upstream [] [(whale 6, busy_fills)].

(** An account that only lost. *)
Definition loser_fills : list Fill := [btc_fill (-7); btc_fill (-2)].
Definition loser_upstream : Upstream :=
  sample_upstream [] [(whale 6, loser_fills)].

(** Two accounts are short, nobody is long. *)
Definition bearish_upstream : Upstream :=
  sample_upstream [(whale 3, (-6)%float); (whale 8, (-1.5)%float)] [].

(** The fields that let the last line of an alert be written. *)
Definition printable (winrate pnl_30d trades_30d : PyVal) : Prop :=
  winrate = VNone
  \/ (is_number winrate = true /\ is_number pnl_30d = true
      /\ exists n, trades_30d = VInt n).

Definition formattable (e : ChangeEvent) : Prop :=
  match e with
  | NEW_POSITION _ _ _ _ _ _ _ winrate pnl_30d trades_30d
  | DIRECTION_CHANGE _ _ _ _ _ _ _ winrate pnl_30d trades_30d
  | SIZE_INCREASE _ _ _ _ _ _ _ winrate pnl_30d trades_30d =>
      printable winrate pnl_30d trades_30d
  end.

(** Both Telegram settings are set. *)
Definition configured (tg : Telegram) : bool :=
  is_set (telegram_token tg) && is_set (telegram_chat_id tg).

(** The request number [n], carrying [message], is answered with status
    200. *)
Definition delivered (tg : Telegram) (n : nat) (message : string) : bool :=
  match sendMessage tg n message with
  | Status status_code => status_code =? 200
  | DeliveryError => false
  end.

(** How many of [messages], posted as the requests number [n], [n + 1],
    ..., are answered with status 200. *)
Fixpoint count_delivered (tg : Telegram) (n : nat) (messages : list string)
    : Z :=
  match messages with
  | [] => 0
  | message :: rest =>
      (if delivered tg n message then 1 else 0)
      + count_delivered tg (S n) rest
  end.

(** [message] is the text [format_position_alert] returns for [e]. *)
Definition alert_of (e : ChangeEvent) (message : string) : Prop :=
  format_position_alert e = Some message.

Definition ends_with (suffix s : string) : Prop :=
  exists body, s = body +:+ suffix.

(** The fills [get_whale_winrate] scores for [addr] over [days]: none when
    the request fails. *)
Definition scored_fills (up : Upstream) (addr : string) (days : Z)
    : list Fill :=
  closed_trades_of
    (btc_fills_of (default [] (_post (userFillsByTime up addr days)))).

(** A result with the four entries a row of the runner's table reads. *)
Definition scored_entry (wr : gmap string PyVal) : Prop :=
  exists w x n s,
    wr !! "winrate" = Some w /\ is_number w = true
    /\ wr !! "total_pnl" = Some (VFloat x)
    /\ wr !! "closed_trades" = Some (VInt n)
    /\ wr !! "address_short" = Some (VStr s).

(** A chat id, but an empty token. *)
Definition half_configured : Telegram :=
  {| telegram_token := Some EmptyString;
     telegram_chat_id := Some "42";
     sendMessage _ _ := Status 200 |}.

(** A configured bot whose first request times out and whose second one is
    refused; the later ones are accepted. *)
Definition flaky_telegram : Telegram :=
  {| telegram_token := Some "123:abc";
     telegram_chat_id := Some "42";
     sendMessage n _ :=
       match n with
       | O => DeliveryError
       | S O => Status 429
       | _ => Status 200
       end |}.

(** The conversions [float(s)] of the strs that the sample bodies hold;
    every other str of the samples is one that [float] rejects. *)
Definition sample_float_of_str (s : string) : option float :=
  assoc s [ ("250000", 250000%float); ("97000", 97000%float);
            ("-20", (-20)%float); ("1", 1%float); ("3", 3%float);
            ("12.5", 12.5%float); ("-4", (-4)%float); ("0.0", 0%float) ].

(** The body that [sample_state] reads: an ETH position, then one BTC
    position whose ['szi'] is [szi]; the numbers are strs, as the API sends
    them, the leverage value is an int. *)
Definition raw_sample_state (szi : JSON) : JSON :=
  JDict
    [ ("assetPositions",
       JList
         [ JDict [ ("type", JStr "oneWay");
                   ("position",
                    JDict [ ("coin", JStr "ETH"); ("szi", JStr "12");
                            ("entryPx", JStr "3400") ]) ];
           JDict [ ("type", JStr "oneWay");
                   ("position",
                    JDict [ ("coin", JStr "BTC"); ("szi", szi);
                            ("entryPx", JStr "97000");
                            ("leverage",
                             JDict [ ("type", JStr "cross");
                                     ("value", JInt 5) ]);
                            ("unrealizedPnl", JStr "-20") ]) ] ]);
      ("marginSummary", JDict [ ("accountValue", JStr "250000") ]) ].

(** [failing_upstream] by its bodies, with the answer to the position
    request of [whale 0] left open. *)
Definition raw_failing_upstream (answer : Response JSON) : RawUpstream :=
  {| raw_clearinghouseState a :=
       if String.eqb a (whale 0) then answer
       else if String.eqb a (whale 1) then JSONDecodeError
       else if String.eqb a (whale 2) then Body (raw_sample_state (JStr "3"))
       else ReadTimeout;
     raw_userFillsByTime _ _ := HTTPError 429 |}.

(** One fill of a [userFillsByTime] body. *)
Definition raw_fill (coin : string) (closedPnl : JSON) : JSON :=
  JDict [ ("coin", JStr coin); ("px", JStr "97000"); ("closedPnl", closedPnl) ].

(** An upstream whose bodies are all well typed: [whale 4] holds LONG 3 BTC
    and has five BTC closes, four of them wins; [whale 7] answers with an
    empty object and has an ETH fill only. *)
Definition raw_tidy_upstream : RawUpstream :=
  {| raw_clearinghouseState a :=
       if String.eqb a (whale 4) then Body (raw_sample_state (JStr "3"))
       else if String.eqb a (whale 7) then Body (JDict [])
       else ReadTimeout;
     raw_userFillsByTime a _ :=
       if String.eqb a (whale 4)
       then Body (JList [ raw_fill "BTC" (JStr "12.5");
                          raw_fill "ETH" (JStr "n/a");
                          raw_fill "BTC" (JStr "3");
                          raw_fill "BTC" (JStr "-4");
                          raw_fill "BTC" (JStr "0.0");
                          raw_fill "BTC" (JInt 7);
                          raw_fill "BTC" (JFloat 0.5) ])
       else if String.eqb a (whale 7)
       then Body (JList [ raw_fill "ETH" JNull ])
       else ConnectionError |}.

(** As above, but the one BTC fill of [whale 20] has a [closedPnl] that is
    not a number. *)
Definition raw_untidy_upstream : RawUpstream :=
  {| raw_clearinghouseState a :=
       if String.eqb a (whale 20) then Body (JList [JStr "assetPositions"])
       else raw_clearinghouseState raw_tidy_upstream a;
     raw_userFillsByTime a days :=
       if String.eqb a (whale 20)
       then Body (JList [ raw_fill "BTC" (JStr "n/a") ])
       else raw_userFillsByTime raw_tidy_upstream a days |}.

(** The request for [addr]'s position fails in a way the code handles:
    [_post] swallowed an exception, or the body is empty or has no
    ['assetPositions']. *)
Definition fetch_swallowed (up : RawUpstream) (addr : string) : Prop :=
  match _post (raw_clearinghouseState up addr) with
  | None => True
  | Some data =>
      truthy data = false \/ contains "assetPositions" data = Returned false
  end.

(** The events a run of [monitor_and_alert] returned, [None] when it
    raised. *)
Definition detected
    (run : PositionsFile * option (MonitorResult * list string))
    : option (list ChangeEvent) :=
  (fun returned => changes returned.1) <$> run.2.

(** * Properties *)

Ltac by_eval := vm_compute; first [reflexivity | discriminate | congruence].
Ltac in_roster :=
  apply (bool_decide_eq_true_1 (_ ∈ WHALE_ADDRESSES)); vm_compute; reflexivity.

(** ** The roster *)

Lemma WHALE_ADDRESSES_NoDup : NoDup WHALE_ADDRESSES.
Proof.
  apply (bool_decide_eq_true_1 (NoDup WHALE_ADDRESSES)).
  vm_compute. reflexivity.
Qed.

(** ** The sweep of [check_position_changes] as a per-account map *)

Section Sweep.
Variable up : Upstream.
Variable prev : gmap string WhalePosition.

Lemma check_address_new_positions st addr :
  new_positions (check_address up prev st addr)
  = new_positions st ++ events_for up prev addr.
Proof.
  unfold events_for, check_address; simpl.
  destruct (get_current_position up addr) as [cur|];
    destruct (prev !! addr) as [prv|]; simpl;
    repeat (match goal with
            | |- context [winrate_fields ?u ?a] =>
                destruct (winrate_fields u a) as [[? ?] ?]
            | |- context [if ?b then _ else _] => destruct b
            end; simpl);
    rewrite ?app_nil_r; reflexivity.
Qed.

Lemma check_address_current_positions st addr :
  current_positions (check_address up prev st addr)
  = match get_current_position up addr with
    | Some c => <[addr := c]> (current_positions st)
    | None => current_positions st
    end.
Proof. reflexivity. Qed.

Lemma sweep_new_positions roster st :
  new_positions (fold_left (check_address up prev) roster st)
  = new_positions st ++ flat_map (events_for up prev) roster.
Proof.
  revert st; induction roster as [|a roster IH]; intros st; simpl.
  - now rewrite app_nil_r.
  - rewrite IH, check_address_new_positions, <- app_assoc. reflexivity.
Qed.

Lemma sweep_current_positions roster st b :
  current_positions (fold_left (check_address up prev) roster st) !! b
  = match (if bool_decide (b ∈ roster)
           then get_current_position up b else None) with
    | Some c => Some c
    | None => current_positions st !! b
    end.
Proof.
  revert st; induction roster as [|a roster IH]; intros st; simpl.
  - reflexivity.
  - rewrite IH, check_address_current_positions.
    destruct (decide (b ∈ roster)) as [Hin|Hin].
    + rewrite (bool_decide_eq_true_2 (b ∈ roster)) by done.
      rewrite (bool_decide_eq_true_2 (b ∈ a :: roster)) by (rewrite elem_of_cons; tauto).
      destruct (get_current_position up b) eqn:Eb; [reflexivity|].
      destruct (get_current_position up a) eqn:Ea; [|reflexivity].
      rewrite lookup_insert_ne; [reflexivity|congruence].
    + rewrite (bool_decide_eq_false_2 (b ∈ roster)) by done.
      destruct (decide (b = a)) as [->|Hne].
      * rewrite (bool_decide_eq_true_2 (a ∈ a :: roster)) by (rewrite elem_of_cons; tauto).
        destruct (get_current_position up a) eqn:E; [|reflexivity].
        now rewrite lookup_insert_eq.
      * rewrite (bool_decide_eq_false_2 (b ∈ a :: roster)) by (rewrite elem_of_cons; tauto).
        destruct (get_current_position up a); [|reflexivity].
        now rewrite lookup_insert_ne.
Qed.

(** The chain yields nothing or one event, and the event is about the
    account of the iteration. *)
Lemma events_for_cases addr :
  events_for up prev addr = []
  \/ exists e, events_for up prev addr = [e] /\ event_address e = addr.
Proof.
  unfold events_for, check_address; simpl.
  destruct (get_current_position up addr) as [cur|];
    destruct (prev !! addr) as [prv|]; simpl;
    repeat (match goal with
            | |- context [winrate_fields ?u ?a] =>
                destruct (winrate_fields u a) as [[? ?] ?]
            | |- context [if ?b then _ else _] => destruct b
            end; simpl);
    eauto.
Qed.

Lemma events_of_account_for a b :
  events_of_account a (events_for up prev b)
  = if bool_decide (a = b) then events_for up prev b else [].
Proof.
  unfold events_of_account.
  destruct (events_for_cases b) as [->|(e & -> & He)].
  - now destruct (bool_decide (a = b)).
  - rewrite filter_cons, filter_nil, He.
    destruct (decide (b = a)) as [->|Hne].
    + now rewrite bool_decide_eq_true_2.
    + rewrite bool_decide_eq_false_2; [reflexivity|congruence].
Qed.

Lemma events_of_account_flat_map a roster :
  NoDup roster ->
  events_of_account a (flat_map (events_for up prev) roster)
  = if bool_decide (a ∈ roster) then events_for up prev a else [].
Proof.
  induction 1 as [|b roster Hb Hnd IH]; simpl.
  - reflexivity.
  - unfold events_of_account in *. rewrite filter_app.
    fold (events_of_account a (events_for up prev b)).
    rewrite events_of_account_for, IH.
    destruct (decide (a = b)) as [->|Hne].
    + rewrite bool_decide_eq_true_2 by reflexivity.
      rewrite (bool_decide_eq_false_2 (b ∈ roster)) by done.
      rewrite (bool_decide_eq_true_2 (b ∈ b :: roster))
        by (rewrite elem_of_cons; tauto).
      now rewrite app_nil_r.
    + rewrite (bool_decide_eq_false_2 (a = b)) by done. simpl.
      destruct (decide (a ∈ roster)) as [Hin|Hin].
      * rewrite !bool_decide_eq_true_2;
          [reflexivity | rewrite elem_of_cons; tauto | done].
      * rewrite !bool_decide_eq_false_2;
          [reflexivity | rewrite elem_of_cons; tauto | done].
Qed.
End Sweep.

(** The events of a cycle about a roster account are the events its own
    iteration appended. *)
Lemma events_of_account_check up prev a :
  a ∈ WHALE_ADDRESSES ->
  events_of_account a (new_positions (check_position_changes up prev))
  = events_for up prev a.
Proof.
  intros Hin. unfold check_position_changes, check_position_changes_on.
  rewrite sweep_new_positions. cbn [new_positions app].
  rewrite events_of_account_flat_map by apply WHALE_ADDRESSES_NoDup.
  now rewrite bool_decide_eq_true_2.
Qed.

Lemma events_of_account_check_outside up prev a :
  a ∉ WHALE_ADDRESSES ->
  events_of_account a (new_positions (check_position_changes up prev)) = [].
Proof.
  intros Hin. unfold check_position_changes, check_position_changes_on.
  rewrite sweep_new_positions. cbn [new_positions app].
  rewrite events_of_account_flat_map by apply WHALE_ADDRESSES_NoDup.
  now rewrite bool_decide_eq_false_2.
Qed.

(** ** What [get_current_position] returns *)

Lemma scan_asset_positions_Some addr av positions cur :
  scan_asset_positions addr av positions = Some cur ->
  address cur = addr
  /\ (size_btc cur =? 0)%float = false
  /\ direction cur = direction_of_size (size_btc cur).
Proof.
  induction positions as [|pos rest IH]; simpl; [discriminate|].
  destruct (String.eqb (coin pos) "BTC"); simpl; [|exact IH].
  destruct (szi pos =? 0)%float eqn:Hz; simpl; [exact IH|].
  intros [= <-]; simpl. auto.
Qed.

(** A snapshot is never flat, and its direction is the sign of its size. *)
Lemma get_current_position_Some up addr cur :
  get_current_position up addr = Some cur ->
  address cur = addr
  /\ (size_btc cur =? 0)%float = false
  /\ direction cur = direction_of_size (size_btc cur).
Proof.
  unfold get_current_position.
  destruct (_post (clearinghouseState up addr)) as [data|]; [|discriminate].
  destruct (assetPositions data) as [positions|]; [|discriminate].
  apply scan_asset_positions_Some.
Qed.

(** ** The priority chain, case by case *)

Section Chain.
Variable up : Upstream.
Variable prev : gmap string WhalePosition.
Variable a : string.

Lemma events_for_new cur :
  get_current_position up a = Some cur ->
  prev !! a = None ->
  events_for up prev a
  = [NEW_POSITION a (address_short_of a) (direction cur)
       (abs (size_btc cur)) (entry_price cur) (leverage cur)
       (account_value cur)
       (winrate_fields up a).1.1 (winrate_fields up a).1.2
       (winrate_fields up a).2].
Proof.
  intros Hc Hp. unfold events_for, check_address; simpl.
  rewrite Hc, Hp. now destruct (winrate_fields up a) as [[? ?] ?].
Qed.

Lemma events_for_flip cur prv :
  get_current_position up a = Some cur ->
  prev !! a = Some prv ->
  direction cur <> direction prv ->
  events_for up prev a
  = [DIRECTION_CHANGE a (address_short_of a) (direction prv)
       (direction cur) (abs (size_btc cur)) (entry_price cur)
       (leverage cur)
       (winrate_fields up a).1.1 (winrate_fields up a).1.2
       (winrate_fields up a).2].
Proof.
  intros Hc Hp Hd. unfold events_for, check_address; simpl.
  rewrite Hc, Hp, bool_decide_eq_false_2 by done; simpl.
  now destruct (winrate_fields up a) as [[? ?] ?].
Qed.

Lemma events_for_same_direction cur prv :
  get_current_position up a = Some cur ->
  prev !! a = Some prv ->
  direction cur = direction prv ->
  events_for up prev a
  = if ((0 <? abs (size_btc prv))
        && (50 <? size_change_of (abs (size_btc prv)) (abs (size_btc cur))))%float
    then [SIZE_INCREASE a (address_short_of a) (direction cur)
            (abs (size_btc prv)) (abs (size_btc cur))
            (Py.round (size_change_of (abs (size_btc prv))
                         (abs (size_btc cur))) 1)
            (leverage cur)
            (winrate_fields up a).1.1 (winrate_fields up a).1.2
            (winrate_fields up a).2]
    else [].
Proof.
  intros Hc Hp Hd. unfold events_for, check_address; simpl.
  rewrite Hc, Hp, bool_decide_eq_true_2 by done; simpl.
  destruct (0 <? abs (size_btc prv))%float; simpl; [|reflexivity].
  destruct (50 <? _)%float; simpl; [|reflexivity].
  now destruct (winrate_fields up a) as [[? ?] ?].
Qed.

Lemma events_for_closed :
  get_current_position up a = None ->
  events_for up prev a = [].
Proof.
  intros Hc. unfold events_for, check_address; simpl. now rewrite Hc.
Qed.
End Chain.

(** ** Detection claims *)

(** C1. The classification is a first-match-wins chain: a cycle holds at
    most one event per account, and when the current and the previous
    snapshot of a roster account both exist with different directions, the
    one event is the DIRECTION_CHANGE, whatever the two sizes are, so no
    SIZE_INCREASE is reported for the account. *)
Theorem C1_priority_chain_flip_first :
  forall (up : Upstream) (prev : gmap string WhalePosition) (a : string),
    (length (events_of_account a
               (new_positions (check_position_changes up prev))) <= 1)%nat
    /\ forall cur prv,
         a ∈ WHALE_ADDRESSES ->
         get_current_position up a = Some cur ->
         prev !! a = Some prv ->
         direction cur <> direction prv ->
         events_of_account a (new_positions (check_position_changes up prev))
         = [DIRECTION_CHANGE a (address_short_of a) (direction prv)
              (direction cur) (abs (size_btc cur)) (entry_price cur)
              (leverage cur)
              (winrate_fields up a).1.1 (winrate_fields up a).1.2
              (winrate_fields up a).2]
         /\ Forall (fun e => is_size_increase e = false)
              (events_of_account a
                 (new_positions (check_position_changes up prev))).
Proof.
  intros up prev a. split.
  - destruct (decide (a ∈ WHALE_ADDRESSES)) as [Hin|Hin].
    + rewrite events_of_account_check by done.
      destruct (events_for_cases up prev a) as [->|(e & -> & _)]; simpl; lia.
    + rewrite events_of_account_check_outside by done. simpl; lia.
  - intros cur prv Hin Hc Hp Hd.
    rewrite events_of_account_check by done.
    rewrite (events_for_flip up prev a cur prv) by done.
    split; [reflexivity|]. repeat constructor.
Qed.

(** C2. A roster account with no stored snapshot and a current snapshot
    yields exactly one NEW_POSITION event; the snapshot's size is not 0, and
    the direction of the event is LONG when the signed size is positive and
    SHORT otherwise. *)
Theorem C2_new_position :
  forall (up : Upstream) (prev : gmap string WhalePosition) (a : string)
         (cur : WhalePosition),
    a ∈ WHALE_ADDRESSES ->
    prev !! a = None ->
    get_current_position up a = Some cur ->
    (size_btc cur =? 0)%float = false
    /\ events_of_account a (new_positions (check_position_changes up prev))
       = [NEW_POSITION a (address_short_of a)
            (if (0 <? size_btc cur)%float then LONG else SHORT)
            (abs (size_btc cur)) (entry_price cur) (leverage cur)
            (account_value cur)
            (winrate_fields up a).1.1 (winrate_fields up a).1.2
            (winrate_fields up a).2].
Proof.
  intros up prev a cur Hin Hp Hc.
  destruct (get_current_position_Some up a cur Hc) as (_ & Hz & Hd).
  split; [exact Hz|].
  rewrite events_of_account_check by done.
  rewrite (events_for_new up prev a cur) by done.
  now rewrite Hd.
Qed.

(** C4. An account whose stored snapshot exists and whose current snapshot
    is absent contributes no event to the cycle; the sweep is a total
    function, so nothing is raised either. *)
Theorem C4_closed_position_no_event :
  forall (up : Upstream) (prev : gmap string WhalePosition) (a : string)
         (prv : WhalePosition),
    prev !! a = Some prv ->
    get_current_position up a = None ->
    events_of_account a (new_positions (check_position_changes up prev)) = [].
Proof.
  intros up prev a prv _ Hc.
  destruct (decide (a ∈ WHALE_ADDRESSES)) as [Hin|Hin].
  - rewrite events_of_account_check by done.
    now apply events_for_closed.
  - now apply events_of_account_check_outside.
Qed.

(** LONG 1 BTC stored, SHORT 2 BTC now: the magnitude doubles, and the one
    event is the flip. *)
Lemma C1_priority_chain_flip_first_witness :
  get_current_position flip_upstream (whale 0)
  = Some (sample_position (whale 0) (-2))
  /\ flip_previous !! whale 0 = Some (sample_position (whale 0) 1)
  /\ (50 <? size_change_of 1 2)%float = true
  /\ events_of_account (whale 0)
       (new_positions (check_position_changes flip_upstream flip_previous))
     = [DIRECTION_CHANGE (whale 0) "0xb83de012..." LONG SHORT 2 97000 5
          VNone (VInt 0) (VInt 0)].
Proof.
  split; [by_eval|]. split; [by_eval|]. split; [by_eval|].
  refine (proj1 (proj2 (C1_priority_chain_flip_first flip_upstream
                          flip_previous (whale 0))
                   (sample_position (whale 0) (-2))
                   (sample_position (whale 0) 1) _ _ _ _)).
  - in_roster.
  - by_eval.
  - by_eval.
  - by_eval.
Defined.

(** Nothing stored, LONG 3 BTC now, one win and one loss in the window. *)
Lemma C2_new_position_witness :
  (3 =? 0)%float = false
  /\ events_of_account (whale 4)
       (new_positions (check_position_changes fresh_upstream ∅))
     = [NEW_POSITION (whale 4) "0x2ea18c23..." LONG 3 97000 5 250000
          (VFloat 50) (VFloat 50) (VInt 2)].
Proof.
  refine (C2_new_position fresh_upstream ∅ (whale 4)
            (sample_position (whale 4) 3) _ _ _).
  - in_roster.
  - by_eval.
  - by_eval.
Defined.

(** SHORT 2 BTC stored, no BTC position now. *)
Lemma C4_closed_position_no_event_witness :
  events_of_account (whale 7)
    (new_positions (check_position_changes closed_upstream closed_previous))
  = [].
Proof.
  refine (C4_closed_position_no_event closed_upstream closed_previous
            (whale 7) (sample_position (whale 7) (-2)) _ _).
  - by_eval.
  - by_eval.
Defined.

(** ** Facts about binary64 comparisons *)

Section FloatFacts.
Open Scope float_scope.

Lemma Prim2SF_zero : Prim2SF 0 = S754_zero false.
Proof. reflexivity. Qed.

(** A size that is not 0 and whose magnitude is not above 0 is NaN. *)
Lemma abs_not_positive_nan p :
  (p =? 0) = false -> (0 <? abs p) = false -> Prim2SF (abs p) = S754_nan.
Proof.
  rewrite FloatAxioms.eqb_spec, FloatAxioms.ltb_spec, abs_spec, Prim2SF_zero.
  destruct (Prim2SF p) as [[]|[]| |[] m e]; simpl;
    try discriminate; reflexivity.
Qed.

(** NaN never exceeds the 50% threshold. *)
Lemma size_change_of_nan prev_size curr_size :
  Prim2SF prev_size = S754_nan ->
  (50 <? size_change_of prev_size curr_size) = false.
Proof.
  intros Hn. unfold size_change_of.
  rewrite FloatAxioms.ltb_spec, mul_spec, div_spec, sub_spec, Hn.
  unfold SF64mul, SF64div, SF64sub.
  assert (Hsub : forall x, SFsub prec emax x S754_nan = S754_nan)
    by (now intros [ | | | ]).
  assert (Hdiv : forall x, SFdiv prec emax x S754_nan = S754_nan)
    by (now intros [ | | | ]).
  rewrite Hsub, Hdiv. simpl. now destruct (Prim2SF 50).
Qed.

(** For a stored (non-flat) previous size the guard [prev_size > 0] adds
    nothing to the threshold test. *)
Lemma size_guard_redundant p c :
  (p =? 0) = false ->
  ((0 <? abs p) && (50 <? size_change_of (abs p) c))
  = (50 <? size_change_of (abs p) c).
Proof.
  intros Hp. destruct (0 <? abs p) eqn:Hg; [reflexivity|]. simpl.
  symmetry. apply size_change_of_nan. now apply abs_not_positive_nan.
Qed.
End FloatFacts.

(** C3. For a roster account whose stored snapshot, if any, is not flat: a
    SIZE_INCREASE event is reported iff both snapshots exist, their
    directions agree and
    [(|current| - |previous|) / |previous| * 100 > 50]; it is then the only
    event of the account and carries the change rounded to one decimal.
    At |previous| = 100, |current| = 150 the change is exactly 50 and there
    is no event; at |current| = 151 there is exactly one SIZE_INCREASE,
    with [increase_pct = 51.0]. *)
Theorem C3_size_increase_threshold :
  forall (up : Upstream) (prev : gmap string WhalePosition) (a : string),
    a ∈ WHALE_ADDRESSES ->
    (forall prv, prev !! a = Some prv -> (size_btc prv =? 0)%float = false) ->
    let events :=
      events_of_account a (new_positions (check_position_changes up prev)) in
    ((exists e, e ∈ events /\ is_size_increase e = true)
     <-> exists cur prv,
           get_current_position up a = Some cur
           /\ prev !! a = Some prv
           /\ direction cur = direction prv
           /\ (50 <? size_change_of (abs (size_btc prv))
                       (abs (size_btc cur)))%float = true)
    /\ forall cur prv,
         get_current_position up a = Some cur ->
         prev !! a = Some prv ->
         direction cur = direction prv ->
         let change :=
           size_change_of (abs (size_btc prv)) (abs (size_btc cur)) in
         let increase pct :=
           SIZE_INCREASE a (address_short_of a) (direction cur)
             (abs (size_btc prv)) (abs (size_btc cur)) pct (leverage cur)
             (winrate_fields up a).1.1 (winrate_fields up a).1.2
             (winrate_fields up a).2 in
         events = (if (50 <? change)%float
                   then [increase (Py.round change 1)] else [])
         /\ (abs (size_btc prv) = 100%float ->
             abs (size_btc cur) = 150%float ->
             events = [])
         /\ (abs (size_btc prv) = 100%float ->
             abs (size_btc cur) = 151%float ->
             events = [increase 51%float]).
Proof.
  intros up prev a Hin Hstored events.
  assert (Hsame : forall cur prv,
            get_current_position up a = Some cur ->
            prev !! a = Some prv ->
            direction cur = direction prv ->
            events
            = if (50 <? size_change_of (abs (size_btc prv))
                          (abs (size_btc cur)))%float
              then [SIZE_INCREASE a (address_short_of a) (direction cur)
                      (abs (size_btc prv)) (abs (size_btc cur))
                      (Py.round (size_change_of (abs (size_btc prv))
                                   (abs (size_btc cur))) 1)
                      (leverage cur)
                      (winrate_fields up a).1.1 (winrate_fields up a).1.2
                      (winrate_fields up a).2]
              else []).
  { intros cur prv Hc Hp Hd. subst events.
    rewrite events_of_account_check by done.
    rewrite (events_for_same_direction up prev a cur prv) by done.
    rewrite size_guard_redundant; [reflexivity|]. now apply Hstored. }
  split.
  - split.
    + intros (e & He & Hinc). subst events.
      rewrite events_of_account_check in He, Hsame by done.
      destruct (get_current_position up a) as [cur|] eqn:Hc.
      2:{ rewrite (events_for_closed up prev a Hc) in He.
          now apply elem_of_nil in He. }
      destruct (prev !! a) as [prv|] eqn:Hp.
      2:{ rewrite (events_for_new up prev a cur Hc Hp) in He.
          apply list_elem_of_singleton in He. subst e. discriminate. }
      destruct (decide (direction cur = direction prv)) as [Hd|Hd].
      2:{ rewrite (events_for_flip up prev a cur prv Hc Hp Hd) in He.
          apply list_elem_of_singleton in He. subst e. discriminate. }
      exists cur, prv. repeat (split; [done|]).
      rewrite (Hsame cur prv eq_refl eq_refl Hd) in He.
      destruct (50 <? _)%float; [reflexivity|].
      now apply elem_of_nil in He.
    + intros (cur & prv & Hc & Hp & Hd & Hgt).
      rewrite (Hsame cur prv Hc Hp Hd), Hgt.
      eexists; split; [apply list_elem_of_singleton; reflexivity|reflexivity].
  - intros cur prv Hc Hp Hd change increase.
    split; [exact (Hsame cur prv Hc Hp Hd)|]. split.
    + intros Hp100 Hc150. rewrite (Hsame cur prv Hc Hp Hd).
      now rewrite Hp100, Hc150.
    + intros Hp100 Hc151. rewrite (Hsame cur prv Hc Hp Hd).
      subst increase. now rewrite Hp100, Hc151.
Qed.

(** LONG 100 BTC stored: LONG 150 now gives nothing, LONG 151 gives the
    event with 51.0. *)
Lemma C3_size_increase_threshold_witness :
  events_of_account (whale 2)
    (new_positions
       (check_position_changes (boundary_upstream 150) boundary_previous))
  = []
  /\ events_of_account (whale 2)
       (new_positions
          (check_position_changes (boundary_upstream 151) boundary_previous))
     = [SIZE_INCREASE (whale 2) "0xc2a30212..." LONG 100 151 51 5
          VNone (VInt 0) (VInt 0)].
Proof.
  assert (Hstored : forall prv,
            boundary_previous !! whale 2 = Some prv ->
            (size_btc prv =? 0)%float = false).
  { intros prv Hp.
    assert (Hl : boundary_previous !! whale 2
                 = Some (sample_position (whale 2) 100)) by by_eval.
    rewrite Hl in Hp. injection Hp as <-. reflexivity. }
  assert (Hin : whale 2 ∈ WHALE_ADDRESSES) by in_roster.
  split.
  - refine (proj1 (proj2 (proj2 (C3_size_increase_threshold
              (boundary_upstream 150) boundary_previous (whale 2)
              Hin Hstored)
              (sample_position (whale 2) 150)
              (sample_position (whale 2) 100) _ _ _)) _ _); by_eval.
  - refine (proj2 (proj2 (proj2 (C3_size_increase_threshold
              (boundary_upstream 151) boundary_previous (whale 2)
              Hin Hstored)
              (sample_position (whale 2) 151)
              (sample_position (whale 2) 100) _ _ _)) _ _); by_eval.
Defined.

(** ** Scoring claims *)



(** The entries of a scored result, read without evaluating them. *)
Lemma get_whale_winrate_scored up a days fills :
  _post (userFillsByTime up a days) = Some fills ->
  closed_trades_of (btc_fills_of fills) <> [] ->
  let closed_trades := closed_trades_of (btc_fills_of fills) in
  let wr := get_whale_winrate up a days in
  wr !! "closed_trades" = Some (VInt (Z.of_nat (length closed_trades)))
  /\ wr !! "winrate"
     = Some (winrate_of (count_if is_win closed_trades)
               (count_if is_loss closed_trades))
  /\ wr !! "profit_factor"
     = Some (VFloat (Py.round (profit_factor_of closed_trades) 2)).
Proof.
  intros Hpost Hne closed_trades wr. subst wr. unfold get_whale_winrate.
  rewrite Hpost.
  destruct fills as [|f fills]; [now elim Hne|].
  cbv beta iota. fold closed_trades.
  destruct closed_trades as [|c ct] eqn:Hct; [now elim Hne|].
  repeat split.
Qed.

Lemma eqb_zero_not_positive (x : float) :
  (x =? 0)%float = true -> (0 <? x)%float = false.
Proof.
  rewrite FloatAxioms.eqb_spec, FloatAxioms.ltb_spec, Prim2SF_zero.
  destruct (Prim2SF x) as [[]|[]| |[] m e]; simpl;
    try discriminate; reflexivity.
Qed.

(** Two zero totals do not add up to a positive one. *)
Lemma sum_of_zeros_not_positive (x y : float) :
  (x =? 0)%float = true -> (y =? 0)%float = true ->
  (0 <? x + y)%float = false.
Proof.
  rewrite !FloatAxioms.eqb_spec, FloatAxioms.ltb_spec, add_spec, Prim2SF_zero.
  destruct (Prim2SF x) as [[]|[]| |[] m e]; simpl; try discriminate;
    destruct (Prim2SF y) as [[]|[]| |[] m' e']; simpl;
    try discriminate; reflexivity.
Qed.

(** C9, as the code has it.  When [gross_loss > 0] the profit factor is
    [gross_profit / gross_loss], stored rounded to two decimals.  Otherwise,
    in particular when [gross_loss == 0], it is the raw binary64 infinity
    [float('inf')], which [round] leaves unchanged and which is stored as an
    ordinary float: no tagged sentinel is used. *)
Theorem C9_profit_factor_raw_infinity :
  forall (up : Upstream) (a : string) (days : Z) (fills : list Fill),
    _post (userFillsByTime up a days) = Some fills ->
    closed_trades_of (btc_fills_of fills) <> [] ->
    let closed_trades := closed_trades_of (btc_fills_of fills) in
    let gross_profit := gross_profit_of closed_trades in
    let gross_loss := gross_loss_of closed_trades in
    let wr := get_whale_winrate up a days in
    ((0 <? gross_loss)%float = true ->
     profit_factor_of closed_trades = (gross_profit / gross_loss)%float
     /\ wr !! "profit_factor"
        = Some (VFloat (Py.round (gross_profit / gross_loss)%float 2)))
    /\ ((0 <? gross_loss)%float = false ->
        profit_factor_of closed_trades = infinity
        /\ wr !! "profit_factor" = Some (VFloat infinity)
        /\ is_raw_infinity (Py.get wr "profit_factor") = true)
    /\ ((gross_loss =? 0)%float = true -> (0 <? gross_loss)%float = false).
Proof.
  intros up a days fills Hpost Hne closed_trades gross_profit gross_loss wr.
  destruct (get_whale_winrate_scored up a days fills Hpost Hne)
    as (_ & _ & Hpf).
  fold closed_trades in Hpf. fold wr in Hpf.
  assert (Hdef : profit_factor_of closed_trades
                 = if (0 <? gross_loss)%float
                   then (gross_profit / gross_loss)%float else infinity)
    by reflexivity.
  split; [|split].
  - intros Hgt. rewrite Hgt in Hdef. rewrite Hpf, Hdef. auto.
  - intros Hle. rewrite Hle in Hdef. unfold Py.get.
    rewrite Hpf, Hdef. repeat split.
  - apply eqb_zero_not_positive.
Qed.

(** One win of 1 against three losses of 1 gives 0.33; two wins and no
    loss give the float infinity. *)
Lemma C9_profit_factor_raw_infinity_witness :
  get_whale_winrate mixed_upstream (whale 3) 30 !! "profit_factor"
  = Some (VFloat 0x1.51eb851eb851fp-2) (* 0.33 *)
  /\ get_whale_winrate winner_upstream (whale 3) 30 !! "profit_factor"
     = Some (VFloat infinity).
Proof.
  split.
  - refine (proj2 (proj1 (C9_profit_factor_raw_infinity mixed_upstream
              (whale 3) 30
              [btc_fill 1; btc_fill (-1); btc_fill (-1); btc_fill (-1)]
              _ _) _)); by_eval.
  - refine (proj1 (proj2 (proj1 (proj2 (C9_profit_factor_raw_infinity
              winner_upstream (whale 3) 30 [btc_fill 100; btc_fill 40]
              _ _)) _))); by_eval.
Defined.

(** C9 as stated fails: with two winning closes and no loss, [gross_loss] is
    0, closed trades exist, and the stored profit factor is a float
    infinity. *)
Lemma C9_sentinel_counterexample :
  ~ ((gross_loss_of
        (closed_trades_of (btc_fills_of [btc_fill 100; btc_fill 40]))
      =? 0)%float = true ->
     closed_trades_of (btc_fills_of [btc_fill 100; btc_fill 40]) <> [] ->
     is_raw_infinity
       (Py.get (get_whale_winrate winner_upstream (whale 3) 30)
          "profit_factor") = false).
Proof.
  intros H.
  assert (Hinf : is_raw_infinity
                   (Py.get (get_whale_winrate winner_upstream (whale 3) 30)
                      "profit_factor") = true) by by_eval.
  rewrite H in Hinf; [discriminate | by_eval | by_eval].
Qed.

(** ** Sentiment *)

Lemma fold_left_add_running_total (xs : list float) :
  fold_left PrimFloat.add xs 0%float = Py.running_total xs.
Proof. reflexivity. Qed.

Lemma sentiment_totals_from up roster acc :
  fold_left (sentiment_address up) roster acc
  = {| total_long :=
         fold_left PrimFloat.add
           (map abs_size (List.filter is_long (current_snapshots roster up)))
           (total_long acc);
       total_short :=
         fold_left PrimFloat.add
           (map abs_size
              (List.filter (fun p => negb (is_long p))
                 (current_snapshots roster up)))
           (total_short acc);
       count := count acc + Z.of_nat (length (current_snapshots roster up)) |}.
Proof.
  revert acc; induction roster as [|a roster IH]; intros acc.
  - destruct acc; simpl. now rewrite Z.add_0_r.
  - cbn [fold_left]. rewrite IH.
    assert (Hs : current_snapshots (a :: roster) up
                 = match get_current_position up a with
                   | Some p => p :: current_snapshots roster up
                   | None => current_snapshots roster up
                   end) by reflexivity.
    rewrite Hs. unfold sentiment_address.
    destruct (get_current_position up a) as [pos|]; [|reflexivity].
    cbn [List.filter].
    assert (Hl : is_long pos = (0 <? size_btc pos)%float) by reflexivity.
    rewrite Hl.
    destruct (0 <? size_btc pos)%float;
      cbn [negb map fold_left length total_long total_short count];
      f_equal; lia.
Qed.

(** C8. The long and short totals are the sums of |size| over the snapshots
    with positive and with non-positive signed size; [long_ratio] is
    [total_long / (total_long + total_short) * 100] when the sum is above 0
    and 50 when both totals are 0; the label follows the exclusive
    thresholds >65, >55, <35, <45 in that order, else NEUTRAL; the summary
    reports the totals rounded to two decimals and the ratio rounded to one.
    With no snapshot at all the reported ratio is 50.0 and the label
    NEUTRAL. *)
Theorem C8_sentiment_thresholds :
  forall up : Upstream,
    let snapshots := current_snapshots WHALE_ADDRESSES up in
    let sum_long :=
      Py.running_total (map abs_size (List.filter is_long snapshots)) in
    let sum_short :=
      Py.running_total
        (map abs_size (List.filter (fun p => negb (is_long p)) snapshots)) in
    let long_ratio := long_ratio_of sum_long sum_short in
    let s := get_current_sentiment up in
    (((0 <? sum_long + sum_short)%float = true ->
      long_ratio = (sum_long / (sum_long + sum_short) * 100)%float)
     /\ ((sum_long =? 0)%float = true -> (sum_short =? 0)%float = true ->
         long_ratio = 50%float))
    /\ (whale_count s = Z.of_nat (length snapshots)
        /\ total_long_btc s = Py.round sum_long 2
        /\ total_short_btc s = Py.round sum_short 2
        /\ long_ratio_pct s = Py.round long_ratio 1)
    /\ (sentiment s = STRONG_LONG <-> (65 <? long_ratio)%float = true)
    /\ (sentiment s = SLIGHTLY_LONG <->
        (65 <? long_ratio)%float = false /\ (55 <? long_ratio)%float = true)
    /\ (sentiment s = STRONG_SHORT <->
        (65 <? long_ratio)%float = false /\ (55 <? long_ratio)%float = false
        /\ (long_ratio <? 35)%float = true)
    /\ (sentiment s = SLIGHTLY_SHORT <->
        (65 <? long_ratio)%float = false /\ (55 <? long_ratio)%float = false
        /\ (long_ratio <? 35)%float = false
        /\ (long_ratio <? 45)%float = true)
    /\ (sentiment s = NEUTRAL <->
        (65 <? long_ratio)%float = false /\ (55 <? long_ratio)%float = false
        /\ (long_ratio <? 35)%float = false
        /\ (long_ratio <? 45)%float = false)
    /\ (snapshots = [] ->
        long_ratio_pct s = 50%float /\ sentiment s = NEUTRAL).
Proof.
  intros up snapshots.
  unfold get_current_sentiment, get_current_sentiment_on, sentiment_totals.
  rewrite sentiment_totals_from. fold snapshots.
  cbn [total_long total_short count whale_count total_long_btc
       total_short_btc long_ratio_pct sentiment].
  clearbody snapshots.
  rewrite !fold_left_add_running_total.
  set (sum_long :=
         Py.running_total (map abs_size (List.filter is_long snapshots))).
  set (sum_short :=
         Py.running_total
           (map abs_size
              (List.filter (fun p => negb (is_long p)) snapshots))).
  set (long_ratio := long_ratio_of sum_long sum_short).
  split; [split|].
  - intros Hpos. subst long_ratio. unfold long_ratio_of. now rewrite Hpos.
  - intros Hl Hsh. subst long_ratio. unfold long_ratio_of.
    now rewrite (sum_of_zeros_not_positive _ _ Hl Hsh).
  - split; [repeat split; lia|].
    assert (Hnil : snapshots = [] -> long_ratio = 50%float)
      by (intros ->; reflexivity).
    clearbody long_ratio. clear sum_long sum_short.
    unfold sentiment_of.
    destruct (65 <? long_ratio)%float eqn:H65;
      destruct (55 <? long_ratio)%float eqn:H55;
      destruct (long_ratio <? 35)%float eqn:H35;
      destruct (long_ratio <? 45)%float eqn:H45;
      repeat match goal with |- _ /\ _ => split end;
      try (split; intros; intuition congruence);
      (intros Hno; specialize (Hnil Hno); subst long_ratio;
       vm_compute in H65, H55, H35, H45;
       first [congruence | split; reflexivity]).
Qed.

(** The 70/30 split of the sample roster is STRONG_LONG, and a silent
    upstream gives 50.0 and NEUTRAL. *)
Lemma C8_sentiment_thresholds_witness :
  long_ratio_of 70 30 = 70%float
  /\ sentiment (get_current_sentiment bullish_upstream) = STRONG_LONG
  /\ long_ratio_pct (get_current_sentiment silent_upstream) = 50%float
  /\ sentiment (get_current_sentiment silent_upstream) = NEUTRAL.
Proof.
  destruct (C8_sentiment_thresholds bullish_upstream)
    as ((Hratio & _) & _ & (_ & Hstrong) & _).
  destruct (C8_sentiment_thresholds silent_upstream)
    as (_ & _ & _ & _ & _ & _ & _ & Hsilent).
  split; [|split].
  - apply Hratio. by_eval.
  - apply Hstrong. by_eval.
  - apply Hsilent. by_eval.
Defined.

(** ** Fetch failures and the stored snapshots *)

Lemma get_current_position_same_answers up up' b :
  same_answers up up' b ->
  get_current_position up b = get_current_position up' b.
Proof. intros [Hc _]. unfold get_current_position. now rewrite Hc. Qed.

Lemma get_whale_winrate_same_answers up up' b days :
  same_answers up up' b ->
  get_whale_winrate up b days = get_whale_winrate up' b days.
Proof. intros [_ Hf]. unfold get_whale_winrate. now rewrite Hf. Qed.

Lemma events_for_same_answers up up' prev b :
  same_answers up up' b ->
  events_for up prev b = events_for up' prev b.
Proof.
  intros Hs. unfold events_for, check_address, winrate_fields.
  rewrite (get_current_position_same_answers up up' b Hs).
  now rewrite (get_whale_winrate_same_answers up up' b 30 Hs).
Qed.

Lemma check_position_changes_saved up prev b :
  current_positions (check_position_changes up prev) !! b
  = if bool_decide (b ∈ WHALE_ADDRESSES)
    then get_current_position up b else None.
Proof.
  unfold check_position_changes, check_position_changes_on.
  rewrite sweep_current_positions. cbn [current_positions].
  rewrite lookup_empty.
  destruct (bool_decide (b ∈ WHALE_ADDRESSES)); [|reflexivity].
  now destruct (get_current_position up b).
Qed.

(** What a cycle saves is never flat: the stored sizes that the next cycle
    reads as [previous] are not 0. *)
Lemma saved_positions_not_flat up prev b pos :
  current_positions (check_position_changes up prev) !! b = Some pos ->
  (size_btc pos =? 0)%float = false.
Proof.
  rewrite check_position_changes_saved.
  destruct (bool_decide (b ∈ WHALE_ADDRESSES)); [|discriminate].
  intros Hpos. now destruct (get_current_position_Some up b pos Hpos) as (_ & ? & _).
Qed.

(** The failures that the code handles, on typed answers: when the
    position request of an account fails (connection error, timeout, HTTP
    error status or undecodable body, all swallowed by [_post], or a body
    without ['assetPositions']), the account has no current snapshot in
    this cycle and contributes no event; the sweep still handles every
    roster account, each one's events and saved snapshot depending on its
    own answers only; the dict written at the end replaces the file and has
    no entry for the failed account; and the entry is back after a later
    cycle in which the fetch returns a position. *)
Lemma typed_fetch_failure_drops_account :
  forall (up : Upstream) (file : PositionsFile) (a : string),
    fetch_failed up a ->
    let prev := _load_previous_positions file in
    let st := check_position_changes up prev in
    get_current_position up a = None
    /\ events_of_account a (new_positions st) = []
    /\ (forall b, b ∈ WHALE_ADDRESSES ->
          events_of_account b (new_positions st) = events_for up prev b
          /\ current_positions st !! b = get_current_position up b)
    /\ (forall up' b, b ∈ WHALE_ADDRESSES -> same_answers up up' b ->
          events_of_account b (new_positions st)
          = events_of_account b
              (new_positions (check_position_changes up' prev))
          /\ current_positions st !! b
             = current_positions (check_position_changes up' prev) !! b)
    /\ (exists saved,
          (run_cycle up true file).2 = Some saved /\ saved !! a = None)
    /\ (forall up' pos,
          a ∈ WHALE_ADDRESSES ->
          get_current_position up' a = Some pos ->
          exists saved',
            (run_cycle up' true (run_cycle up true file).2).2 = Some saved'
            /\ saved' !! a = Some pos).
Proof.
  intros up file a Hfail prev st.
  assert (Hnone : get_current_position up a = None).
  { unfold get_current_position. unfold fetch_failed in Hfail.
    destruct (_post (clearinghouseState up a)) as [data|]; [|reflexivity].
    now rewrite Hfail. }
  split; [exact Hnone|]. split.
  { destruct (decide (a ∈ WHALE_ADDRESSES)) as [Hin|Hin].
    - subst st. rewrite events_of_account_check by done.
      now apply events_for_closed.
    - now apply events_of_account_check_outside. }
  split.
  { intros b Hb. subst st. split.
    - now apply events_of_account_check.
    - rewrite check_position_changes_saved.
      now rewrite bool_decide_eq_true_2. }
  split.
  { intros up' b Hb Hs. subst st. split.
    - rewrite !events_of_account_check by done.
      now apply events_for_same_answers.
    - rewrite !check_position_changes_saved.
      rewrite bool_decide_eq_true_2 by done.
      now apply get_current_position_same_answers. }
  split.
  { exists (current_positions st). split; [reflexivity|].
    subst st. rewrite check_position_changes_saved, Hnone.
    now destruct (bool_decide (a ∈ WHALE_ADDRESSES)). }
  intros up' pos Hin Hpos. eexists. split; [reflexivity|].
  rewrite check_position_changes_saved.
  now rewrite bool_decide_eq_true_2.
Qed.

(** ** The order of binary64 values other than NaN *)

Ltac cmp_cases :=
  repeat match goal with
         | H : context [Pos.compare_cont Eq ?a ?b] |- _ =>
             change (Pos.compare_cont Eq a b) with (Pos.compare a b) in H
         | |- context [Pos.compare_cont Eq ?a ?b] =>
             change (Pos.compare_cont Eq a b) with (Pos.compare a b)
         end;
  repeat match goal with
         | H : context [Z.compare ?a ?b] |- _ =>
             destruct (Z.compare_spec a b); try lia
         | |- context [Z.compare ?a ?b] =>
             destruct (Z.compare_spec a b); try lia
         | H : context [Pos.compare ?a ?b] |- _ =>
             destruct (Pos.compare_spec a b); try lia
         | |- context [Pos.compare ?a ?b] =>
             destruct (Pos.compare_spec a b); try lia
         end;
  simpl in *; try discriminate; try reflexivity; try lia.

Lemma SFltb_asym x y : SFltb x y = true -> SFltb y x = false.
Proof.
  unfold SFltb.
  destruct x as [[]|[]| |[] m e]; destruct y as [[]|[]| |[] m' e']; simpl;
    try discriminate; try reflexivity; cmp_cases.
Qed.

Lemma SFltb_negtrans x y z :
  sf_nan y = false ->
  SFltb x y = false -> SFltb y z = false -> SFltb x z = false.
Proof.
  unfold SFltb.
  destruct y as [[]|[]| |[] m' e']; try discriminate; intros _;
    destruct x as [[]|[]| |[] m e]; simpl; try discriminate; try reflexivity;
    destruct z as [[]|[]| |[] m'' e'']; simpl;
    try discriminate; try reflexivity; cmp_cases.
Qed.

Lemma SFeqb_equiv x y :
  sf_nan x = false -> sf_nan y = false ->
  SFeqb x y = negb (SFltb x y) && negb (SFltb y x).
Proof.
  unfold SFltb, SFeqb.
  destruct x as [[]|[]| |[] m e]; destruct y as [[]|[]| |[] m' e']; simpl;
    try discriminate; try reflexivity; intros _ _; cmp_cases.
Qed.

Lemma SFleb_not_ltb x y :
  sf_nan x = false -> sf_nan y = false ->
  SFleb y x = negb (SFltb x y).
Proof.
  unfold SFltb, SFleb.
  destruct x as [[]|[]| |[] m e]; destruct y as [[]|[]| |[] m' e']; simpl;
    try discriminate; try reflexivity; intros _ _; cmp_cases.
Qed.

Section FloatOrder.
Open Scope float_scope.

Lemma ltb_asym x y : (x <? y) = true -> (y <? x) = false.
Proof. rewrite !FloatAxioms.ltb_spec. apply SFltb_asym. Qed.

Lemma ltb_negtrans x y z :
  sf_nan (Prim2SF y) = false ->
  (x <? y) = false -> (y <? z) = false -> (x <? z) = false.
Proof. rewrite !FloatAxioms.ltb_spec. apply SFltb_negtrans. Qed.

Lemma eqb_equiv x y :
  sf_nan (Prim2SF x) = false -> sf_nan (Prim2SF y) = false ->
  (x =? y) = negb (x <? y) && negb (y <? x).
Proof.
  rewrite FloatAxioms.eqb_spec, !FloatAxioms.ltb_spec. apply SFeqb_equiv.
Qed.

Lemma leb_not_ltb x y :
  sf_nan (Prim2SF x) = false -> sf_nan (Prim2SF y) = false ->
  (y <=? x) = negb (x <? y).
Proof.
  rewrite FloatAxioms.leb_spec, FloatAxioms.ltb_spec. apply SFleb_not_ltb.
Qed.
End FloatOrder.

(** ** Rounding never produces NaN *)

Lemma shr_1_nonneg mrs : 0 <= shr_m mrs -> 0 <= shr_m (shr_1 mrs).
Proof.
  destruct mrs as [m r s]; simpl.
  destruct m as [|[p|p|]|[p|p|]]; simpl; lia.
Qed.

Lemma iter_pos_shr_1_nonneg p mrs :
  0 <= shr_m mrs -> 0 <= shr_m (SpecFloat.iter_pos shr_1 p mrs).
Proof.
  revert mrs; induction p as [p IH|p IH|]; intros mrs H; simpl.
  - apply IH, IH, shr_1_nonneg, H.
  - apply IH, IH, H.
  - apply shr_1_nonneg, H.
Qed.

Lemma shr_fexp_nonneg m e l :
  0 <= m -> 0 <= shr_m (shr_fexp prec emax m e l).1.
Proof.
  intros Hm. unfold shr_fexp, shr.
  assert (H0 : 0 <= shr_m (shr_record_of_loc m l))
    by (destruct l as [|[]]; exact Hm).
  destruct (fexp prec emax (Zdigits2 m + e) - e); simpl;
    [exact H0 | now apply iter_pos_shr_1_nonneg | exact H0].
Qed.

Lemma round_nearest_even_nonneg m l : 0 <= m -> 0 <= round_nearest_even m l.
Proof.
  intros Hm. destruct l as [|[]]; simpl; try lia.
  destruct (Z.even m); lia.
Qed.

Lemma binary_round_aux_not_nan s m e l :
  0 <= m -> sf_nan (binary_round_aux prec emax s m e l) = false.
Proof.
  intros Hm. unfold binary_round_aux.
  pose proof (shr_fexp_nonneg m e l Hm) as H1.
  destruct (shr_fexp prec emax m e l) as [mrs' e']. simpl in H1.
  pose proof (shr_fexp_nonneg _ e' loc_Exact
                (round_nearest_even_nonneg _ (loc_of_shr_record mrs') H1))
    as H2.
  destruct (shr_fexp prec emax _ e' loc_Exact) as [mrs'' e'']. simpl in H2.
  destruct (shr_m mrs'') as [|p|p]; [reflexivity| |lia].
  now destruct (e'' <=? emax - prec).
Qed.

Lemma binary_round_not_nan s m e :
  sf_nan (binary_round prec emax s m e) = false.
Proof.
  unfold binary_round.
  destruct (shl_align m e _) as [mz ez].
  now apply binary_round_aux_not_nan.
Qed.

Lemma SF2Prim_not_nan x :
  sf_nan x = false -> sf_nan (Prim2SF (SF2Prim x)) = false.
Proof.
  destruct x as [[]|[]| |s m e]; try reflexivity; try discriminate.
  intros _. unfold SF2Prim.
  set (pm := of_uint63 (Uint63.of_Z (Z.pos m))).
  assert (Hpm : sf_nan (Prim2SF pm) = false).
  { subst pm. rewrite of_uint63_spec. unfold binary_normalize.
    destruct (Uint63.to_Z _); [reflexivity| |]; apply binary_round_not_nan. }
  assert (Hld : sf_nan (Prim2SF (Z.ldexp pm e)) = false).
  { rewrite Z_ldexp_spec. unfold SFldexp.
    destruct (Prim2SF pm); try exact Hpm. apply binary_round_not_nan. }
  destruct s; [|exact Hld].
  rewrite opp_spec. now destruct (Prim2SF (Z.ldexp pm e)).
Qed.

Lemma mul_100_not_nan x :
  sf_nan (Prim2SF x) = false -> sf_nan (Prim2SF (x * 100)%float) = false.
Proof.
  intros Hx. rewrite mul_spec.
  change (Prim2SF 100) with (S754_finite false 7036874417766400 (-46)).
  unfold SF64mul, SFmul.
  destruct (Prim2SF x) as [s|s| |s m e]; try reflexivity; try discriminate.
  now apply binary_round_aux_not_nan.
Qed.

Lemma nearest_float_not_nan s n d :
  sf_nan (Prim2SF (Py.nearest_float s n d)) = false.
Proof.
  unfold Py.nearest_float, SFdiv_core_binary.
  set (m' := match _ with Z.pos _ => _ | _ => _ end).
  assert (Hm' : 0 <= m').
  { subst m'. destruct (_ - _ - _); try lia. apply Z.shiftl_nonneg. lia. }
  pose proof (Z.div_pos m' (Z.pos d) Hm' eq_refl) as Hq.
  unfold Z.div in Hq.
  destruct (Z.div_eucl m' (Z.pos d)) as [q r]. simpl in Hq.
  apply SF2Prim_not_nan. now apply binary_round_aux_not_nan.
Qed.

Lemma round_not_nan x ndigits :
  sf_nan (Prim2SF x) = false ->
  sf_nan (Prim2SF (Py.round x ndigits)) = false.
Proof.
  intros Hx. unfold Py.round.
  destruct (Prim2SF x) as [s|s| |s m e] eqn:Hsf; try (now rewrite Hsf).
  destruct (match e with Z.neg _ => _ | _ => _ end).
  - now destruct s.
  - apply nearest_float_not_nan.
  - now destruct s.
Qed.

Lemma truediv_not_nan a b :
  0 <= a -> 0 < b -> sf_nan (Prim2SF (Py.truediv a b)) = false.
Proof.
  intros Ha Hb. unfold Py.truediv.
  destruct a as [|n|n]; destruct b as [|d|d]; try lia; try reflexivity.
  apply nearest_float_not_nan.
Qed.

(** Whatever the two counts, the ['winrate'] entry of a scored result is an
    ordered key. *)
Lemma winrate_of_ordered wins losses :
  0 <= wins -> 0 <= losses ->
  ordered_key (winrate_of wins losses) = true.
Proof.
  intros Hw Hl. unfold winrate_of.
  destruct (0 <? wins + losses) eqn:Hpos; [|reflexivity].
  apply Z.ltb_lt in Hpos. simpl.
  rewrite round_not_nan; [reflexivity|].
  apply mul_100_not_nan, truediv_not_nan; lia.
Qed.

(** ** Stable insertion sort *)

Section StableSortFacts.
Context {A : Type} (less : A -> A -> bool) (P : A -> Prop).
Hypothesis less_asym : forall x y, less x y = true -> less y x = false.
Hypothesis less_negtrans :
  forall x y z, P y -> less x y = false -> less y z = false ->
                less x z = false.

Lemma insert_by_perm x l : Permutation (insert_by less x l) (x :: l).
Proof.
  induction l as [|y l IH]; simpl; [reflexivity|].
  destruct (less x y); [|reflexivity].
  rewrite IH. apply perm_swap.
Qed.

Lemma sort_by_perm l : Permutation (sort_by less l) l.
Proof.
  induction l as [|x l IH]; simpl; [reflexivity|].
  rewrite insert_by_perm. now constructor.
Qed.

Lemma insert_by_sorted x l :
  Forall P l ->
  StronglySorted (not_below less) l ->
  StronglySorted (not_below less) (insert_by less x l).
Proof.
  intros HP Hs. induction Hs as [|y l Hs IH Hy]; simpl.
  - repeat constructor.
  - apply Forall_cons in HP as [Py Pl].
    destruct (less x y) eqn:Hxy.
    + constructor; [now apply IH|].
      rewrite insert_by_perm. constructor; [|exact Hy].
      now apply less_asym.
    + constructor; [now constructor|].
      constructor; [exact Hxy|].
      eapply Forall_impl; [exact Hy|].
      intros z Hyz. now apply (less_negtrans x y z).
Qed.

Lemma sort_by_sorted l :
  Forall P l -> StronglySorted (not_below less) (sort_by less l).
Proof.
  induction 1 as [|x l Px Pl IH]; simpl; [constructor|].
  apply insert_by_sorted; [|exact IH].
  now rewrite sort_by_perm.
Qed.

Lemma insert_by_stable z x l :
  P z ->
  List.filter (tie less z) (insert_by less x l) = List.filter (tie less z) (x :: l).
Proof.
  intros Pz. induction l as [|y l IH]; [reflexivity|].
  cbn [insert_by]. destruct (less x y) eqn:Hxy; [|reflexivity].
  cbn [List.filter] in *. rewrite IH.
  destruct (tie less z x) eqn:Hx; [|reflexivity].
  destruct (tie less z y) eqn:Hy; [|reflexivity].
  exfalso. unfold tie in Hx, Hy.
  apply andb_true_iff in Hx as [Hx _], Hy as [_ Hy].
  apply negb_true_iff in Hx, Hy.
  rewrite (less_negtrans x z y Pz Hx Hy) in Hxy. discriminate.
Qed.

Lemma sort_by_stable z l :
  P z ->
  List.filter (tie less z) (sort_by less l) = List.filter (tie less z) l.
Proof.
  intros Pz. induction l as [|x l IH]; [reflexivity|].
  cbn [sort_by foldr]. fold (sort_by less l).
  rewrite insert_by_stable by exact Pz.
  cbn [List.filter]. now rewrite IH.
Qed.

Lemma sort_by_nonempty x l : sort_by less (x :: l) <> [].
Proof.
  intros Hnil.
  pose proof (Permutation_length (sort_by_perm (x :: l))) as Hlen.
  rewrite Hnil in Hlen. discriminate.
Qed.
End StableSortFacts.

(** ** Python's sort on ordered keys *)

Lemma lt_ordered a b :
  ordered_key a = true -> ordered_key b = true ->
  Py.lt a b = Some (key_float a <? key_float b)%float.
Proof.
  destruct a as [| |x|x|]; try discriminate;
    destruct b as [| |y|y|]; try discriminate; simpl; intros Ha Hb;
    try apply Z.eqb_eq in Ha; try apply Z.eqb_eq in Hb; subst;
    reflexivity.
Qed.

Lemma ge_ordered a b :
  ordered_key a = true -> ordered_key b = true ->
  Py.ge a b = Some (key_float b <=? key_float a)%float.
Proof.
  destruct a as [| |x|x|]; try discriminate;
    destruct b as [| |y|y|]; try discriminate; simpl; intros Ha Hb;
    try apply Z.eqb_eq in Ha; try apply Z.eqb_eq in Hb; subst;
    reflexivity.
Qed.

Lemma eqv_ordered a b :
  ordered_key a = true -> ordered_key b = true ->
  Py.eqv a b = (key_float a =? key_float b)%float.
Proof.
  destruct a as [| |x|x|]; try discriminate;
    destruct b as [| |y|y|]; try discriminate; simpl; intros Ha Hb;
    try apply Z.eqb_eq in Ha; try apply Z.eqb_eq in Hb; subst;
    reflexivity.
Qed.

Lemma ordered_key_not_nan v :
  ordered_key v = true -> sf_nan (Prim2SF (key_float v)) = false.
Proof.
  destruct v as [| |x|x|]; try discriminate; simpl.
  - reflexivity.
  - now intros ->%negb_true_iff.
Qed.

Lemma lt_None_l b : Py.lt VNone b = None.
Proof. reflexivity. Qed.

Lemma lt_None_r a : Py.lt a VNone = None.
Proof. now destruct a. Qed.

Section SortOrdered.
Context {A : Type} (key : A -> PyVal).

Local Abbreviation less := (key_less key).
Local Abbreviation ordered := (key_ordered key).
Local Abbreviation none_or_ordered := (key_none_or_ordered key).

Lemma insert_desc_ordered x l :
  ordered x -> Forall ordered l ->
  Py.insert_desc key x l = Some (insert_by less x l).
Proof.
  intros Hx. induction 1 as [|y l Hy Hl IH]; [reflexivity|].
  cbn [Py.insert_desc insert_by].
  rewrite (lt_ordered _ _ Hx Hy). fold (less x y).
  destruct (less x y); [|reflexivity].
  now rewrite IH.
Qed.

Lemma sort_desc_ordered l :
  Forall ordered l -> Py.sort_desc key l = Some (sort_by less l).
Proof.
  induction 1 as [|x l Hx Hl IH]; [reflexivity|].
  unfold Py.sort_desc in *. cbn [foldr]. rewrite IH. cbn.
  apply insert_desc_ordered; [exact Hx|].
  fold (sort_by less l). now rewrite sort_by_perm.
Qed.

(** A sort that returns either had nothing to compare or compared ordered
    keys only. *)
Lemma sort_desc_Some l out :
  Forall none_or_ordered l ->
  Py.sort_desc key l = Some out ->
  ((length l <= 1)%nat /\ out = l) \/ Forall ordered l.
Proof.
  intros Hl. revert out. induction Hl as [|x l Hx Hl IH]; intros out Hs.
  - left. split; [simpl; lia|]. now injection Hs.
  - unfold Py.sort_desc in Hs. cbn [foldr] in Hs.
    fold (Py.sort_desc key l) in Hs.
    destruct (Py.sort_desc key l) as [out'|] eqn:Hs'; [|discriminate].
    cbn in Hs. specialize (IH out' eq_refl).
    assert (Hperm : Permutation out' l).
    { destruct IH as [[_ ->]|Hord]; [reflexivity|].
      rewrite (sort_desc_ordered l Hord) in Hs'. injection Hs' as <-.
      apply sort_by_perm. }
    destruct out' as [|z r].
    + apply Permutation_nil in Hperm. subst l.
      left. split; [simpl; lia|]. now injection Hs.
    + cbn [Py.insert_desc] in Hs.
      assert (Hz : none_or_ordered z).
      { rewrite Forall_forall in Hl. apply Hl, list_elem_of_In.
        eapply Permutation_in; [exact Hperm|]. now left. }
      assert (Hxz : ordered x /\ ordered z).
      { destruct Hx as [Hx|Hx]; [now rewrite Hx, lt_None_l in Hs|].
        destruct Hz as [Hz|Hz]; [now rewrite Hz, lt_None_r in Hs|].
        now split. }
      right. constructor; [apply Hxz|].
      destruct IH as [[Hlen <-]|Hord]; [|exact Hord].
      destruct r; [|simpl in Hlen; lia].
      constructor; [apply Hxz|constructor].
Qed.
End SortOrdered.

(** ** The winrate key of a score *)

Lemma count_if_nonneg {A : Type} (p : A -> bool) (l : list A) :
  0 <= count_if p l.
Proof. unfold count_if. lia. Qed.

Lemma ordered_key_is_number v : ordered_key v = true -> is_number v = true.
Proof. now destruct v. Qed.

(** The three shapes of the dict [get_whale_winrate] returns. *)
Lemma get_whale_winrate_shapes up a days :
  let wr := get_whale_winrate up a days in
  (wr !! "winrate" = None /\ wr !! "closed_trades" = None)
  \/ (wr !! "winrate" = Some VNone /\ wr !! "closed_trades" = Some (VInt 0))
  \/ (exists v n, wr !! "winrate" = Some v /\ ordered_key v = true
                  /\ wr !! "closed_trades" = Some (VInt n)).
Proof.
  intros wr.
  destruct (_post (userFillsByTime up a days)) as [fills|] eqn:Hpost.
  - destruct (closed_trades_of (btc_fills_of fills)) as [|c ct] eqn:Hct.
    + subst wr. unfold get_whale_winrate. rewrite Hpost.
      destruct fills as [|f fills]; [left; split; reflexivity|].
      cbv beta iota. rewrite Hct. right; left. split; reflexivity.
    + right; right.
      assert (Hne : closed_trades_of (btc_fills_of fills) <> [])
        by (rewrite Hct; discriminate).
      destruct (get_whale_winrate_scored up a days fills Hpost Hne)
        as (Hc & Hw & _).
      do 2 eexists. split; [exact Hw|]. split; [|exact Hc].
      apply winrate_of_ordered; apply count_if_nonneg.
  - left. subst wr. unfold get_whale_winrate. rewrite Hpost.
    split; reflexivity.
Qed.

Lemma winrate_key_cases up a days :
  winrate_key (get_whale_winrate up a days) = VNone
  \/ ordered_key (winrate_key (get_whale_winrate up a days)) = true.
Proof.
  unfold winrate_key, get_default.
  destruct (get_whale_winrate_shapes up a days)
    as [[-> _]|[[-> _]|(v & n & -> & Hv & _)]]; simpl; auto.
Qed.

(** With a threshold of at least one closed trade only scored results pass
    the filter. *)
Lemma enough_trades_ordered up a days min_trades :
  1 <= min_trades ->
  enough_trades min_trades (get_whale_winrate up a days) = true ->
  exists v, get_whale_winrate up a days !! "winrate" = Some v
            /\ ordered_key v = true.
Proof.
  intros Hmin. unfold enough_trades, get_default.
  destruct (get_whale_winrate_shapes up a days)
    as [[_ ->]|[[_ ->]|(v & n & Hw & Hv & _)]]; simpl.
  - intros H%Z.leb_le. lia.
  - intros H%Z.leb_le. lia.
  - intros _. now exists v.
Qed.

Lemma retained_winrates_elem roster up days min_trades wr :
  wr ∈ retained_winrates roster up days min_trades ->
  exists a, a ∈ roster /\ wr = get_whale_winrate up a days
            /\ enough_trades min_trades wr = true.
Proof.
  unfold retained_winrates. rewrite list_elem_of_In, filter_In, in_map_iff.
  intros [(a & <- & Ha) He]. exists a. now rewrite list_elem_of_In.
Qed.

Lemma retained_none_or_ordered roster up days min_trades :
  Forall (fun wr => winrate_key wr = VNone
                    \/ ordered_key (winrate_key wr) = true)
    (retained_winrates roster up days min_trades).
Proof.
  apply Forall_forall. intros wr Hin.
  destruct (retained_winrates_elem _ _ _ _ _ Hin) as (a & _ & -> & _).
  apply winrate_key_cases.
Qed.

Lemma retained_ordered roster up days min_trades :
  1 <= min_trades ->
  Forall (fun wr => exists v, wr !! "winrate" = Some v
                              /\ ordered_key v = true)
    (retained_winrates roster up days min_trades).
Proof.
  intros Hmin. apply Forall_forall. intros wr Hin.
  destruct (retained_winrates_elem _ _ _ _ _ Hin) as (a & _ & -> & He).
  now apply enough_trades_ordered with min_trades.
Qed.

Lemma retained_ordered_keys roster up days min_trades :
  1 <= min_trades ->
  Forall (fun wr => ordered_key (winrate_key wr) = true)
    (retained_winrates roster up days min_trades).
Proof.
  intros Hmin. eapply Forall_impl; [apply retained_ordered, Hmin|].
  intros wr (v & Hv & Ho). unfold winrate_key, get_default.
  now rewrite Hv.
Qed.

(** C10. With [min_trades >= 1] every retained result, hence every entry of
    the returned list, carries a ['winrate'] that is a number, and the sort
    returns: no comparison meets [None].  With [min_trades = 0] the guard is
    gone: an account with BTC fills but no closed trade is retained with
    [winrate = None], and the sort of the roster's results raises. *)
Theorem C10_min_trades_guards_sort :
  (forall (up : Upstream) (days min_trades : Z),
      1 <= min_trades ->
      Forall has_numeric_winrate
        (retained_winrates WHALE_ADDRESSES up days min_trades)
      /\ exists out,
           get_all_winrates up days min_trades = Some out
           /\ Forall has_numeric_winrate out)
  /\ exists (up : Upstream) (days : Z) (wr : gmap string PyVal),
       wr ∈ retained_winrates WHALE_ADDRESSES up days 0
       /\ wr !! "winrate" = Some VNone
       /\ get_all_winrates up days 0 = None.
Proof.
  split.
  - intros up days min_trades Hmin.
    assert (Hnum : Forall has_numeric_winrate
                     (retained_winrates WHALE_ADDRESSES up days min_trades)).
    { eapply Forall_impl; [apply retained_ordered, Hmin|].
      intros wr (v & Hv & Ho). exists v.
      split; [exact Hv|]. now apply ordered_key_is_number. }
    split; [exact Hnum|].
    unfold get_all_winrates, get_all_winrates_on.
    rewrite (sort_desc_ordered winrate_key _
               (retained_ordered_keys _ up days min_trades Hmin)).
    eexists. split; [reflexivity|].
    now rewrite sort_by_perm.
  - exists idle_upstream, 30, (get_whale_winrate idle_upstream (whale 1) 30).
    split; [|split].
    + unfold retained_winrates.
      rewrite list_elem_of_In, filter_In, in_map_iff.
      split; [|by_eval]. exists (whale 1). split; [reflexivity|].
      apply list_elem_of_In. in_roster.
    + by_eval.
    + by_eval.
Qed.

(** The sample ranking with [min_trades = 1]. *)
Lemma C10_min_trades_guards_sort_witness :
  Forall has_numeric_winrate
    (retained_winrates WHALE_ADDRESSES ranking_upstream 30 1)
  /\ exists out,
       get_all_winrates ranking_upstream 30 1 = Some out
       /\ Forall has_numeric_winrate out.
Proof.
  refine (proj1 C10_min_trades_guards_sort ranking_upstream 30 1 _). lia.
Defined.

(** ** Ranking *)

Lemma StronglySorted_impl_Forall {A : Type} (R R' : A -> A -> Prop)
    (P : A -> Prop) (l : list A) :
  (forall x y, P x -> P y -> R x y -> R' x y) ->
  Forall P l -> StronglySorted R l -> StronglySorted R' l.
Proof.
  intros Himp HP Hs. induction Hs as [|x l Hs IH Hx]; [constructor|].
  apply Forall_cons in HP as [Px Pl].
  constructor; [now apply IH|].
  rewrite Forall_forall in *. intros y Hy. apply Himp; auto.
Qed.

Lemma winrate_less_asym x y :
  winrate_less x y = true -> winrate_less y x = false.
Proof. apply ltb_asym. Qed.

Lemma winrate_less_negtrans x y z :
  ordered_key (winrate_key y) = true ->
  winrate_less x y = false -> winrate_less y z = false ->
  winrate_less x z = false.
Proof. intros Hy. apply ltb_negtrans. now apply ordered_key_not_nan. Qed.

Lemma ranked_above_not_less x y :
  ordered_key (winrate_key x) = true ->
  ordered_key (winrate_key y) = true ->
  winrate_less x y = false -> ranked_above x y.
Proof.
  intros Hx Hy Hless. unfold ranked_above.
  rewrite (ge_ordered _ _ Hx Hy).
  rewrite leb_not_ltb by (now apply ordered_key_not_nan).
  unfold winrate_less, key_less in Hless. now rewrite Hless.
Qed.

Lemma same_winrate_tie x z :
  ordered_key (winrate_key x) = true ->
  ordered_key (winrate_key z) = true ->
  same_winrate x z = negb (winrate_less x z) && negb (winrate_less z x).
Proof.
  intros Hx Hz. unfold same_winrate, winrate_less, key_less.
  rewrite (eqv_ordered _ _ Hx Hz).
  apply eqb_equiv; now apply ordered_key_not_nan.
Qed.

(** The results retained are those of the roster accounts whose
    [closed_trades] is at least [min_trades], in roster order.  When the
    sort returns, the list is a permutation of them in descending order of
    the winrate key, and the results that tie with any retained result
    stand in the order they had before the sort.  The sort can fail to
    return only for [min_trades <= 0]. *)
Lemma ranking_sorted_stable :
  forall (up : Upstream) (days min_trades : Z),
    let scores := map (fun a => get_whale_winrate up a days) WHALE_ADDRESSES in
    let retained := retained_winrates WHALE_ADDRESSES up days min_trades in
    (forall wr,
        wr ∈ retained <->
        wr ∈ scores
        /\ Py.ge (get_default wr "closed_trades" (VInt 0)) (VInt min_trades)
           = Some true)
    /\ match get_all_winrates up days min_trades with
       | Some out =>
           Permutation out retained
           /\ StronglySorted ranked_above out
           /\ forall wr,
                wr ∈ retained ->
                List.filter (fun x => same_winrate x wr) out
                = List.filter (fun x => same_winrate x wr) retained
       | None => min_trades <= 0
       end.
Proof.
  intros up days min_trades scores retained. split.
  - intros wr. subst retained scores. unfold retained_winrates.
    rewrite !list_elem_of_In, filter_In. unfold enough_trades.
    destruct (Py.ge _ _) as [[]|]; intuition congruence.
  - unfold get_all_winrates, get_all_winrates_on. fold retained.
    destruct (Py.sort_desc winrate_key retained) as [out|] eqn:Hsort.
    + destruct (sort_desc_Some winrate_key retained out
                  (retained_none_or_ordered _ up days min_trades) Hsort)
        as [[Hlen ->]|Hord].
      * split; [reflexivity|]. split; [|reflexivity].
        destruct retained as [|x [|y l]]; [| |simpl in Hlen; lia];
          repeat constructor.
      * rewrite (sort_desc_ordered winrate_key _ Hord) in Hsort.
        injection Hsort as <-.
        split; [apply sort_by_perm|]. split.
        -- apply StronglySorted_impl_Forall
             with (R := fun x y => winrate_less x y = false)
                  (P := fun wr => ordered_key (winrate_key wr) = true).
           ++ apply ranked_above_not_less.
           ++ now rewrite sort_by_perm.
           ++ apply sort_by_sorted
                with (P := fun wr => ordered_key (winrate_key wr) = true);
                [apply winrate_less_asym | apply winrate_less_negtrans
                | exact Hord].
        -- intros wr Hin.
           assert (Hwr : ordered_key (winrate_key wr) = true).
           { rewrite Forall_forall in Hord. now apply Hord. }
           rewrite (List.filter_ext_in (fun x => same_winrate x wr)
                      (fun x => negb (winrate_less x wr)
                                && negb (winrate_less wr x))).
           2:{ intros x Hx. apply same_winrate_tie; [|exact Hwr].
               rewrite Forall_forall in Hord. apply Hord.
               apply list_elem_of_In.
               eapply Permutation_in; [apply sort_by_perm|exact Hx]. }
           rewrite (List.filter_ext_in (fun x => same_winrate x wr)
                      (fun x => negb (winrate_less x wr)
                                && negb (winrate_less wr x)) retained).
           2:{ intros x Hx. apply same_winrate_tie; [|exact Hwr].
               rewrite Forall_forall in Hord. apply Hord.
               now apply list_elem_of_In. }
           apply sort_by_stable
             with (P := fun wr => ordered_key (winrate_key wr) = true);
             [apply winrate_less_negtrans | exact Hwr].
    + destruct (Z_le_gt_dec min_trades 0) as [Hle|Hgt]; [exact Hle|].
      rewrite (sort_desc_ordered winrate_key retained) in Hsort;
        [discriminate|].
      apply retained_ordered_keys. lia.
Qed.




(** * Further properties *)

(** ** The scan of [get_current_position] *)

Lemma scan_asset_positions_find addr av positions :
  scan_asset_positions addr av positions
  = snapshot_of addr av <$> List.find is_open_btc positions.
Proof.
  induction positions as [|pos rest IH]; [reflexivity|].
  cbn [scan_asset_positions List.find]. fold (is_open_btc pos).
  now destruct (is_open_btc pos).
Qed.

Lemma find_first_split {A : Type} (p : A -> bool) (l : list A) (x : A) :
  List.find p l = Some x ->
  exists before after,
    l = before ++ x :: after
    /\ Forall (fun y => p y = false) before /\ p x = true.
Proof.
  induction l as [|y l IH]; [discriminate|]. cbn [List.find].
  destruct (p y) eqn:Hy.
  - intros [= ->]. exists [], l. repeat split; [constructor|exact Hy].
  - intros Hfind. destruct (IH Hfind) as (before & after & -> & Hb & Hx).
    exists (y :: before), after. repeat split; [now constructor|exact Hx].
Qed.



(** ** What a cycle saves *)

(** X2. The dict handed to [_save_previous_positions] is rebuilt from the
    answers of the cycle alone: it does not depend on the stored state, its
    keys are the roster accounts that have a current snapshot, and each
    stored snapshot is the one [get_current_position] returned for its key,
    carrying that key as its address and a size that is not 0. *)
Theorem saved_positions_full_replace :
  forall (up : Upstream) (prev prev' : gmap string WhalePosition),
    let saved := current_positions (check_position_changes up prev) in
    saved = current_positions (check_position_changes up prev')
    /\ (forall b, is_Some (saved !! b) <->
                  b ∈ WHALE_ADDRESSES /\ is_Some (get_current_position up b))
    /\ (forall b pos, saved !! b = Some pos ->
                      get_current_position up b = Some pos
                      /\ address pos = b
                      /\ (size_btc pos =? 0)%float = false).
Proof.
  intros up prev prev' saved. subst saved. split; [|split].
  - apply map_eq. intros b. now rewrite !check_position_changes_saved.
  - intros b. rewrite check_position_changes_saved.
    destruct (decide (b ∈ WHALE_ADDRESSES)) as [Hin|Hin].
    + rewrite bool_decide_eq_true_2 by done. tauto.
    + rewrite bool_decide_eq_false_2 by done.
      split; [intros [? [=]]|tauto].
  - intros b pos. rewrite check_position_changes_saved.
    destruct (bool_decide (b ∈ WHALE_ADDRESSES)); [|discriminate].
    intros Hpos.
    destruct (get_current_position_Some up b pos Hpos) as (Ha & Hz & _).
    auto.
Qed.

(** ** The order and the number of the events *)

Lemma events_for_addresses_sublist up prev roster :
  map event_address (flat_map (events_for up prev) roster) `sublist_of` roster.
Proof.
  induction roster as [|a roster IH]; [constructor|].
  cbn [flat_map]. rewrite map_app.
  destruct (events_for_cases up prev a) as [->|(e & -> & <-)]; simpl.
  - now apply sublist_cons.
  - now apply sublist_skip.
Qed.

(** X3. The events of a cycle come in roster order, at most one per
    account: their addresses form a sublist of [WHALE_ADDRESSES], so a cycle
    reports at most 36 events. *)
Theorem events_in_roster_order :
  forall (up : Upstream) (prev : gmap string WhalePosition),
    let events := new_positions (check_position_changes up prev) in
    map event_address events `sublist_of` WHALE_ADDRESSES
    /\ (length events <= 36)%nat.
Proof.
  intros up prev events.
  assert (Hsub : map event_address events `sublist_of` WHALE_ADDRESSES).
  { subst events. unfold check_position_changes, check_position_changes_on.
    rewrite sweep_new_positions. cbn [new_positions app].
    apply events_for_addresses_sublist. }
  split; [exact Hsub|].
  apply sublist_length in Hsub. now rewrite length_map in Hsub.
Qed.

(** ** Cycles in sequence *)

Lemma flat_map_nil {A B : Type} (f : A -> list B) (l : list A) :
  (forall x, In x l -> f x = []) -> flat_map f l = [].
Proof.
  induction l as [|x l IH]; intros Hf; [reflexivity|].
  cbn [flat_map]. rewrite Hf by now left.
  apply IH. intros y Hy. apply Hf. now right.
Qed.

(** A size compared with itself never exceeds the 50% threshold. *)
Lemma size_change_of_same (x : float) :
  (50 <? size_change_of x x)%float = false.
Proof.
  unfold size_change_of.
  rewrite FloatAxioms.ltb_spec, mul_spec, div_spec, sub_spec.
  change (Prim2SF 50) with (S754_finite false 7036874417766400 (-47)).
  change (Prim2SF 100) with (S754_finite false 7036874417766400 (-46)).
  unfold SF64mul, SF64div, SF64sub.
  destruct (Prim2SF x) as [[]|[]| |s m e]; try reflexivity.
  cbn [SFsub]. rewrite Z.sub_diag. cbn [binary_normalize SFdiv SFmul].
  now destruct s.
Qed.

Lemma events_for_unchanged up prev a :
  prev !! a = get_current_position up a ->
  events_for up prev a = [].
Proof.
  intros Hprev.
  destruct (get_current_position up a) as [cur|] eqn:Hcur.
  - rewrite (events_for_same_direction up prev a cur cur Hcur Hprev eq_refl).
    now rewrite size_change_of_same, andb_false_r.
  - now apply events_for_closed.
Qed.

Lemma saved_positions_independent up prev prev' :
  current_positions (check_position_changes up prev)
  = current_positions (check_position_changes up prev').
Proof.
  apply map_eq. intros b. now rewrite !check_position_changes_saved.
Qed.

Lemma run_cycle_written up file :
  run_cycle up true file
  = (new_positions (check_position_changes up (_load_previous_positions file)),
     Some (current_positions
             (check_position_changes up (_load_previous_positions file)))).
Proof. reflexivity. Qed.

Lemma check_unchanged_silent up prev :
  (forall a, a ∈ WHALE_ADDRESSES -> prev !! a = get_current_position up a) ->
  new_positions (check_position_changes up prev) = [].
Proof.
  intros Hprev. unfold check_position_changes, check_position_changes_on.
  rewrite sweep_new_positions. cbn [new_positions app].
  apply flat_map_nil. intros a Ha.
  apply events_for_unchanged, Hprev. now apply list_elem_of_In.
Qed.

(** X4. A cycle that finds every account as the previous cycle saved it
    reports nothing: after a cycle whose write succeeded, a second cycle
    against the same answers yields no event and writes the same file. *)
Theorem second_cycle_is_silent :
  forall (up : Upstream) (file : PositionsFile),
    let after := (run_cycle up true file).2 in
    (run_cycle up true after).1 = []
    /\ (run_cycle up true after).2 = after.
Proof.
  intros up file after. subst after.
  rewrite (run_cycle_written up file). cbn [snd].
  set (saved := current_positions
                  (check_position_changes up (_load_previous_positions file))).
  rewrite (run_cycle_written up (Some saved)). cbn [fst snd].
  assert (Hload : _load_previous_positions (Some saved) = saved)
    by reflexivity.
  rewrite Hload. split.
  - apply check_unchanged_silent. intros a Ha. subst saved.
    rewrite check_position_changes_saved.
    now rewrite bool_decide_eq_true_2.
  - apply (f_equal Some).
    exact (saved_positions_independent up saved
             (_load_previous_positions file)).
Qed.

(** X5. A failed fetch looks like a closed position: whatever the file held,
    once a cycle in which the fetch of a roster account failed has written
    the file, the next cycle that sees a position of the account reports it
    as NEW_POSITION, also when the position never changed. *)
Theorem new_position_after_failed_fetch :
  forall (failing up : Upstream) (file : PositionsFile) (a : string)
         (cur : WhalePosition),
    a ∈ WHALE_ADDRESSES ->
    fetch_failed failing a ->
    get_current_position up a = Some cur ->
    events_of_account a
      (run_cycle up true (run_cycle failing true file).2).1
    = [new_position_event up cur].
Proof.
  intros failing up file a cur Hin Hfail Hcur.
  rewrite (run_cycle_written failing file). cbn [snd].
  set (saved := current_positions
                  (check_position_changes failing
                     (_load_previous_positions file))).
  rewrite (run_cycle_written up (Some saved)). cbn [fst].
  assert (Hload : _load_previous_positions (Some saved) = saved)
    by reflexivity.
  rewrite Hload, events_of_account_check by done.
  assert (Hnone : saved !! a = None).
  { subst saved. rewrite check_position_changes_saved.
    rewrite bool_decide_eq_true_2 by done.
    unfold get_current_position. unfold fetch_failed in Hfail.
    destruct (_post (clearinghouseState failing a)) as [data|];
      [now rewrite Hfail|reflexivity]. }
  rewrite (events_for_new up saved a cur Hcur Hnone).
  unfold new_position_event.
  now destruct (get_current_position_Some up a cur Hcur) as (-> & _).
Qed.

(** The first account answered LONG 1 BTC before and after the cycle in
    which its request failed; the cycle after the failure reports it as
    new. *)
Lemma new_position_after_failed_fetch_witness :
  events_of_account (whale 0)
    (run_cycle recovered_upstream true
       (run_cycle failing_upstream true failing_file).2).1
  = [NEW_POSITION (whale 0) "0xb83de012..." LONG 1 97000 5 250000
       VNone (VInt 0) (VInt 0)].
Proof.
  refine (new_position_after_failed_fetch failing_upstream recovered_upstream
            failing_file (whale 0) (sample_position (whale 0) 1) _ _ _).
  - in_roster.
  - by_eval.
  - by_eval.
Defined.

Lemma flat_map_events_first_run up roster :
  flat_map (events_for up ∅) roster
  = map (new_position_event up) (current_snapshots roster up).
Proof.
  induction roster as [|a roster IH]; [reflexivity|].
  cbn [flat_map]. rewrite IH. unfold current_snapshots.
  cbn [omap list_omap].
  destruct (get_current_position up a) as [cur|] eqn:Hcur.
  - rewrite (events_for_new up ∅ a cur Hcur (lookup_empty a)).
    cbn [map app]. f_equal. unfold new_position_event.
    destruct (get_current_position_Some up a cur Hcur) as (Ha & _).
    now rewrite Ha.
  - now rewrite (events_for_closed up ∅ a Hcur).
Qed.

(** X6. With no positions file (first run, or a file that does not decode)
    a cycle reports every open position: one NEW_POSITION per current
    snapshot, in roster order, and nothing else. *)
Theorem first_run_reports_every_position :
  forall (up : Upstream) (writable : bool),
    (run_cycle up writable None).1
    = map (new_position_event up) (current_snapshots WHALE_ADDRESSES up).
Proof.
  intros up writable. unfold run_cycle. cbn [fst].
  unfold check_position_changes, check_position_changes_on.
  rewrite sweep_new_positions. cbn [new_positions app].
  apply flat_map_events_first_run.
Qed.

(** ** What every event carries *)

Lemma abs_not_negative (x : float) : (abs x <? 0)%float = false.
Proof.
  rewrite FloatAxioms.ltb_spec, abs_spec, Prim2SF_zero.
  now destruct (Prim2SF x) as [[]|[]| |[] m e].
Qed.

Lemma winrate_fields_shape up a :
  ((winrate_fields up a).1.1 = VNone
   \/ ordered_key (winrate_fields up a).1.1 = true)
  /\ exists n, (winrate_fields up a).2 = VInt n.
Proof.
  unfold winrate_fields. cbn [fst snd]. unfold Py.get, get_default.
  destruct (get_whale_winrate_shapes up a 30)
    as [[-> ->]|[[-> ->]|(v & n & -> & Hv & ->)]]; simpl; eauto.
Qed.

Lemma events_for_invariant up prev a :
  Forall event_invariant (events_for up prev a).
Proof.
  destruct (winrate_fields_shape up a) as [Hw Ht].
  destruct (get_current_position up a) as [cur|] eqn:Hcur.
  2:{ rewrite (events_for_closed up prev a Hcur). constructor. }
  destruct (prev !! a) as [prv|] eqn:Hprev.
  2:{ rewrite (events_for_new up prev a cur Hcur Hprev).
      constructor; [|constructor]. simpl.
      repeat split; auto using abs_not_negative. }
  destruct (decide (direction cur = direction prv)) as [Hd|Hd].
  - rewrite (events_for_same_direction up prev a cur prv Hcur Hprev Hd).
    destruct (0 <? abs (size_btc prv))%float eqn:Hpos; [|constructor].
    destruct (50 <? _)%float eqn:Hgt; [|constructor].
    constructor; [|constructor]. simpl. repeat split; auto.
  - rewrite (events_for_flip up prev a cur prv Hcur Hprev Hd).
    constructor; [|constructor]. simpl.
    repeat split; auto using abs_not_negative.
Qed.

(** X7. Every event of a cycle is about a roster account and carries the
    10-character short address of it; a DIRECTION_CHANGE has two different
    directions; a SIZE_INCREASE has an old size above 0, a change above 50
    and reports that change rounded to one decimal; reported sizes are
    never negative; the attached winrate is [None] or a number that is not
    NaN, and the attached trade count is an int. *)
Theorem events_are_well_formed :
  forall (up : Upstream) (prev : gmap string WhalePosition),
    Forall (fun e => event_address e ∈ WHALE_ADDRESSES /\ event_invariant e)
      (new_positions (check_position_changes up prev)).
Proof.
  intros up prev. unfold check_position_changes, check_position_changes_on.
  rewrite sweep_new_positions. cbn [new_positions app].
  apply Forall_forall. intros e He.
  apply list_elem_of_In, in_flat_map in He as (a & Ha & He).
  split.
  - destruct (events_for_cases up prev a) as [Hnil|(e' & He' & Haddr)].
    + rewrite Hnil in He. now apply in_nil in He.
    + rewrite He' in He. destruct He as [<-|[]].
      rewrite Haddr. now apply list_elem_of_In.
  - pose proof (events_for_invariant up prev a) as Hinv.
    rewrite Forall_forall in Hinv. now apply Hinv, list_elem_of_In.
Qed.

(** ** The counts of a scored result *)

Lemma win_loss_exclusive (x : float) :
  ((0 <? x) && (x <? 0))%float = false.
Proof.
  destruct (0 <? x)%float eqn:Hw; [|reflexivity].
  now rewrite (ltb_asym _ _ Hw).
Qed.

Lemma win_or_loss (x : float) :
  (x =? 0)%float = false -> sf_nan (Prim2SF x) = false ->
  ((0 <? x) || (x <? 0))%float = true.
Proof.
  rewrite FloatAxioms.eqb_spec, !FloatAxioms.ltb_spec, Prim2SF_zero.
  now destruct (Prim2SF x) as [[]|[]| |[] m e].
Qed.

Lemma count_if_le_length {A : Type} (p : A -> bool) (l : list A) :
  count_if p l <= Z.of_nat (length l).
Proof.
  unfold count_if. pose proof (List.filter_length_le p l). lia.
Qed.

Lemma count_wins_losses (l : list Fill) :
  count_if is_win l + count_if is_loss l <= Z.of_nat (length l)
  /\ (Forall (fun f => (closedPnl f =? 0)%float = false /\ pnl_is_number f) l ->
      count_if is_win l + count_if is_loss l = Z.of_nat (length l)).
Proof.
  unfold count_if. induction l as [|f l [IHle IHeq]]; [split; reflexivity|].
  cbn [List.filter].
  assert (Hex : is_win f && is_loss f = false)
    by apply win_loss_exclusive.
  split.
  - destruct (is_win f), (is_loss f); try discriminate; cbn [length]; lia.
  - intros Hall. apply Forall_cons in Hall as [[Hz Hn] Hall].
    specialize (IHeq Hall).
    assert (Hor : is_win f || is_loss f = true) by now apply win_or_loss.
    destruct (is_win f), (is_loss f); try discriminate; cbn [length]; lia.
Qed.

Lemma closed_trades_of_nonzero (l : list Fill) :
  Forall (fun f => (closedPnl f =? 0)%float = false) (closed_trades_of l).
Proof.
  apply Forall_forall. intros f Hin%list_elem_of_In.
  apply filter_In in Hin as [_ Hf]. now apply negb_true_iff in Hf.
Qed.

(** The count entries of a scored result, read without evaluating them. *)
Lemma get_whale_winrate_scored_counts up a days fills :
  _post (userFillsByTime up a days) = Some fills ->
  closed_trades_of (btc_fills_of fills) <> [] ->
  let closed_trades := closed_trades_of (btc_fills_of fills) in
  let wr := get_whale_winrate up a days in
  wr !! "wins" = Some (VInt (count_if is_win closed_trades))
  /\ wr !! "losses" = Some (VInt (count_if is_loss closed_trades))
  /\ wr !! "total_btc_fills"
     = Some (VInt (Z.of_nat (length (btc_fills_of fills))))
  /\ wr !! "has_btc_trades" = Some (VBool true)
  /\ wr !! "address" = Some (VStr a)
  /\ wr !! "address_short" = Some (VStr (address_short_of a))
  /\ wr !! "period_days" = Some (VInt days)
  /\ wr !! "total_pnl"
     = Some (VFloat (Py.round (Py.sum (map closedPnl closed_trades)) 2)).
Proof.
  intros Hpost Hne closed_trades wr. subst wr. unfold get_whale_winrate.
  rewrite Hpost.
  destruct fills as [|f fills]; [now elim Hne|].
  cbv beta iota. fold closed_trades.
  destruct closed_trades as [|c ct] eqn:Hct; [now elim Hne|].
  repeat split.
Qed.

(** X8. In a scored result the counts are consistent:
    [1 <= closed_trades <= total_btc_fills], wins and losses are not
    negative and [wins + losses <= closed_trades], with equality as soon as
    no closed BTC fill has a NaN [closedPnl]; a NaN one is counted as a
    closed trade but neither as a win nor as a loss. *)
Theorem scored_counts_are_consistent :
  forall (up : Upstream) (a : string) (days : Z) (fills : list Fill),
    _post (userFillsByTime up a days) = Some fills ->
    closed_trades_of (btc_fills_of fills) <> [] ->
    let wr := get_whale_winrate up a days in
    exists wins losses closed total,
      wr !! "wins" = Some (VInt wins)
      /\ wr !! "losses" = Some (VInt losses)
      /\ wr !! "closed_trades" = Some (VInt closed)
      /\ wr !! "total_btc_fills" = Some (VInt total)
      /\ 0 <= wins /\ 0 <= losses
      /\ wins + losses <= closed
      /\ 1 <= closed <= total
      /\ total <= Z.of_nat (length fills)
      /\ (Forall pnl_is_number (btc_fills_of fills) ->
          wins + losses = closed).
Proof.
  intros up a days fills Hpost Hne wr.
  destruct (get_whale_winrate_scored up a days fills Hpost Hne)
    as (Hc & _ & _).
  destruct (get_whale_winrate_scored_counts up a days fills Hpost Hne)
    as (Hw & Hl & Ht & _).
  set (closed_trades := closed_trades_of (btc_fills_of fills)) in *.
  destruct (count_wins_losses closed_trades) as [Hle Heq].
  do 4 eexists. repeat (split; [eassumption|]).
  split; [apply count_if_nonneg|]. split; [apply count_if_nonneg|].
  split; [exact Hle|]. split.
  - split.
    + destruct closed_trades; [now elim Hne|]. cbn [length]. lia.
    + subst closed_trades. unfold closed_trades_of.
      pose proof (List.filter_length_le
                    (fun f => negb (closedPnl f =? 0)%float)
                    (btc_fills_of fills)). lia.
  - split.
    + unfold btc_fills_of.
      pose proof (List.filter_length_le
                    (fun f => String.eqb (fill_coin f) "BTC") fills). lia.
    + intros Hnum. apply Heq.
      pose proof (closed_trades_of_nonzero (btc_fills_of fills)) as Hnz.
      fold closed_trades in Hnz.
      rewrite Forall_forall in *. intros f Hf. split; [now apply Hnz|].
      apply Hnum. apply list_elem_of_In. apply list_elem_of_In in Hf.
      subst closed_trades. unfold closed_trades_of in Hf.
      now apply filter_In in Hf as [Hf _].
Qed.

(** Seven fills, four of them in BTC, three of those closed: two wins and
    one loss. *)
Lemma scored_counts_are_consistent_witness :
  exists wins losses closed total,
    get_whale_winrate busy_upstream (whale 6) 30 !! "wins"
    = Some (VInt wins)
    /\ get_whale_winrate busy_upstream (whale 6) 30 !! "losses"
       = Some (VInt losses)
    /\ get_whale_winrate busy_upstream (whale 6) 30 !! "closed_trades"
       = Some (VInt closed)
    /\ get_whale_winrate busy_upstream (whale 6) 30 !! "total_btc_fills"
       = Some (VInt total)
    /\ 0 <= wins /\ 0 <= losses
    /\ wins + losses <= closed
    /\ 1 <= closed <= total
    /\ total <= Z.of_nat (length busy_fills)
    /\ (Forall pnl_is_number (btc_fills_of busy_fills) ->
        wins + losses = closed).
Proof.
  refine (scored_counts_are_consistent busy_upstream (whale 6) 30 busy_fills
            _ _); by_eval.
Defined.

(** Zero divided by a float above 0 is zero. *)
Lemma zero_div_positive (x : float) :
  (0 <? x)%float = true -> (0 / x)%float = 0%float.
Proof.
  intros Hpos. apply Prim2SF_inj. revert Hpos.
  rewrite FloatAxioms.ltb_spec, div_spec, Prim2SF_zero. unfold SF64div.
  now destruct (Prim2SF x) as [[]|[]| |[] m e].
Qed.

Lemma count_if_zero_filter {A : Type} (p : A -> bool) (l : list A) :
  count_if p l = 0 -> List.filter p l = [].
Proof.
  unfold count_if. destruct (List.filter p l); [reflexivity|].
  cbn [length]. lia.
Qed.

(** X9. A scored account without a winning close has a winrate equal to 0:
    the float 0.0 when some close counts as a loss, the int 0 when none does
    (every closed [closedPnl] is NaN); and when its gross loss is above 0
    its profit factor is exactly 0.0. *)
Theorem no_win_scores_zero :
  forall (up : Upstream) (a : string) (days : Z) (fills : list Fill),
    _post (userFillsByTime up a days) = Some fills ->
    closed_trades_of (btc_fills_of fills) <> [] ->
    let closed_trades := closed_trades_of (btc_fills_of fills) in
    let wr := get_whale_winrate up a days in
    count_if is_win closed_trades = 0 ->
    wr !! "winrate"
    = Some (if 0 <? count_if is_loss closed_trades
            then VFloat 0 else VInt 0)
    /\ ((0 <? gross_loss_of closed_trades)%float = true ->
        wr !! "profit_factor" = Some (VFloat 0)).
Proof.
  intros up a days fills Hpost Hne closed_trades wr Hwins.
  destruct (get_whale_winrate_scored up a days fills Hpost Hne)
    as (_ & Hw & Hpf).
  fold closed_trades in Hw, Hpf. fold wr in Hw, Hpf. split.
  - rewrite Hw, Hwins. unfold winrate_of.
    pose proof (count_if_nonneg is_loss closed_trades) as Hl.
    destruct (count_if is_loss closed_trades) as [|n|n];
      [reflexivity|reflexivity|lia].
  - intros Hloss. rewrite Hpf. unfold profit_factor_of.
    rewrite Hloss. unfold gross_profit_of.
    rewrite (count_if_zero_filter _ _ Hwins). cbn [map].
    change (Py.sum []) with 0%float.
    now rewrite (zero_div_positive _ Hloss).
Qed.

(** Two losses and no win: the winrate is the float, and the profit factor
    is 0.0. *)
Lemma no_win_scores_zero_witness :
  get_whale_winrate loser_upstream (whale 6) 30 !! "winrate"
  = Some (VFloat 0)
  /\ ((0 <? gross_loss_of (closed_trades_of (btc_fills_of loser_fills)))%float
      = true ->
      get_whale_winrate loser_upstream (whale 6) 30 !! "profit_factor"
      = Some (VFloat 0)).
Proof.
  refine (no_win_scores_zero loser_upstream (whale 6) 30 loser_fills _ _ _);
    by_eval.
Defined.

(** ** When the ranking raises *)

Section SortFails.
Context {A : Type} (key : A -> PyVal).

Lemma none_or_ordered_cases (l : list A) :
  Forall (key_none_or_ordered key) l ->
  Forall (key_ordered key) l \/ Exists (fun x => key x = VNone) l.
Proof.
  induction 1 as [|x l [Hx|Hx] Hl [IH|IH]].
  - left. constructor.
  - right. now constructor.
  - right. now constructor.
  - left. now constructor.
  - right. now constructor.
Qed.

Lemma sort_desc_None_iff (l : list A) :
  Forall (key_none_or_ordered key) l ->
  Py.sort_desc key l = None
  <-> (2 <= length l)%nat /\ Exists (fun x => key x = VNone) l.
Proof.
  intros Hl. split.
  - intros Hnone. split.
    + destruct l as [|x [|y l]]; [discriminate|discriminate|simpl; lia].
    + destruct (none_or_ordered_cases l Hl) as [Hord|Hex]; [|exact Hex].
      rewrite (sort_desc_ordered key l Hord) in Hnone. discriminate.
  - intros [Hlen Hex].
    destruct (Py.sort_desc key l) as [out|] eqn:Hsort; [|reflexivity].
    destruct (sort_desc_Some key l out Hl Hsort) as [[Hle _]|Hord]; [lia|].
    apply Exists_exists in Hex as (x & Hin & Hx).
    rewrite Forall_forall in Hord. specialize (Hord x Hin).
    unfold key_ordered in Hord. rewrite Hx in Hord. discriminate.
Qed.
End SortFails.

Lemma winrate_key_None wr :
  winrate_key wr = VNone <-> wr !! "winrate" = Some VNone.
Proof.
  unfold winrate_key, get_default.
  destruct (wr !! "winrate") as [v|]; simpl; [|split; discriminate].
  split; congruence.
Qed.


(** ** A higher threshold ranks fewer accounts *)

Lemma filter_sublist_impl {A : Type} (p q : A -> bool) (l : list A) :
  (forall x, In x l -> p x = true -> q x = true) ->
  List.filter p l `sublist_of` List.filter q l.
Proof.
  induction l as [|x l IH]; intros Himp; [constructor|].
  assert (IH' : List.filter p l `sublist_of` List.filter q l)
    by (apply IH; intros y Hy; apply Himp; now right).
  cbn [List.filter]. destruct (p x) eqn:Hp.
  - rewrite (Himp x (or_introl eq_refl) Hp). now apply sublist_skip.
  - destruct (q x); [now apply sublist_cons|exact IH'].
Qed.

Lemma enough_trades_mono up a days m1 m2 :
  m1 <= m2 ->
  enough_trades m2 (get_whale_winrate up a days) = true ->
  enough_trades m1 (get_whale_winrate up a days) = true.
Proof.
  intros Hle. unfold enough_trades, get_default.
  destruct (get_whale_winrate_shapes up a days)
    as [[_ ->]|[[_ ->]|(v & n & _ & _ & ->)]]; simpl;
    intros H%Z.leb_le; apply Z.leb_le; lia.
Qed.

(** X11. Raising [min_trades] only removes results: the results retained
    for a threshold are a sublist, in the same order, of those retained for
    any lower threshold, and there are never more than 36. *)
Theorem retained_winrates_monotone :
  forall (up : Upstream) (days m1 m2 : Z),
    m1 <= m2 ->
    retained_winrates WHALE_ADDRESSES up days m2
    `sublist_of` retained_winrates WHALE_ADDRESSES up days m1
    /\ (length (retained_winrates WHALE_ADDRESSES up days m1) <= 36)%nat.
Proof.
  intros up days m1 m2 Hle. split.
  - unfold retained_winrates. apply filter_sublist_impl.
    intros wr (a & <- & _)%in_map_iff. now apply enough_trades_mono.
  - unfold retained_winrates.
    pose proof (List.filter_length_le (enough_trades m1)
                  (map (fun addr => get_whale_winrate up addr days)
                     WHALE_ADDRESSES)) as Hlen.
    rewrite length_map in Hlen. exact Hlen.
Qed.

(** With the sample ranking, the threshold 3 keeps two of the four results
    the threshold 1 keeps. *)
Lemma retained_winrates_monotone_witness :
  retained_winrates WHALE_ADDRESSES ranking_upstream 30 3
  `sublist_of` retained_winrates WHALE_ADDRESSES ranking_upstream 30 1
  /\ (length (retained_winrates WHALE_ADDRESSES ranking_upstream 30 1)
      <= 36)%nat.
Proof.
  refine (retained_winrates_monotone ranking_upstream 30 1 3 _). lia.
Defined.

(** ** The sentiment summary *)

Lemma current_snapshots_length roster up :
  (length (current_snapshots roster up) <= length roster)%nat.
Proof.
  induction roster as [|a roster IH]; [reflexivity|].
  unfold current_snapshots in *. cbn [omap list_omap].
  destruct (get_current_position up a); cbn [length]; lia.
Qed.

Lemma sweep_saved_size up prev roster st :
  NoDup roster ->
  (forall a, a ∈ roster -> current_positions st !! a = None) ->
  size (current_positions (fold_left (check_address up prev) roster st))
  = (size (current_positions st) + length (current_snapshots roster up))%nat.
Proof.
  intros Hnd. revert st. induction Hnd as [|a roster Ha Hnd IH]; intros st Hst.
  - simpl. lia.
  - cbn [fold_left]. rewrite IH.
    + rewrite check_address_current_positions. unfold current_snapshots.
      cbn [omap list_omap].
      destruct (get_current_position up a) as [cur|]; [|reflexivity].
      rewrite map_size_insert_None
        by (apply Hst; rewrite elem_of_cons; tauto).
      cbn [length]. lia.
    + intros b Hb. rewrite check_address_current_positions.
      assert (Hne : a <> b) by (intros ->; contradiction).
      destruct (get_current_position up a) as [cur|].
      * rewrite lookup_insert_ne by done.
        apply Hst. rewrite elem_of_cons; tauto.
      * apply Hst. rewrite elem_of_cons; tauto.
Qed.

(** X12. The [whale_count] of the sentiment summary is the number of roster
    accounts with a current snapshot, between 0 and 36, and it is the
    number of entries a detection cycle against the same answers saves. *)
Theorem whale_count_is_saved_size :
  forall (up : Upstream) (prev : gmap string WhalePosition),
    whale_count (get_current_sentiment up)
    = Z.of_nat (length (current_snapshots WHALE_ADDRESSES up))
    /\ whale_count (get_current_sentiment up)
       = Z.of_nat (size (current_positions (check_position_changes up prev)))
    /\ 0 <= whale_count (get_current_sentiment up) <= 36.
Proof.
  intros up prev.
  assert (Hc : whale_count (get_current_sentiment up)
               = Z.of_nat (length (current_snapshots WHALE_ADDRESSES up))).
  { unfold get_current_sentiment, get_current_sentiment_on, sentiment_totals.
    rewrite sentiment_totals_from. cbn [count whale_count]. lia. }
  assert (Hsize : size (current_positions (check_position_changes up prev))
                  = length (current_snapshots WHALE_ADDRESSES up)).
  { unfold check_position_changes, check_position_changes_on.
    rewrite sweep_saved_size.
    - cbn [current_positions]. now rewrite map_size_empty.
    - apply WHALE_ADDRESSES_NoDup.
    - intros a _. apply lookup_empty. }
  split; [exact Hc|]. split.
  - now rewrite Hc, Hsize.
  - rewrite Hc.
    pose proof (current_snapshots_length WHALE_ADDRESSES up) as Hlen.
    assert (H36 : length WHALE_ADDRESSES = 36%nat) by reflexivity.
    rewrite H36 in Hlen. lia.
Qed.

Lemma zero_add_positive (x : float) :
  (0 <? x)%float = true -> (0 + x)%float = x.
Proof.
  intros Hpos. apply Prim2SF_inj. revert Hpos.
  rewrite FloatAxioms.ltb_spec, add_spec, Prim2SF_zero. unfold SF64add.
  now destruct (Prim2SF x) as [[]|[]| |[] m e].
Qed.

Lemma filter_all_false {A : Type} (p : A -> bool) (l : list A) :
  Forall (fun x => p x = false) l ->
  List.filter p l = [] /\ List.filter (fun x => negb (p x)) l = l.
Proof.
  induction 1 as [|x l Hx Hl [IH1 IH2]]; [split; reflexivity|].
  cbn [List.filter]. rewrite Hx, IH1, IH2. split; reflexivity.
Qed.

(** X13. When no tracked account is long and the short total is above 0,
    the long ratio is exactly 0.0 and the label is STRONG_SHORT. *)
Theorem nobody_long_is_strong_short :
  forall up : Upstream,
    let snapshots := current_snapshots WHALE_ADDRESSES up in
    Forall (fun pos => is_long pos = false) snapshots ->
    (0 <? Py.running_total (map abs_size snapshots))%float = true ->
    long_ratio_pct (get_current_sentiment up) = 0%float
    /\ sentiment (get_current_sentiment up) = STRONG_SHORT
    /\ total_long_btc (get_current_sentiment up) = 0%float.
Proof.
  intros up snapshots Hshort Hpos.
  unfold get_current_sentiment, get_current_sentiment_on, sentiment_totals.
  rewrite sentiment_totals_from. fold snapshots.
  cbn [total_long total_short long_ratio_pct sentiment total_long_btc].
  clearbody snapshots.
  destruct (filter_all_false is_long snapshots Hshort) as [Hl Hs].
  rewrite Hl, Hs. cbn [map fold_left].
  rewrite !fold_left_add_running_total.
  set (ts := Py.running_total (map abs_size snapshots)) in *.
  assert (Hratio : long_ratio_of 0 ts = 0%float).
  { unfold long_ratio_of. rewrite (zero_add_positive ts Hpos), Hpos.
    now rewrite (zero_div_positive ts Hpos). }
  rewrite Hratio. repeat split.
Qed.

(** SHORT 6 BTC and SHORT 1.5 BTC. *)
Lemma nobody_long_is_strong_short_witness :
  long_ratio_pct (get_current_sentiment bearish_upstream) = 0%float
  /\ sentiment (get_current_sentiment bearish_upstream) = STRONG_SHORT
  /\ total_long_btc (get_current_sentiment bearish_upstream) = 0%float.
Proof.
  refine (nobody_long_is_strong_short bearish_upstream _ _).
  - apply (bool_decide_eq_true_1 _). vm_compute. reflexivity.
  - by_eval.
Defined.

(** ** Alerts are always formatted *)

(** The reads of a winrate dict, in full: either there is no winrate, or the
    dict is a scored one. *)
Lemma get_whale_winrate_reads up a days :
  let wr := get_whale_winrate up a days in
  (Py.get wr "winrate" = VNone
   /\ get_default wr "closed_trades" (VInt 0) = VInt 0)
  \/ (exists w x n,
        wr !! "winrate" = Some w /\ is_number w = true
        /\ wr !! "total_pnl" = Some (VFloat x)
        /\ wr !! "closed_trades" = Some (VInt n) /\ 1 <= n
        /\ wr !! "address_short" = Some (VStr (address_short_of a))).
Proof.
  intros wr. subst wr. unfold get_whale_winrate.
  destruct (_post (userFillsByTime up a days)) as [[|f fills]|];
    [left; split; reflexivity| |left; split; reflexivity].
  cbv beta iota.
  set (closed_trades := closed_trades_of (btc_fills_of (f :: fills))).
  destruct closed_trades as [|c ct] eqn:Hct; [left; split; reflexivity|].
  right.
  exists (winrate_of (count_if is_win (c :: ct)) (count_if is_loss (c :: ct))),
    (Py.round (Py.sum (map closedPnl (c :: ct))) 2),
    (Z.of_nat (length (c :: ct))).
  split; [reflexivity|]. split.
  { unfold winrate_of. now destruct (0 <? _). }
  split; [reflexivity|]. split; [reflexivity|].
  split; [cbn [length]; lia|reflexivity].
Qed.

Lemma winrate_fields_printable up a :
  printable (winrate_fields up a).1.1 (winrate_fields up a).1.2
    (winrate_fields up a).2.
Proof.
  unfold winrate_fields, printable. cbn [fst snd].
  destruct (get_whale_winrate_reads up a 30)
    as [[Hw _]|(w & x & n & Hw & Hnum & Hp & Ht & _)].
  - now left.
  - right. unfold Py.get, get_default. rewrite Hw, Hp, Ht. cbn [default].
    split; [exact Hnum|]. split; [reflexivity|]. now exists n.
Qed.

Lemma lt_is_number a b :
  is_number a = true -> is_number b = true -> is_Some (Py.lt a b).
Proof. destruct a, b; try discriminate; intros _ _; eexists; reflexivity. Qed.

Lemma format_f_is_number v width precision comma :
  is_number v = true -> is_Some (format_f v width precision comma).
Proof. destruct v; try discriminate; intros _; eexists; reflexivity. Qed.

Lemma winrate_line_printable winrate pnl_30d trades_30d :
  printable winrate pnl_30d trades_30d ->
  is_Some (winrate_line winrate pnl_30d trades_30d).
Proof.
  intros [->|(Hw & Hp & n & ->)]; [eexists; reflexivity|].
  unfold winrate_line.
  destruct (lt_is_number (VInt 0) pnl_30d eq_refl Hp) as [pos ->].
  destruct (lt_is_number pnl_30d (VInt 0) Hp eq_refl) as [neg Hneg].
  destruct (format_f_is_number winrate 0 0 false Hw) as [wt ->].
  destruct (format_f_is_number pnl_30d 0 0 true Hp) as [pt ->].
  destruct winrate; try discriminate;
    destruct pos; cbn; rewrite ?Hneg; cbn; eexists; reflexivity.
Qed.

Lemma format_position_alert_formattable e :
  formattable e -> is_Some (format_position_alert e).
Proof.
  destruct e; cbn [formattable]; intros H;
    destruct (winrate_line_printable _ _ _ H) as [line Hline];
    unfold format_position_alert; rewrite Hline; eexists; reflexivity.
Qed.

Lemma events_for_formattable up prev a :
  Forall formattable (events_for up prev a).
Proof.
  pose proof (winrate_fields_printable up a) as Hp.
  destruct (get_current_position up a) as [cur|] eqn:Hcur.
  2:{ rewrite (events_for_closed up prev a Hcur). constructor. }
  destruct (prev !! a) as [prv|] eqn:Hprev.
  2:{ rewrite (events_for_new up prev a cur Hcur Hprev).
      constructor; [exact Hp|constructor]. }
  destruct (decide (direction cur = direction prv)) as [Hd|Hd].
  - rewrite (events_for_same_direction up prev a cur prv Hcur Hprev Hd).
    destruct (0 <? abs (size_btc prv))%float; [|constructor].
    destruct (50 <? _)%float; [|constructor].
    constructor; [exact Hp|constructor].
  - rewrite (events_for_flip up prev a cur prv Hcur Hprev Hd).
    constructor; [exact Hp|constructor].
Qed.

Lemma cycle_events_formattable up prev :
  Forall formattable (new_positions (check_position_changes up prev)).
Proof.
  unfold check_position_changes, check_position_changes_on.
  rewrite sweep_new_positions. cbn [new_positions app].
  generalize WHALE_ADDRESSES. intros roster.
  induction roster as [|a roster IH]; [constructor|].
  cbn [flat_map]. apply Forall_app. split; [apply events_for_formattable|exact IH].
Qed.

Lemma send_telegram_notification_grows tg posted message :
  exists rest,
    (send_telegram_notification tg posted message).2 = posted ++ rest
    /\ (length rest <= 1)%nat.
Proof.
  unfold send_telegram_notification.
  destruct (negb _ || negb _).
  - exists []. cbn. split; [now rewrite app_nil_r|lia].
  - destruct (sendMessage tg (length posted) message);
      exists [message]; cbn; split; (reflexivity || lia).
Qed.

Lemma alert_loop_formattable tg changes :
  Forall formattable changes ->
  forall alerts_sent posted,
    exists n rest,
      alert_loop tg changes alerts_sent posted = Some (n, posted ++ rest)
      /\ alerts_sent <= n <= alerts_sent + Z.of_nat (length changes)
      /\ (length rest <= length changes)%nat.
Proof.
  induction 1 as [|change changes Hc Hcs IH]; intros alerts_sent posted.
  - exists alerts_sent, []. cbn. rewrite app_nil_r. repeat split; lia.
  - cbn [alert_loop].
    destruct (format_position_alert_formattable change Hc) as [message ->].
    cbn [mbind option_bind].
    destruct (send_telegram_notification_grows tg posted message)
      as (one & Hone & Hlen).
    destruct (send_telegram_notification tg posted message)
      as [sent posted'] eqn:Hsend.
    cbn [snd] in Hone. subst posted'.
    destruct (IH (if sent then alerts_sent + 1 else alerts_sent)
                (posted ++ one)) as (n & rest & -> & Hn & Hrest).
    exists n, (one ++ rest). rewrite app_assoc. split; [reflexivity|].
    rewrite length_app. cbn [length].
    destruct sent; split; lia.
Qed.

(** On typed answers [monitor_and_alert] returns: no event of a cycle
    makes [format_position_alert] raise. *)
Lemma monitor_and_alert_typed_returns :
  forall (up : Upstream) (tg : Telegram) (writable : bool)
         (file : PositionsFile),
    exists (result : MonitorResult) (posted : list string),
      (monitor_and_alert up tg writable file).2 = Some (result, posted)
      /\ changes result = (run_cycle up writable file).1
      /\ changes_detected result = Z.of_nat (length (changes result))
      /\ 0 <= alerts_sent result <= changes_detected result
      /\ (length posted <= length (changes result))%nat.
Proof.
  intros up tg writable file. unfold monitor_and_alert, run_cycle.
  cbn [fst snd].
  set (events := new_positions
                   (check_position_changes up (_load_previous_positions file))).
  assert (Hev : Forall formattable events)
    by apply cycle_events_formattable.
  clearbody events.
  destruct (alert_loop_formattable tg events Hev 0 [])
    as (n & rest & Hloop & Hn & Hrest).
  rewrite Hloop. cbn.
  eexists _, _. split; [reflexivity|]. cbn.
  repeat split; lia.
Qed.

(** ** Delivery *)

Lemma alert_loop_unconfigured tg changes :
  configured tg = false ->
  Forall formattable changes ->
  forall alerts_sent posted,
    alert_loop tg changes alerts_sent posted = Some (alerts_sent, posted).
Proof.
  intros Hoff. induction 1 as [|change changes Hc Hcs IH];
    intros alerts_sent posted; [reflexivity|].
  cbn [alert_loop].
  destruct (format_position_alert_formattable change Hc) as [message ->].
  cbn [mbind option_bind]. unfold send_telegram_notification.
  unfold configured in Hoff. rewrite <- negb_andb, Hoff. cbn [negb].
  apply IH.
Qed.

(** X15. Without a token or a chat id (unset or empty) a run detects and
    saves as usual but posts nothing: the result counts the events of the
    cycle and 0 alerts, and no request reaches Telegram. *)
Theorem unconfigured_telegram_posts_nothing :
  forall (up : Upstream) (tg : Telegram) (writable : bool)
         (file : PositionsFile),
    configured tg = false ->
    monitor_and_alert up tg writable file
    = ((run_cycle up writable file).2,
       Some ({| changes_detected :=
                  Z.of_nat (length (run_cycle up writable file).1);
                alerts_sent := 0;
                changes := (run_cycle up writable file).1 |}, [])).
Proof.
  intros up tg writable file Hoff.
  unfold monitor_and_alert, run_cycle. cbn [fst snd].
  set (events := new_positions
                   (check_position_changes up (_load_previous_positions file))).
  assert (Hev : Forall formattable events)
    by apply cycle_events_formattable.
  clearbody events.
  now rewrite (alert_loop_unconfigured tg events Hoff Hev 0 []).
Qed.

(** A chat id but an empty token, on a first run. *)
Lemma unconfigured_telegram_posts_nothing_witness :
  monitor_and_alert fresh_upstream half_configured true None
  = ((run_cycle fresh_upstream true None).2,
     Some ({| changes_detected :=
                Z.of_nat (length (run_cycle fresh_upstream true None).1);
              alerts_sent := 0;
              changes := (run_cycle fresh_upstream true None).1 |}, [])).
Proof.
  exact (unconfigured_telegram_posts_nothing fresh_upstream half_configured
           true None eq_refl).
Defined.

Lemma alert_loop_configured tg changes :
  configured tg = true ->
  Forall formattable changes ->
  forall alerts_sent posted,
    exists messages,
      alert_loop tg changes alerts_sent posted
      = Some (alerts_sent + count_delivered tg (length posted) messages,
              posted ++ messages)
      /\ Forall2 alert_of changes messages.
Proof.
  intros Hon. induction 1 as [|change changes Hc Hcs IH];
    intros alerts_sent posted.
  - exists []. cbn. rewrite app_nil_r, Z.add_0_r. split; [reflexivity|constructor].
  - cbn [alert_loop].
    destruct (format_position_alert_formattable change Hc)
      as [message Hmessage].
    rewrite Hmessage. cbn [mbind option_bind].
    unfold send_telegram_notification.
    unfold configured in Hon. rewrite <- negb_andb, Hon. cbn [negb].
    destruct (IH (if delivered tg (length posted) message
                  then alerts_sent + 1 else alerts_sent)
                (posted ++ [message])) as (messages & Hloop & Hall).
    exists (message :: messages). split.
    + cbn [count_delivered]. unfold delivered in *.
      rewrite length_app, Nat.add_1_r in Hloop. cbn [length] in Hloop.
      rewrite <- app_assoc in Hloop. cbn [app] in Hloop.
      destruct (sendMessage tg (length posted) message) as [|code];
        [|destruct (code =? 200)]; cbn beta iota in *; rewrite Hloop;
        apply (f_equal (fun n => Some (n, posted ++ message :: messages)));
        lia.
    + constructor; [exact Hmessage|exact Hall].
Qed.

(** X16. With a token and a chat id every event of the cycle is posted:
    the texts sent to Telegram are the formatted events, one per event and
    in the order of the events, also after a request that raised or was
    refused; [alerts_sent] counts the requests answered with status 200. *)
Theorem every_alert_is_attempted :
  forall (up : Upstream) (tg : Telegram) (writable : bool)
         (file : PositionsFile),
    configured tg = true ->
    exists (result : MonitorResult) (posted : list string),
      (monitor_and_alert up tg writable file).2 = Some (result, posted)
      /\ Forall2 alert_of (run_cycle up writable file).1 posted
      /\ alerts_sent result = count_delivered tg 0 posted.
Proof.
  intros up tg writable file Hon.
  unfold monitor_and_alert, run_cycle. cbn [fst snd].
  set (events := new_positions
                   (check_position_changes up (_load_previous_positions file))).
  assert (Hev : Forall formattable events)
    by apply cycle_events_formattable.
  clearbody events.
  destruct (alert_loop_configured tg events Hon Hev 0 [])
    as (messages & Hloop & Hall).
  rewrite Hloop. cbn.
  eexists _, _. split; [reflexivity|]. now split.
Qed.

(** The first run against an account that holds LONG 3 BTC, with a bot
    whose first request times out. *)
Lemma every_alert_is_attempted_witness :
  exists (result : MonitorResult) (posted : list string),
    (monitor_and_alert fresh_upstream flaky_telegram true None).2
    = Some (result, posted)
    /\ Forall2 alert_of (run_cycle fresh_upstream true None).1 posted
    /\ alerts_sent result = count_delivered flaky_telegram 0 posted.
Proof.
  exact (every_alert_is_attempted fresh_upstream flaky_telegram true None
           eq_refl).
Defined.

Lemma run_cycle_again up file :
  (run_cycle up true (run_cycle up true file).2).1 = [].
Proof.
  rewrite (run_cycle_written up file). cbn [snd].
  set (saved := current_positions
                  (check_position_changes up (_load_previous_positions file))).
  rewrite (run_cycle_written up (Some saved)). cbn [fst].
  assert (Hload : _load_previous_positions (Some saved) = saved)
    by reflexivity.
  rewrite Hload.
  apply check_unchanged_silent. intros a Ha. subst saved.
  rewrite check_position_changes_saved.
  now rewrite bool_decide_eq_true_2.
Qed.

Lemma monitor_and_alert_file up tg writable file :
  (monitor_and_alert up tg writable file).1 = (run_cycle up writable file).2.
Proof. reflexivity. Qed.

Lemma monitor_and_alert_with_loaded up tg writable file :
  monitor_and_alert up tg writable file
  = monitor_and_alert_with up tg writable (_load_previous_positions file)
      file.
Proof. reflexivity. Qed.

Lemma detected_monitor_and_alert_with up tg writable prev file :
  detected (monitor_and_alert_with up tg writable prev file)
  = Some (new_positions (check_position_changes up prev)).
Proof.
  unfold detected, monitor_and_alert_with. cbn [snd].
  set (events := new_positions (check_position_changes up prev)).
  assert (Hev : Forall formattable events)
    by apply cycle_events_formattable.
  clearbody events.
  destruct (alert_loop_formattable tg events Hev 0 [])
    as (n & rest & Hloop & _).
  rewrite Hloop. reflexivity.
Qed.


(** ** The last line of an alert *)

Lemma ends_with_append suffix prefix s :
  ends_with suffix s -> ends_with suffix (prefix +:+ s).
Proof.
  intros [body ->]. exists (prefix +:+ body).
  induction prefix as [|c prefix IH]; [reflexivity|].
  change (String c (prefix +:+ body +:+ suffix)
          = String c ((prefix +:+ body) +:+ suffix)).
  now f_equal.
Qed.

Lemma ends_with_refl_nl suffix : ends_with suffix suffix.
Proof. now exists EmptyString. Qed.

Lemma winrate_fields_unscored up a :
  scored_fills up a 30 = [] ->
  (winrate_fields up a).1.1 = VNone.
Proof.
  unfold scored_fills, winrate_fields, get_whale_winrate. cbn [fst snd].
  destruct (_post (userFillsByTime up a 30)) as [[|f fills]|];
    cbv beta iota delta [default id]; try reflexivity.
  intros ->. reflexivity.
Qed.

Lemma format_position_alert_na e :
  match e with
  | NEW_POSITION _ _ _ _ _ _ _ winrate _ _
  | DIRECTION_CHANGE _ _ _ _ _ _ _ winrate _ _
  | SIZE_INCREASE _ _ _ _ _ _ _ winrate _ _ => winrate = VNone
  end ->
  exists message,
    format_position_alert e = Some message
    /\ ends_with (nl +:+ "🏆 Winrate: N/A (pas de trades BTC)") message.
Proof.
  destruct e; intros ->; cbn [format_position_alert winrate_line mbind
                               option_bind];
    eexists; (split; [reflexivity|]);
    repeat (first [apply ends_with_refl_nl | apply ends_with_append]).
Qed.

(** X18. When the fills request of a roster account failed, or brought no
    BTC fill with a nonzero [closedPnl], every alert about the account ends
    with the line "Winrate: N/A (pas de trades BTC)", whichever branch of
    the chain raised it. *)
Theorem unscored_account_alert_says_na :
  forall (up : Upstream) (prev : gmap string WhalePosition) (a : string),
    a ∈ WHALE_ADDRESSES ->
    scored_fills up a 30 = [] ->
    Forall (fun e =>
              exists message,
                format_position_alert e = Some message
                /\ ends_with (nl +:+ "🏆 Winrate: N/A (pas de trades BTC)")
                     message)
      (events_of_account a (new_positions (check_position_changes up prev))).
Proof.
  intros up prev a Hin Hfills.
  rewrite (events_of_account_check up prev a Hin).
  pose proof (winrate_fields_unscored up a Hfills) as Hw.
  destruct (get_current_position up a) as [cur|] eqn:Hcur.
  2:{ rewrite (events_for_closed up prev a Hcur). constructor. }
  destruct (prev !! a) as [prv|] eqn:Hprev.
  2:{ rewrite (events_for_new up prev a cur Hcur Hprev).
      constructor; [|constructor].
      apply format_position_alert_na. exact Hw. }
  destruct (decide (direction cur = direction prv)) as [Hd|Hd].
  - rewrite (events_for_same_direction up prev a cur prv Hcur Hprev Hd).
    destruct (0 <? abs (size_btc prv))%float; [|constructor].
    destruct (50 <? _)%float; [|constructor].
    constructor; [|constructor].
    apply format_position_alert_na. exact Hw.
  - rewrite (events_for_flip up prev a cur prv Hcur Hprev Hd).
    constructor; [|constructor].
    apply format_position_alert_na. exact Hw.
Qed.

(** The first account holds LONG 40 BTC and its fills request times out. *)
Lemma unscored_account_alert_says_na_witness :
  Forall (fun e =>
            exists message,
              format_position_alert e = Some message
              /\ ends_with (nl +:+ "🏆 Winrate: N/A (pas de trades BTC)")
                   message)
    (events_of_account (whale 0)
       (new_positions (check_position_changes bullish_upstream ∅))).
Proof.
  refine (unscored_account_alert_says_na bullish_upstream ∅ (whale 0) _ _).
  - in_roster.
  - by_eval.
Defined.

(** ** The table of the runner *)

Lemma retained_scored_entry roster up days min_trades :
  1 <= min_trades ->
  Forall scored_entry (retained_winrates roster up days min_trades).
Proof.
  intros Hmin. apply Forall_forall. intros wr Hwr.
  destruct (retained_winrates_elem roster up days min_trades wr Hwr)
    as (a & _ & -> & Henough).
  destruct (get_whale_winrate_reads up a days)
    as [[_ Hc]|(w & x & n & Hw & Hnum & Hp & Ht & _ & Hs)].
  - unfold enough_trades in Henough. rewrite Hc in Henough.
    cbn in Henough. apply Z.leb_le in Henough. lia.
  - exists w, x, n, (address_short_of a). auto.
Qed.

Lemma winrates_row_scored i wr :
  scored_entry wr -> is_Some (winrates_row i wr).
Proof.
  intros (w & x & n & s & Hw & Hnum & Hp & Ht & Hs).
  unfold winrates_row. rewrite Hp, Hw, Ht, Hs. cbn [mbind option_bind].
  destruct (format_f_is_number w 5 1 false Hnum) as [wt ->].
  cbn. eexists; reflexivity.
Qed.

Lemma winrates_rows_scored winrates :
  Forall scored_entry winrates ->
  forall i, exists rows,
    winrates_rows i winrates = Some rows /\ length rows = length winrates.
Proof.
  induction 1 as [|wr winrates Hwr Hall IH]; intros i.
  - now exists [].
  - cbn [winrates_rows].
    destruct (winrates_row_scored i wr Hwr) as [row ->].
    destruct (IH (i + 1)) as (rows & -> & Hlen).
    exists (row :: rows). cbn. now rewrite Hlen.
Qed.

(** On typed answers the table of [--winrates] is printed: the ranking
    over 30 days with at least 5 trades returns, and every entry has the
    four keys a row reads, with values that the format specs accept. *)
Lemma main_winrates_typed_returns :
  forall (up : Upstream),
    exists rows : list string,
      main_winrates up = Some rows
      /\ length rows
         = (15 `min` length (retained_winrates WHALE_ADDRESSES up 30 5))%nat.
Proof.
  intros up. unfold main_winrates, get_all_winrates, get_all_winrates_on.
  set (retained := retained_winrates WHALE_ADDRESSES up 30 5).
  assert (Hscored : Forall scored_entry retained)
    by (apply retained_scored_entry; lia).
  assert (Hkeys : Forall (key_ordered winrate_key) retained)
    by (apply retained_ordered_keys; lia).
  clearbody retained.
  rewrite (sort_desc_ordered winrate_key retained Hkeys).
  cbn [mbind option_bind].
  pose proof (sort_by_perm (key_less winrate_key) retained) as Hperm.
  set (out := sort_by (key_less winrate_key) retained) in *. clearbody out.
  assert (Hout : Forall scored_entry (take 15 out)).
  { apply Forall_take. now rewrite Hperm. }
  destruct (winrates_rows_scored (take 15 out) Hout 1) as (rows & -> & Hlen).
  exists rows. split; [reflexivity|].
  now rewrite Hlen, length_take, (Permutation_length Hperm).
Qed.

(** ** Raw bodies and their typed reading *)

(** Case analysis on the first Python expression that is evaluated. *)
Ltac outcome_step :=
  match goal with
  | |- context [mbind _ ?o] =>
      lazymatch o with
      | mbind _ _ => fail
      | _ =>
          let E := fresh "E" in
          destruct o eqn:E;
          cbn [mbind Outcome_bind mret Outcome_ret returned]
      end
  end.

Section RawTyped.
Variable float_of_str : string -> option float.

Lemma coin_name_not_btc coin :
  is_str "BTC" coin = false -> String.eqb (coin_name coin) "BTC" = false.
Proof. destruct coin; try reflexivity. intros H. exact H. Qed.

Lemma scan_positions_raw_decode addr account_value items :
  scan_positions_raw float_of_str addr account_value items
  = (positions ← decode_positions float_of_str items;
     Returned (scan_asset_positions addr account_value positions)).
Proof.
  induction items as [|pos rest IH]; [reflexivity|].
  cbn [scan_positions_raw decode_positions].
  outcome_step; [reflexivity|].
  outcome_step; [reflexivity|].
  destruct (is_str "BTC" value0) eqn:Hbtc.
  - outcome_step; [reflexivity|].
    outcome_step; [reflexivity|].
    destruct (value2 =? 0)%float eqn:Hzero; cbn [negb].
    + rewrite IH. outcome_step; [reflexivity|].
      cbn [scan_asset_positions coin szi]. rewrite Hzero.
      now rewrite andb_false_r.
    + repeat (outcome_step; [reflexivity|]).
      cbn [scan_asset_positions coin szi entryPx leverage_value unrealizedPnl].
      now rewrite Hzero.
  - rewrite IH. outcome_step; [reflexivity|].
    cbn [scan_asset_positions coin]. now rewrite coin_name_not_btc.
Qed.

Lemma get_current_position_raw_typed up addr :
  position_well_typed float_of_str up addr = true ->
  get_current_position_raw float_of_str up addr
  = Returned (get_current_position (typed float_of_str up) addr).
Proof.
  unfold position_well_typed, get_current_position_raw, get_current_position,
    typed.
  cbn [clearinghouseState].
  destruct (raw_clearinghouseState up addr) as [| | | |data];
    try (intros _; reflexivity).
  cbn [decode_response _post].
  unfold decode_state.
  destruct (truthy data); cbn [negb]; [|intros _; reflexivity].
  outcome_step; [discriminate|].
  destruct value; cbn [negb]; [|intros _; reflexivity].
  do 5 (outcome_step; [discriminate|]).
  rewrite scan_positions_raw_decode.
  outcome_step; [discriminate|]. intros _. reflexivity.
Qed.

Lemma get_current_position_raw_ill_typed up addr :
  position_well_typed float_of_str up addr = false ->
  get_current_position_raw float_of_str up addr = Raised.
Proof.
  unfold position_well_typed, get_current_position_raw.
  destruct (raw_clearinghouseState up addr) as [| | | |data];
    try discriminate.
  cbn [decode_response _post].
  unfold decode_state.
  destruct (truthy data); cbn [negb]; [|discriminate].
  outcome_step; [reflexivity|].
  destruct value; cbn [negb]; [|discriminate].
  do 5 (outcome_step; [reflexivity|]).
  rewrite scan_positions_raw_decode.
  outcome_step; [reflexivity|discriminate].
Qed.

Lemma btc_fills_raw_decode items :
  (btc_fills ← btc_fills_raw items; converted_fills float_of_str btc_fills)
  = (fills ← decode_fill_items float_of_str items;
     Returned (btc_fills_of fills)).
Proof.
  induction items as [|f rest IH]; [reflexivity|].
  cbn [btc_fills_raw decode_fill_items].
  destruct (dict_get f "coin" JNull) as [|coin];
    cbn [mbind Outcome_bind mret Outcome_ret]; [reflexivity|].
  destruct (btc_fills_raw rest) as [|btc_fills];
    cbn [mbind Outcome_bind mret Outcome_ret] in *.
  - destruct (decode_fill_items float_of_str rest); [|discriminate].
    destruct (is_str "BTC" coin);
      cbn [mbind Outcome_bind mret Outcome_ret]; [|reflexivity].
    destruct (dict_get f "closedPnl" (JInt 0)) as [|closedPnl];
      cbn [mbind Outcome_bind mret Outcome_ret]; [reflexivity|].
    now destruct (to_float float_of_str closedPnl).
  - destruct (is_str "BTC" coin) eqn:Hbtc.
    + cbn [converted_fills].
      outcome_step; [reflexivity|].
      outcome_step; [reflexivity|].
      rewrite IH.
      outcome_step; [reflexivity|].
      unfold btc_fills_of. cbn [List.filter fill_coin]. reflexivity.
    + rewrite IH. cbn [mbind Outcome_bind mret Outcome_ret].
      outcome_step; [reflexivity|].
      unfold btc_fills_of. cbn [List.filter fill_coin].
      now rewrite coin_name_not_btc.
Qed.

Lemma decode_fill_items_length items fills :
  decode_fill_items float_of_str items = Returned fills ->
  length fills = length items.
Proof.
  revert fills. induction items as [|f rest IH]; intros fills.
  - intros [= <-]. reflexivity.
  - cbn [decode_fill_items].
    outcome_step; [discriminate|].
    outcome_step; [discriminate|].
    outcome_step; [discriminate|].
    intros [= <-]. cbn [length]. f_equal. now apply IH.
Qed.

Lemma iterate_truthy v items :
  truthy v = true -> iterate v = Returned items -> items <> [].
Proof.
  destruct v as [| | | |s|l|d]; try discriminate.
  - destruct s; [discriminate|]. intros _ [= <-]. discriminate.
  - destruct l; [discriminate|]. intros _ [= <-]. discriminate.
  - destruct d; [discriminate|]. intros _ [= <-]. discriminate.
Qed.

Lemma get_whale_winrate_raw_typed up addr days :
  fills_well_typed float_of_str up days addr = true ->
  get_whale_winrate_raw float_of_str up addr days
  = Returned (get_whale_winrate (typed float_of_str up) addr days).
Proof.
  unfold fills_well_typed, get_whale_winrate_raw, get_whale_winrate, typed.
  cbn [userFillsByTime].
  destruct (raw_userFillsByTime up addr days) as [| | | |data];
    try (intros _; reflexivity).
  cbn [decode_response _post].
  unfold decode_fills.
  destruct (truthy data) eqn:Htruthy; cbn [negb]; [|intros _; reflexivity].
  destruct (iterate data) as [|items] eqn:Hitems;
    cbn [mbind Outcome_bind mret Outcome_ret]; [discriminate|].
  pose proof (btc_fills_raw_decode items) as Hbtc.
  destruct (decode_fill_items float_of_str items) as [|fills] eqn:Hfills;
    cbn [mbind Outcome_bind mret Outcome_ret returned] in *; [discriminate|].
  intros _.
  destruct (btc_fills_raw items) as [|raw_btc];
    cbn [mbind Outcome_bind mret Outcome_ret] in *; [discriminate|].
  rewrite Hbtc. cbn [mbind Outcome_bind mret Outcome_ret _post].
  pose proof (decode_fill_items_length items fills Hfills) as Hlen.
  pose proof (iterate_truthy data items Htruthy Hitems) as Hne.
  destruct fills as [|f fills];
    [destruct items; [congruence|discriminate]|].
  cbv beta iota.
  destruct (closed_trades_of (btc_fills_of (f :: fills))); reflexivity.
Qed.

Lemma winrate_fields_raw_typed up addr :
  fills_well_typed float_of_str up 30 addr = true ->
  winrate_fields_raw float_of_str up addr
  = Returned (winrate_fields (typed float_of_str up) addr).
Proof.
  intros Hfills. unfold winrate_fields_raw, winrate_fields.
  now rewrite (get_whale_winrate_raw_typed up addr 30 Hfills).
Qed.

Lemma check_address_raw_typed up prev st addr :
  well_typed float_of_str up addr = true ->
  check_address_raw float_of_str up prev st addr
  = Returned (check_address (typed float_of_str up) prev st addr).
Proof.
  unfold well_typed. intros [Hpos Hfills]%andb_prop.
  unfold check_address_raw, check_address.
  rewrite (get_current_position_raw_typed up addr Hpos).
  rewrite (winrate_fields_raw_typed up addr Hfills).
  cbn [mbind Outcome_bind mret Outcome_ret].
  destruct (winrate_fields (typed float_of_str up) addr)
    as [[winrate pnl_30d] trades_30d].
  destruct (get_current_position (typed float_of_str up) addr) as [cur|];
    [|reflexivity].
  destruct (prev !! addr) as [prv|]; [|reflexivity].
  destruct (negb (bool_decide (direction cur = direction prv)));
    [reflexivity|].
  destruct (0 <? abs (size_btc prv))%float; [|reflexivity].
  destruct (50 <? _)%float; reflexivity.
Qed.

Lemma check_address_raw_ill_typed up prev st addr :
  position_well_typed float_of_str up addr = false ->
  check_address_raw float_of_str up prev st addr = Raised.
Proof.
  intros Hpos. unfold check_address_raw.
  now rewrite (get_current_position_raw_ill_typed up addr Hpos).
Qed.

Lemma sweep_raw_raised up prev roster :
  fold_left
    (fun st addr => st ← st; check_address_raw float_of_str up prev st addr)
    roster Raised
  = Raised.
Proof. induction roster as [|a roster IH]; [reflexivity|exact IH]. Qed.

Lemma sweep_raw_typed up prev roster :
  forallb (well_typed float_of_str up) roster = true ->
  forall st,
    fold_left
      (fun st addr => st ← st; check_address_raw float_of_str up prev st addr)
      roster (Returned st)
    = Returned (fold_left (check_address (typed float_of_str up) prev)
                  roster st).
Proof.
  induction roster as [|a roster IH]; intros Hall st; [reflexivity|].
  cbn [forallb] in Hall. apply andb_prop in Hall as [Ha Hall].
  cbn [fold_left mbind Outcome_bind].
  rewrite (check_address_raw_typed up prev st a Ha).
  now apply IH.
Qed.

Lemma sweep_raw_ill_typed up prev roster addr :
  In addr roster ->
  position_well_typed float_of_str up addr = false ->
  forall st,
    fold_left
      (fun st addr => st ← st; check_address_raw float_of_str up prev st addr)
      roster st
    = Raised.
Proof.
  intros Hin Hbad. induction roster as [|a roster IH]; intros st;
    [destruct Hin|].
  cbn [fold_left].
  destruct st as [|st]; cbn [mbind Outcome_bind];
    [apply sweep_raw_raised|].
  destruct Hin as [->|Hin].
  - rewrite (check_address_raw_ill_typed up prev st addr Hbad).
    apply sweep_raw_raised.
  - now apply IH.
Qed.

Lemma check_position_changes_raw_typed up prev :
  forallb (well_typed float_of_str up) WHALE_ADDRESSES = true ->
  check_position_changes_raw float_of_str up prev
  = Returned (check_position_changes (typed float_of_str up) prev).
Proof.
  unfold check_position_changes_raw, check_position_changes_raw_on,
    check_position_changes, check_position_changes_on.
  generalize WHALE_ADDRESSES. intros roster Hall.
  exact (sweep_raw_typed up prev roster Hall _).
Qed.

Lemma run_cycle_raw_typed up writable file :
  forallb (well_typed float_of_str up) WHALE_ADDRESSES = true ->
  run_cycle_raw float_of_str up writable file
  = (Returned (run_cycle (typed float_of_str up) writable file).1,
     (run_cycle (typed float_of_str up) writable file).2).
Proof.
  intros Hall. unfold run_cycle_raw, run_cycle. cbn [fst snd].
  rewrite (check_position_changes_raw_typed up
             (_load_previous_positions file) Hall).
  reflexivity.
Qed.

Lemma scores_raw_typed up days roster :
  forallb (fills_well_typed float_of_str up days) roster = true ->
  scores_raw float_of_str roster up days
  = Returned
      (map (fun addr => get_whale_winrate (typed float_of_str up) addr days)
         roster).
Proof.
  induction roster as [|a roster IH]; intros Hall; [reflexivity|].
  cbn [forallb] in Hall. apply andb_prop in Hall as [Ha Hall].
  cbn [scores_raw map].
  rewrite (get_whale_winrate_raw_typed up a days Ha).
  cbn [mbind Outcome_bind mret Outcome_ret].
  now rewrite (IH Hall).
Qed.

End RawTyped.

Section RawRuns.
Variable float_of_str : string -> option float.

Lemma get_whale_winrate_raw_ill_typed up addr days :
  fills_well_typed float_of_str up days addr = false ->
  get_whale_winrate_raw float_of_str up addr days = Raised.
Proof.
  unfold fills_well_typed, get_whale_winrate_raw.
  destruct (raw_userFillsByTime up addr days) as [| | | |data];
    try discriminate.
  cbn [decode_response _post].
  unfold decode_fills.
  destruct (truthy data); cbn [negb]; [|discriminate].
  destruct (iterate data) as [|items];
    cbn [mbind Outcome_bind mret Outcome_ret]; [reflexivity|].
  pose proof (btc_fills_raw_decode float_of_str items) as Hbtc.
  destruct (decode_fill_items float_of_str items) as [|fills];
    cbn [mbind Outcome_bind mret Outcome_ret returned] in *; [|discriminate].
  intros _.
  destruct (btc_fills_raw items) as [|raw_btc];
    cbn [mbind Outcome_bind mret Outcome_ret] in *; [reflexivity|].
  now rewrite Hbtc.
Qed.

Lemma scores_raw_ill_typed up days roster addr :
  In addr roster ->
  fills_well_typed float_of_str up days addr = false ->
  scores_raw float_of_str roster up days = Raised.
Proof.
  intros Hin Hbad. induction roster as [|a roster IH]; [destruct Hin|].
  cbn [scores_raw].
  destruct Hin as [->|Hin].
  - now rewrite (get_whale_winrate_raw_ill_typed up addr days Hbad).
  - rewrite (IH Hin).
    now destruct (get_whale_winrate_raw float_of_str up a days).
Qed.

Lemma monitor_and_alert_raw_typed up tg writable file :
  forallb (well_typed float_of_str up) WHALE_ADDRESSES = true ->
  monitor_and_alert_raw float_of_str up tg writable file
  = ((monitor_and_alert (typed float_of_str up) tg writable file).1,
     match (monitor_and_alert (typed float_of_str up) tg writable file).2 with
     | Some returned => Returned returned
     | None => Raised
     end).
Proof.
  intros Hall. unfold monitor_and_alert_raw.
  rewrite (run_cycle_raw_typed float_of_str up writable file Hall).
  unfold monitor_and_alert.
  destruct (run_cycle (typed float_of_str up) writable file)
    as [events file'].
  cbn [fst snd].
  destruct (alert_loop tg events 0 []) as [[alerts_sent posted]|];
    reflexivity.
Qed.

Lemma get_all_winrates_raw_typed up days min_trades :
  forallb (fills_well_typed float_of_str up days) WHALE_ADDRESSES = true ->
  get_all_winrates_raw float_of_str up days min_trades
  = match get_all_winrates (typed float_of_str up) days min_trades with
    | Some results => Returned results
    | None => Raised
    end.
Proof.
  unfold get_all_winrates_raw, get_all_winrates, get_all_winrates_on,
    retained_winrates.
  generalize WHALE_ADDRESSES. intros roster Hall.
  rewrite (scores_raw_typed float_of_str up days roster Hall).
  reflexivity.
Qed.

Lemma fetch_swallowed_typed up addr :
  fetch_swallowed up addr -> fetch_failed (typed float_of_str up) addr.
Proof.
  unfold fetch_swallowed, fetch_failed, typed. cbn [clearinghouseState].
  destruct (raw_clearinghouseState up addr) as [| | | |data];
    cbn [_post decode_response]; try (intros _; exact I).
  unfold decode_state. intros [Hfalsy|Hmissing].
  - rewrite Hfalsy. reflexivity.
  - destruct (truthy data); [|reflexivity].
    cbn [negb]. rewrite Hmissing. reflexivity.
Qed.

End RawRuns.

(** ** Ill-typed answers *)

(** C6. The claim fails on a body that decodes but is ill typed.  With
    LONG 1 BTC of [whale 0] stored and LONG 3 BTC of [whale 2] not yet
    seen, an answer for [whale 0] whose ['szi'] is the str ['abc'] makes
    [float] raise in [get_current_position], outside the [try] of [_post]:
    the exception leaves [check_position_changes] and [monitor_and_alert],
    no account after [whale 0] is looked at, no event is returned and the
    file is not written, so [whale 0] stays in it.  When the same request
    fails at the connection, [_post] swallows the exception and the cycle
    does what the claim says: it reports [whale 2] and writes a file that
    holds [whale 2] only. *)
Theorem C6_ill_typed_body_aborts_cycle :
  let ill_typed :=
    raw_failing_upstream (Body (raw_sample_state (JStr "abc"))) in
  let swallowed := raw_failing_upstream ConnectionError in
  get_current_position_raw sample_float_of_str ill_typed (whale 0) = Raised
  /\ run_cycle_raw sample_float_of_str ill_typed true failing_file
     = (Raised, failing_file)
  /\ (forall tg : Telegram,
        monitor_and_alert_raw sample_float_of_str ill_typed tg true
          failing_file
        = (failing_file, Raised))
  /\ get_current_position_raw sample_float_of_str swallowed (whale 0)
     = Returned None
  /\ run_cycle_raw sample_float_of_str swallowed true failing_file
     = (Returned
          [NEW_POSITION (whale 2) "0xc2a30212..." LONG 3 97000 5 250000
             VNone (VInt 0) (VInt 0)],
        Some {[ whale 2 := sample_position (whale 2) 3 ]}).
Proof.
  intros ill_typed swallowed.
  assert (Hcycle : run_cycle_raw sample_float_of_str ill_typed true
                     failing_file = (Raised, failing_file)) by by_eval.
  split; [by_eval|]. split; [exact Hcycle|]. split.
  { intros tg. unfold monitor_and_alert_raw. now rewrite Hcycle. }
  split; by_eval.
Qed.

(** X21. An ill-typed answer to the position request of any roster account
    makes the whole run raise: [check_position_changes] does not return,
    the file is left as it was and nothing is posted; likewise one
    ill-typed fills answer makes [get_all_winrates] raise. *)
Theorem ill_typed_answer_aborts_run :
  forall (float_of_str : string -> option float) (up : RawUpstream)
         (tg : Telegram) (writable : bool) (file : PositionsFile)
         (a : string),
    a ∈ WHALE_ADDRESSES ->
    (position_well_typed float_of_str up a = false ->
     get_current_position_raw float_of_str up a = Raised
     /\ run_cycle_raw float_of_str up writable file = (Raised, file)
     /\ monitor_and_alert_raw float_of_str up tg writable file
        = (file, Raised))
    /\ (forall days min_trades,
          fills_well_typed float_of_str up days a = false ->
          get_whale_winrate_raw float_of_str up a days = Raised
          /\ get_all_winrates_raw float_of_str up days min_trades = Raised).
Proof.
  intros float_of_str up tg writable file a Hin. split.
  - intros Hbad.
    assert (Hsweep : check_position_changes_raw float_of_str up
                       (_load_previous_positions file) = Raised).
    { unfold check_position_changes_raw, check_position_changes_raw_on.
      apply list_elem_of_In in Hin. revert Hin.
      generalize WHALE_ADDRESSES. intros roster Hin.
      exact (sweep_raw_ill_typed float_of_str up _ roster a Hin Hbad _). }
    assert (Hcycle : run_cycle_raw float_of_str up writable file
                     = (Raised, file)).
    { unfold run_cycle_raw. now rewrite Hsweep. }
    split; [now apply get_current_position_raw_ill_typed|].
    split; [exact Hcycle|].
    unfold monitor_and_alert_raw. now rewrite Hcycle.
  - intros days min_trades Hbad.
    split; [now apply get_whale_winrate_raw_ill_typed|].
    unfold get_all_winrates_raw.
    apply list_elem_of_In in Hin. revert Hin.
    generalize WHALE_ADDRESSES. intros roster Hin.
    now rewrite (scores_raw_ill_typed float_of_str up days roster a Hin Hbad).
Qed.

(** The position answer of [whale 20] is a list that holds the str
    ['assetPositions'], and its one BTC fill has the [closedPnl] ['n/a']. *)
Lemma ill_typed_answer_aborts_run_witness :
  (get_current_position_raw sample_float_of_str raw_untidy_upstream
     (whale 20) = Raised
   /\ run_cycle_raw sample_float_of_str raw_untidy_upstream true None
      = (Raised, None)
   /\ monitor_and_alert_raw sample_float_of_str raw_untidy_upstream
        flaky_telegram true None
      = (None, Raised))
  /\ get_whale_winrate_raw sample_float_of_str raw_untidy_upstream
       (whale 20) 30 = Raised
  /\ get_all_winrates_raw sample_float_of_str raw_untidy_upstream 30 5
     = Raised.
Proof.
  assert (Hin : whale 20 ∈ WHALE_ADDRESSES) by in_roster.
  destruct (ill_typed_answer_aborts_run sample_float_of_str
              raw_untidy_upstream flaky_telegram true None (whale 20) Hin)
    as [Hposition Hfills].
  split.
  - apply Hposition. by_eval.
  - apply (Hfills 30 5). by_eval.
Defined.

(** ** Well-typed answers *)

(** X20. When the answers about every roster account are well typed, a run
    on the decoded bodies returns, and it returns what the typed operations
    give on the typed reading of the bodies: the same snapshot and the same
    winrate dict for every roster account, the same events, the same file,
    the same result of [monitor_and_alert]. *)
Theorem well_typed_run_is_typed_run :
  forall (float_of_str : string -> option float) (up : RawUpstream)
         (tg : Telegram) (writable : bool) (file : PositionsFile),
    forallb (well_typed float_of_str up) WHALE_ADDRESSES = true ->
    let typed_up := typed float_of_str up in
    (forall a, a ∈ WHALE_ADDRESSES ->
       get_current_position_raw float_of_str up a
       = Returned (get_current_position typed_up a)
       /\ get_whale_winrate_raw float_of_str up a 30
          = Returned (get_whale_winrate typed_up a 30))
    /\ run_cycle_raw float_of_str up writable file
       = (Returned (run_cycle typed_up writable file).1,
          (run_cycle typed_up writable file).2)
    /\ exists (result : MonitorResult) (posted : list string),
         monitor_and_alert typed_up tg writable file
         = ((run_cycle typed_up writable file).2, Some (result, posted))
         /\ monitor_and_alert_raw float_of_str up tg writable file
            = ((run_cycle typed_up writable file).2,
               Returned (result, posted)).
Proof.
  intros float_of_str up tg writable file Hall typed_up. split.
  { intros a Ha.
    assert (Hwt : well_typed float_of_str up a = true).
    { apply list_elem_of_In in Ha. revert Hall Ha.
      generalize WHALE_ADDRESSES. intros roster Hall Ha.
      exact (proj1 (forallb_forall _ roster) Hall a Ha). }
    unfold well_typed in Hwt. apply andb_prop in Hwt as [Hpos Hfills].
    split.
    - now apply get_current_position_raw_typed.
    - now apply get_whale_winrate_raw_typed. }
  split; [now apply run_cycle_raw_typed|].
  rewrite (monitor_and_alert_raw_typed float_of_str up tg writable file Hall).
  fold typed_up.
  destruct (monitor_and_alert_typed_returns typed_up tg writable file)
    as (result & posted & Hret & _).
  exists result, posted.
  pose proof (monitor_and_alert_file typed_up tg writable file) as Hfile.
  destruct (monitor_and_alert typed_up tg writable file) as [file' out].
  cbn [fst snd] in *. subst out file'. split; reflexivity.
Qed.

(** The first run against well-typed bodies, with a bot whose first request
    times out. *)
Lemma well_typed_run_is_typed_run_witness :
  let typed_up := typed sample_float_of_str raw_tidy_upstream in
  (forall a, a ∈ WHALE_ADDRESSES ->
     get_current_position_raw sample_float_of_str raw_tidy_upstream a
     = Returned (get_current_position typed_up a)
     /\ get_whale_winrate_raw sample_float_of_str raw_tidy_upstream a 30
        = Returned (get_whale_winrate typed_up a 30))
  /\ run_cycle_raw sample_float_of_str raw_tidy_upstream true None
     = (Returned (run_cycle typed_up true None).1,
        (run_cycle typed_up true None).2)
  /\ exists (result : MonitorResult) (posted : list string),
       monitor_and_alert typed_up flaky_telegram true None
       = ((run_cycle typed_up true None).2, Some (result, posted))
       /\ monitor_and_alert_raw sample_float_of_str raw_tidy_upstream
            flaky_telegram true None
          = ((run_cycle typed_up true None).2, Returned (result, posted)).
Proof.
  refine (well_typed_run_is_typed_run sample_float_of_str raw_tidy_upstream
            flaky_telegram true None _).
  by_eval.
Defined.

(** X14. When the answers about every roster account are well typed and
    the positions file is missing, undecodable or as a tracker wrote it,
    [monitor_and_alert] returns whatever Telegram does: no event of the
    cycle makes [format_position_alert] raise.  The returned dict lists the
    events of the cycle, counts them, and reports a number of alerts
    between 0 and that count; at most one text per event was posted. *)
Theorem monitor_and_alert_returns :
  forall (float_of_str : string -> option float) (up : RawUpstream)
         (tg : Telegram) (writable : bool) (file : PositionsFile),
    forallb (well_typed float_of_str up) WHALE_ADDRESSES = true ->
    exists (result : MonitorResult) (posted : list string),
      (monitor_and_alert_raw float_of_str up tg writable file).2
      = Returned (result, posted)
      /\ (run_cycle_raw float_of_str up writable file).1
         = Returned (changes result)
      /\ changes_detected result = Z.of_nat (length (changes result))
      /\ 0 <= alerts_sent result <= changes_detected result
      /\ (length posted <= length (changes result))%nat.
Proof.
  intros float_of_str up tg writable file Hall.
  rewrite (monitor_and_alert_raw_typed float_of_str up tg writable file Hall).
  rewrite (run_cycle_raw_typed float_of_str up writable file Hall).
  cbn [fst snd].
  destruct (monitor_and_alert_typed_returns (typed float_of_str up) tg
              writable file)
    as (result & posted & Hret & Hchanges & Hrest).
  exists result, posted. rewrite Hret.
  split; [reflexivity|]. split; [now rewrite Hchanges|exact Hrest].
Qed.

(** [whale 4] opens LONG 3 BTC; the first request to Telegram times out. *)
Lemma monitor_and_alert_returns_witness :
  exists (result : MonitorResult) (posted : list string),
    (monitor_and_alert_raw sample_float_of_str raw_tidy_upstream
       flaky_telegram true None).2
    = Returned (result, posted)
    /\ (run_cycle_raw sample_float_of_str raw_tidy_upstream true None).1
       = Returned (changes result)
    /\ changes_detected result = Z.of_nat (length (changes result))
    /\ 0 <= alerts_sent result <= changes_detected result
    /\ (length posted <= length (changes result))%nat.
Proof.
  refine (monitor_and_alert_returns sample_float_of_str raw_tidy_upstream
            flaky_telegram true None _).
  by_eval.
Defined.

Lemma retained_winrates_eq roster up days min_trades :
  retained_winrates roster up days min_trades
  = List.filter (enough_trades min_trades)
      (map (fun addr => get_whale_winrate up addr days) roster).
Proof. reflexivity. Qed.

Lemma main_winrates_eq up :
  main_winrates up
  = (get_all_winrates up 30 5
     ≫= fun winrates => winrates_rows 1 (take 15 winrates)).
Proof. reflexivity. Qed.

Lemma main_winrates_raw_eq float_of_str up :
  main_winrates_raw float_of_str up
  = (get_all_winrates_raw float_of_str up 30 5
     ≫= fun winrates =>
          match winrates_rows 1 (take 15 winrates) with
          | None => Raised
          | Some rows => Returned rows
          end).
Proof. reflexivity. Qed.

(** X19. When the fills answers about every roster account are well typed,
    the [--winrates] mode of the runner returns: the ranking it asks for
    (30 days, at least 5 trades) returns, every entry has the four keys a
    row reads with values the format specs accept, and the table has one
    row per retained account, up to 15. *)
Theorem main_winrates_returns :
  forall (float_of_str : string -> option float) (up : RawUpstream),
    forallb (fills_well_typed float_of_str up 30) WHALE_ADDRESSES = true ->
    exists (scores : list (gmap string PyVal)) (rows : list string),
      scores_raw float_of_str WHALE_ADDRESSES up 30 = Returned scores
      /\ main_winrates_raw float_of_str up = Returned rows
      /\ length rows
         = (15 `min` length (List.filter (enough_trades 5) scores))%nat.
Proof.
  intros float_of_str up Hall.
  destruct (main_winrates_typed_returns (typed float_of_str up))
    as (rows & Hrows & Hlen).
  rewrite retained_winrates_eq in Hlen.
  rewrite main_winrates_eq in Hrows.
  exists (map (fun addr => get_whale_winrate (typed float_of_str up) addr 30)
            WHALE_ADDRESSES), rows.
  split; [|split; [|exact Hlen]].
  - revert Hall. generalize WHALE_ADDRESSES. intros roster Hall.
    exact (scores_raw_typed float_of_str up 30 roster Hall).
  - rewrite main_winrates_raw_eq.
    rewrite (get_all_winrates_raw_typed float_of_str up 30 5 Hall).
    destruct (get_all_winrates (typed float_of_str up) 30 5) as [winrates|];
      [|discriminate].
    cbn [mbind option_bind] in Hrows.
    cbn [mbind Outcome_bind mret Outcome_ret]. rewrite Hrows. reflexivity.
Qed.

(** One account has five closed BTC trades, one has an ETH fill only, the
    other requests fail at the connection. *)
Lemma main_winrates_returns_witness :
  exists (scores : list (gmap string PyVal)) (rows : list string),
    scores_raw sample_float_of_str WHALE_ADDRESSES raw_tidy_upstream 30
    = Returned scores
    /\ main_winrates_raw sample_float_of_str raw_tidy_upstream
       = Returned rows
    /\ length rows
       = (15 `min` length (List.filter (enough_trades 5) scores))%nat.
Proof.
  refine (main_winrates_returns sample_float_of_str raw_tidy_upstream _).
  by_eval.
Defined.

(** ** The failures that are handled *)

(** X22. The failures the code handles.  When the answers about every
    roster account are well typed and the position request of an account
    fails in [_post] (connection error, timeout, HTTP error status,
    undecodable body) or brings a body that is empty or has no
    ['assetPositions'], the cycle returns: the account has no snapshot and
    no event, the file written has no entry for it, every roster account's
    entry in the file is the snapshot its own request gave, and the entry
    of the failed account is back after a later cycle in which its request
    returns a position. *)
Theorem swallowed_failure_drops_account :
  forall (float_of_str : string -> option float) (up : RawUpstream)
         (file : PositionsFile) (a : string),
    forallb (well_typed float_of_str up) WHALE_ADDRESSES = true ->
    fetch_swallowed up a ->
    exists (events : list ChangeEvent) (saved : gmap string WhalePosition),
      run_cycle_raw float_of_str up true file = (Returned events, Some saved)
      /\ get_current_position_raw float_of_str up a = Returned None
      /\ events_of_account a events = []
      /\ saved !! a = None
      /\ (forall b, b ∈ WHALE_ADDRESSES ->
            get_current_position_raw float_of_str up b
            = Returned (saved !! b))
      /\ (forall up' pos,
            a ∈ WHALE_ADDRESSES ->
            forallb (well_typed float_of_str up') WHALE_ADDRESSES = true ->
            get_current_position_raw float_of_str up' a
            = Returned (Some pos) ->
            exists saved',
              (run_cycle_raw float_of_str up' true (Some saved)).2
              = Some saved'
              /\ saved' !! a = Some pos).
Proof.
  intros float_of_str up file a Hall Hswallowed.
  pose proof (fetch_swallowed_typed float_of_str up a Hswallowed) as Hfail.
  assert (Hwt : forall up' b,
            forallb (well_typed float_of_str up') WHALE_ADDRESSES = true ->
            b ∈ WHALE_ADDRESSES ->
            get_current_position_raw float_of_str up' b
            = Returned (get_current_position (typed float_of_str up') b)).
  { intros up' b Hall' Hb. apply get_current_position_raw_typed.
    apply list_elem_of_In in Hb. revert Hall' Hb.
    generalize WHALE_ADDRESSES. intros roster Hall' Hb.
    pose proof (proj1 (forallb_forall _ roster) Hall' b Hb) as Hwt.
    unfold well_typed in Hwt. now apply andb_prop in Hwt as [Hpos _]. }
  set (typed_up := typed float_of_str up) in *.
  assert (Htyped : typed float_of_str up = typed_up) by reflexivity.
  assert (Hnone : get_current_position typed_up a = None).
  { unfold get_current_position. unfold fetch_failed in Hfail.
    destruct (_post (clearinghouseState typed_up a)) as [data|];
      [|reflexivity].
    now rewrite Hfail. }
  clearbody typed_up.
  set (prev := _load_previous_positions file).
  exists (new_positions (check_position_changes typed_up prev)),
    (current_positions (check_position_changes typed_up prev)).
  split.
  { rewrite (run_cycle_raw_typed float_of_str up true file Hall).
    rewrite Htyped, (run_cycle_written typed_up file).
    reflexivity. }
  split.
  { destruct (decide (a ∈ WHALE_ADDRESSES)) as [Hin|Hout].
    - now rewrite (Hwt up a Hall Hin), Htyped, Hnone.
    - unfold get_current_position_raw.
      unfold fetch_swallowed in Hswallowed.
      destruct (_post (raw_clearinghouseState up a)) as [data|];
        [|reflexivity].
      destruct Hswallowed as [->|Hmissing]; [reflexivity|].
      destruct (truthy data); [|reflexivity].
      cbn [negb]. now rewrite Hmissing. }
  split.
  { destruct (decide (a ∈ WHALE_ADDRESSES)) as [Hin|Hout].
    - rewrite (events_of_account_check typed_up prev a Hin).
      now apply events_for_closed.
    - now apply events_of_account_check_outside. }
  split.
  { rewrite check_position_changes_saved, Hnone.
    now destruct (bool_decide (a ∈ WHALE_ADDRESSES)). }
  split.
  { intros b Hb. rewrite (Hwt up b Hall Hb), Htyped.
    rewrite check_position_changes_saved.
    now rewrite bool_decide_eq_true_2. }
  intros up' pos Hin Hall' Hpos.
  rewrite (Hwt up' a Hall' Hin) in Hpos. injection Hpos as Hpos.
  set (saved := current_positions (check_position_changes typed_up prev)).
  clearbody saved.
  exists (current_positions
            (check_position_changes (typed float_of_str up')
               (_load_previous_positions (Some saved)))).
  rewrite (run_cycle_raw_typed float_of_str up' true (Some saved) Hall').
  rewrite (run_cycle_written (typed float_of_str up') (Some saved)).
  split; [reflexivity|].
  rewrite check_position_changes_saved.
  now rewrite bool_decide_eq_true_2.
Qed.

(** A connection error on the first account, whose LONG 1 BTC was
    stored. *)
Lemma swallowed_failure_drops_account_witness :
  exists (events : list ChangeEvent) (saved : gmap string WhalePosition),
    run_cycle_raw sample_float_of_str (raw_failing_upstream ConnectionError)
      true failing_file
    = (Returned events, Some saved)
    /\ get_current_position_raw sample_float_of_str
         (raw_failing_upstream ConnectionError) (whale 0)
       = Returned None
    /\ events_of_account (whale 0) events = []
    /\ saved !! whale 0 = None
    /\ (forall b, b ∈ WHALE_ADDRESSES ->
          get_current_position_raw sample_float_of_str
            (raw_failing_upstream ConnectionError) b
          = Returned (saved !! b))
    /\ (forall up' pos,
          whale 0 ∈ WHALE_ADDRESSES ->
          forallb (well_typed sample_float_of_str up') WHALE_ADDRESSES
          = true ->
          get_current_position_raw sample_float_of_str up' (whale 0)
          = Returned (Some pos) ->
          exists saved',
            (run_cycle_raw sample_float_of_str up' true (Some saved)).2
            = Some saved'
            /\ saved' !! whale 0 = Some pos).
Proof.
  refine (swallowed_failure_drops_account sample_float_of_str
            (raw_failing_upstream ConnectionError) failing_file (whale 0)
            _ _).
  - by_eval.
  - exact I.
Defined.
